(** * SplitPdfHook: the PDF page-splitting hook of the partition operation

    A shallow embedding of [SplitPdfHook] (the hook half of
    [src/sdk/models/operations/partition.ts]) and the proofs of its
    specification.

    The hook is a class with private mutable fields and [async] methods.
    It is embedded as state passing over a record [SplitPdfHook] holding the
    fields, in a monad [Hook] that also carries a thrown exception: a
    method that throws keeps every effect it had before the throw.  The
    fetch objects ([Headers], [FormData], [Request], [Response]) are records
    holding what the hook reads from them and what it hands to their
    constructors.

    The background requests run beside the hook.  A join handle holds
    the tasks that have started and have not ended, each with the outcome
    its call of the transport will have, and the tasks that wait for a
    free place.  A request comes back in a step of its own
    ([backgroundStep]), between two calls of the hook or while a join
    handle is awaited; the platform says which one comes back next. *)

From Stdlib Require Import ZArith String Ascii List Lia Permutation.
From stdpp Require Import base option list gmap strings pretty.

Local Open Scope string_scope.
Local Open Scope Z_scope.
Local Open Scope list_scope.

(** ** Strings *)

Module JSString.

(** [s.startsWith(p)] *)
Fixpoint startsWith (p s : string) : bool :=
  match p, s with
  | EmptyString, _ => true
  | String a p', String b s' => Ascii.eqb a b && startsWith p' s'
  | String _ _, EmptyString => false
  end.

(** [s.endsWith(suffix)]: [s] is [suffix], or what follows its first
    character ends with [suffix]. *)
Fixpoint endsWith (s suffix : string) : bool :=
  String.eqb s suffix
  || match s with
     | EmptyString => false
     | String _ s' => endsWith s' suffix
     end.

(** [s.slice(n)] for [0 <= n]. *)
Fixpoint slice (n : nat) (s : string) : string :=
  match n, s with
  | O, _ => s
  | S n', String _ s' => slice n' s'
  | S _, EmptyString => EmptyString
  end.

(** [s.replace(pat, rep)] with a string pattern: only the first
    occurrence of [pat], scanning from the left, is replaced. *)
Fixpoint replace (pat rep s : string) : string :=
  if startsWith pat s then rep +:+ slice (String.length pat) s
  else match s with
       | EmptyString => EmptyString
       | String c s' => String c (replace pat rep s')
       end.

Definition lowerAscii (c : ascii) : ascii :=
  let n := nat_of_ascii c in
  if (Nat.leb 65 n && Nat.leb n 90)%bool then ascii_of_nat (n + 32) else c.

(** [s.toLowerCase()] on ASCII. *)
Fixpoint toLowerCase (s : string) : string :=
  match s with
  | EmptyString => EmptyString
  | String c s' => String (lowerAscii c) (toLowerCase s')
  end.

(** The file name without its four-character extension: what
    "the stem of [name]" means for a name that ends in [.pdf]. *)
Definition stem (name : string) : string :=
  String.substring 0 (String.length name - 4) name.

End JSString.

(** ** JSON values and [Array.prototype.flat] *)

#[local] Unset Elimination Schemes.
Inductive JSON : Type :=
| JNull
| JBool (b : bool)
| JNumber (n : Z)
| JString (s : string)
| JArray (elements : list JSON)
| JObject (members : list (string * JSON)).
#[local] Set Elimination Schemes.

(** [allElements.flat()]: depth 1.  An element that is an array is replaced
    by its elements, any other element is kept. *)
Definition Array_flat (allElements : list JSON) : list JSON :=
  flat_map (fun e => match e with JArray xs => xs | _ => [e] end) allElements.

(** ** Fetch objects *)

(** A header list; names compare case-insensitively. *)
Definition Headers : Type := list (string * string).

Definition Headers_delete (name : string) (h : Headers) : Headers :=
  List.filter
    (fun kv => negb (String.eqb (JSString.toLowerCase (fst kv))
                                (JSString.toLowerCase name))) h.

Definition Headers_has (name : string) (h : Headers) : bool :=
  existsb
    (fun kv => String.eqb (JSString.toLowerCase (fst kv))
                          (JSString.toLowerCase name)) h.

(** What the constructor of a request or of a response does to the
    headers of its init when it is given a body of the type
    [contentType]: the header is appended unless there is one already. *)
Definition Headers_withContentType (contentType : string) (h : Headers) : Headers :=
  if Headers_has "content-type" h then h
  else h ++ [("content-type", contentType)].

Record Blob : Type := { blob_bytes : string; blob_type : string }.

(** A form entry is a string or a file (a named blob). *)
Inductive FormDataEntryValue : Type :=
| FString (s : string)
| FFile (name : string) (content : Blob).

Definition FormData : Type := list (string * FormDataEntryValue).

(** [formData.get(k)]: the first entry named [k], or [null]. *)
Fixpoint FormData_get (k : string) (fd : FormData) : option FormDataEntryValue :=
  match fd with
  | [] => None
  | (k', v) :: fd' => if String.eqb k' k then Some v else FormData_get k fd'
  end.

(** [formData.delete(k)]: every entry named [k] goes. *)
Definition FormData_delete (k : string) (fd : FormData) : FormData :=
  List.filter (fun kv => negb (String.eqb (fst kv) k)) fd.

(** [formData.append(k, v)] *)
Definition FormData_append (k : string) (v : FormDataEntryValue) (fd : FormData)
  : FormData :=
  fd ++ [(k, v)].

(** [formData.getAll(k)] *)
Definition FormData_getAll (k : string) (fd : FormData) : list FormDataEntryValue :=
  map snd (List.filter (fun kv => String.eqb (fst kv) k) fd).

(** A request that carries a multipart form, as the partition operation
    sends it (its method is then neither GET nor HEAD). *)
Record Request : Type := {
  req_method : string;
  req_url : string;
  req_headers : Headers;
  req_form : FormData;
}.

Record Response : Type := {
  res_status : Z;
  res_statusText : string;
  res_headers : Headers;
  res_body : string;
}.

(** ** Exceptions and the hook monad *)

Inductive JSError : Type :=
| TypeError (msg : string)
| SyntaxError (msg : string)
| RangeError (msg : string)
| LibraryError (msg : string).

Inductive Completion (A : Type) : Type :=
| Normal (a : A)
| Throw (e : JSError).
Arguments Normal {A} a.
Arguments Throw {A} e.

Definition isNormal {A} (c : Completion A) : bool :=
  match c with Normal _ => true | Throw _ => false end.

(** Sequencing of fallible steps without state: the first throw wins. *)
Definition cbind {A B} (c : Completion A) (k : A → Completion B) : Completion B :=
  match c with
  | Normal a => k a
  | Throw e => Throw e
  end.

(** [for (const x of xs) { ys.push(await f(x)) }] *)
Fixpoint cmapM {A B} (f : A → Completion B) (xs : list A) : Completion (list B) :=
  match xs with
  | [] => Normal []
  | x :: xs' => cbind (f x) (fun y => cbind (cmapM f xs') (fun ys => Normal (y :: ys)))
  end.

(** ** The constructor of a response *)

(** The statuses of a response that cannot have a body. *)
Definition nullBodyStatus (status : Z) : bool :=
  (status =? 101) || (status =? 103) || (status =? 204) || (status =? 205)
  || (status =? 304).

(** The [Content-Type] that the platform gives to a string body. *)
Definition textContentType : string := "text/plain;charset=UTF-8".

(** [new Response(body, { headers, status, statusText })] with a string
    body: the status must lie in 200..599 ([RangeError]) and allow a body
    ([TypeError]); the headers are those of the init, to which the
    platform appends the [Content-Type] of the body when they have
    none. *)
Definition Response_new (body : string) (headers : Headers) (status : Z)
  (statusText : string) : Completion Response :=
  if (status <? 200) || (599 <? status) then
    Throw (RangeError "init[status] must be in the range of 200 to 599, inclusive.")
  else if nullBodyStatus status then
    Throw (TypeError "Response with null body status cannot have body")
  else
    Normal {| res_status := status;
              res_statusText := statusText;
              res_headers := Headers_withContentType textContentType headers;
              res_body := body |}.

(** ** The hook's state *)

Definition PARTITION_FORM_FILES_KEY : string := "files".
Definition PARTITION_FORM_SPLIT_PDF_PAGE_KEY : string := "split_pdf_page".
Definition MAX_NUMBER_OF_PARALLEL_REQUESTS : Z := 15.

(** The transport: [client.request(req)] resolves to a response or rejects. *)
Definition HTTPClient : Type := Request → Completion Response.

(** One background page request: the closure [(req, i) => async () => ...]
    handed to [async.parallelLimit]. *)
Record Task : Type := { task_index : nat; task_request : Request }.

(** Where a task that has started stands: it waits at its [await] for
    the transport, which will come back with [outcome]; or its body has
    ended before the [await]. *)
Inductive Flight : Type :=
| Waiting (outcome : Completion Response)
| Ended.

(** The join handle returned by [async.parallelLimit(tasks, limit)]: the
    tasks it has started and that have not ended yet; the tasks that
    wait for a free place; and the bound it was given. *)
Record Promise : Type := {
  promise_running : list (Task * Flight);
  promise_queued : list Task;
  promise_limit : Z;
}.

(** One request that comes back: that of the running task at [place] in
    the handle that the map holds for [operationID], or in the orphan at
    the place [orphan]. *)
Inductive Settlement : Type :=
| OfHandle (operationID : string) (place : nat)
| OfOrphan (orphan place : nat).

Inductive LogEntry : Type :=
| Warn (msg : string)
| Error (msg : string).

(** The private fields [#client], [#partitionResponses] and
    [#partitionRequests], the static [parallelLimit], and the console the
    hook writes to.  A slot of a response array is [None] while it is a
    hole.  [orphans] holds the join handles that the map no longer
    refers to while tasks of theirs are still in flight, each with the
    operation id its tasks were made for: the tasks go on and write under
    that id when they settle. *)
Record SplitPdfHook : Type := {
  client : option HTTPClient;
  partitionResponses : gmap string (list (option Response));
  partitionRequests : gmap string Promise;
  parallelLimit : Z;
  console : list LogEntry;
  orphans : list (string * Promise);
}.

(** A fresh hook: the field initialisers of the class. *)
Definition newSplitPdfHook : SplitPdfHook :=
  {| client := None; partitionResponses := ∅; partitionRequests := ∅;
     parallelLimit := 5; console := []; orphans := [] |}.

Definition set_client (c : option HTTPClient) (st : SplitPdfHook) : SplitPdfHook :=
  {| client := c; partitionResponses := partitionResponses st;
     partitionRequests := partitionRequests st;
     parallelLimit := parallelLimit st; console := console st;
     orphans := orphans st |}.

Definition set_partitionResponses (m : gmap string (list (option Response)))
  (st : SplitPdfHook) : SplitPdfHook :=
  {| client := client st; partitionResponses := m;
     partitionRequests := partitionRequests st;
     parallelLimit := parallelLimit st; console := console st;
     orphans := orphans st |}.

Definition set_partitionRequests (m : gmap string Promise)
  (st : SplitPdfHook) : SplitPdfHook :=
  {| client := client st; partitionResponses := partitionResponses st;
     partitionRequests := m;
     parallelLimit := parallelLimit st; console := console st;
     orphans := orphans st |}.

(** The assignment [SplitPdfHook.parallelLimit = n] of a caller. *)
Definition set_parallelLimit (n : Z) (st : SplitPdfHook) : SplitPdfHook :=
  {| client := client st; partitionResponses := partitionResponses st;
     partitionRequests := partitionRequests st;
     parallelLimit := n; console := console st;
     orphans := orphans st |}.

Definition set_console (l : list LogEntry) (st : SplitPdfHook) : SplitPdfHook :=
  {| client := client st; partitionResponses := partitionResponses st;
     partitionRequests := partitionRequests st;
     parallelLimit := parallelLimit st; console := l;
     orphans := orphans st |}.

Definition set_orphans (l : list (string * Promise)) (st : SplitPdfHook)
  : SplitPdfHook :=
  {| client := client st; partitionResponses := partitionResponses st;
     partitionRequests := partitionRequests st;
     parallelLimit := parallelLimit st; console := console st;
     orphans := l |}.

(** A method of the hook: it returns or throws, and leaves a state. *)
Definition Hook (A : Type) : Type := SplitPdfHook → Completion A * SplitPdfHook.

Definition ret {A} (a : A) : Hook A := fun st => (Normal a, st).
Definition throw {A} (e : JSError) : Hook A := fun st => (Throw e, st).
Definition lift {A} (c : Completion A) : Hook A := fun st => (c, st).
Definition bind {A B} (m : Hook A) (k : A → Hook B) : Hook B :=
  fun st =>
    match m st with
    | (Normal a, st') => k a st'
    | (Throw e, st') => (Throw e, st')
    end.
Definition get : Hook SplitPdfHook := fun st => (Normal st, st).
Definition modify (f : SplitPdfHook → SplitPdfHook) : Hook unit :=
  fun st => (Normal tt, f st).

(** [try { m } catch (e) { handler }] *)
Definition tryCatch {A} (m : Hook A) (handler : JSError → Hook A) : Hook A :=
  fun st =>
    match m st with
    | (Normal a, st') => (Normal a, st')
    | (Throw e, st') => handler e st'
    end.

Declare Scope hook_scope.
Delimit Scope hook_scope with hook.
Notation "x <~ m ;; k" := (bind m (fun x => k))
  (at level 100, m at next level, right associativity) : hook_scope.
Notation "m ;;; k" := (bind m (fun _ => k))
  (at level 100, right associativity) : hook_scope.

Definition console_warn (msg : string) : Hook unit :=
  modify (fun st => set_console (console st ++ [Warn msg]) st).
Definition console_error (msg : string) : Hook unit :=
  modify (fun st => set_console (console st ++ [Error msg]) st).

(** ** Arrays *)

(** [arr[i] = v] on a JS array: inside the array the slot is overwritten,
    past its end the array grows and the gap is left as holes. *)
Definition Array_set {A} (i : nat) (v : A) (arr : list (option A)) : list (option A) :=
  if (i <? length arr)%nat then <[i := Some v]> arr
  else arr ++ replicate (i - length arr)%nat None ++ [Some v].

(** [arr.filter((e) => e)] on an array of objects: holes are skipped. *)
Definition Array_filter_truthy {A} (arr : list (option A)) : list A :=
  omap id arr.

(** [arr.slice(0, -1)] *)
Definition Array_slice_init {A} (arr : list A) : list A :=
  take (length arr - 1)%nat arr.

(** [arr.at(-1)]: the last element, [undefined] on the empty array. *)
Definition Array_at_last {A} (arr : list A) : option A := last arr.

(** ** What the hook imports

    The hook calls into code that is not part of it: the boolean parser of
    [./utils], pdf-lib, the JSON functions and the multipart encoding of
    the platform, and the network that settles the background requests.
    They are the fields of
    [Platform]; every definition and theorem below holds for any of them. *)
Class Platform : Type := {
  (** [stringToBoolean] of [./utils]. *)
  stringToBoolean : string → bool;
  (** pdf-lib: [PDFDocument.load(bytes)], [pdf.getPages().length], and the
      bytes of the one-page document made of page [i]
      ([PDFDocument.create], [copyPages], [addPage], [save]). *)
  PDFDocument : Type;
  PDFDocument_load : string → Completion PDFDocument;
  PDFDocument_pageCount : PDFDocument → nat;
  PDFDocument_savePage : PDFDocument → nat → Completion string;
  (** [JSON.parse] behind [res.json()], and [JSON.stringify]. *)
  JSON_parse : string → Completion JSON;
  JSON_stringify : JSON → string;
  (** The boundary the platform draws for a multipart body. *)
  multipartBoundary : FormData → string;
  (** The network decides which request comes back next.  While a join
      handle is awaited: the place, among its running tasks, of the one
      that settles next (place 0 when there is no such place), and, before
      it, the running tasks of orphaned handles of the same operation id
      that settle meanwhile, each as the place of the handle among the
      orphans and the place of the task among its running tasks. *)
  settlesNext : list (Task * Flight) → nat;
  settlesMeanwhile : string → list (string * Promise) → list (nat * nat);
}.

Section Methods.
Context `{Platform}.
Local Open Scope hook_scope.

(** [sdkInit(opts)] stores the client of the options. *)
Definition sdkInit (c : option HTTPClient) : Hook unit :=
  modify (set_client c).

(** *** Private helpers *)

(** [#pdfPageToBlob(pdf, pageIndex)] *)
Definition pdfPageToBlob (pdf : PDFDocument) (pageIndex : nat) : Completion Blob :=
  cbind (PDFDocument_savePage pdf pageIndex)
    (fun subPdfBytes =>
       Normal {| blob_bytes := subPdfBytes; blob_type := "application/pdf" |}).

(** [#getPdfPages(file)]: load the document, then one blob per page index
    from [0]; whatever pdf-lib throws leaves the method as it is. *)
Definition getPdfPages (file : Blob) : Completion (list Blob) :=
  cbind (PDFDocument_load (blob_bytes file))
    (fun pdf => cmapM (pdfPageToBlob pdf) (seq 0 (PDFDocument_pageCount pdf))).

(** [#prepareResponseHeaders(response)] *)
Definition prepareResponseHeaders (response : Response) : Headers :=
  Headers_delete "content-length" (res_headers response).

(** [res.clone().json()] *)
Definition Response_json (res : Response) : Completion JSON :=
  JSON_parse (res_body res).

(** [#prepareResponseBody(responses)] *)
Definition prepareResponseBody (responses : list Response) : Completion string :=
  cbind (cmapM Response_json responses)
    (fun allElements => Normal (JSON_stringify (JArray (Array_flat allElements)))).

(** [#prepareRequestHeaders(request)] *)
Definition prepareRequestHeaders (request : Request) : Headers :=
  Headers_delete "content-type" (req_headers request).

(** [#prepareRequestBody(request)] *)
Definition prepareRequestBody (request : Request) : FormData :=
  FormData_append PARTITION_FORM_SPLIT_PDF_PAGE_KEY (FString "false")
    (FormData_delete PARTITION_FORM_FILES_KEY
       (FormData_delete PARTITION_FORM_SPLIT_PDF_PAGE_KEY (req_form request))).

(** A join handle that the map of [operationID] is about to forget: when
    tasks of it are in flight it joins the orphans. *)
Definition detach (operationID : string) (st : SplitPdfHook) : SplitPdfHook :=
  match partitionRequests st !! operationID with
  | Some h =>
      match promise_running h with
      | [] => st
      | _ :: _ => set_orphans (orphans st ++ [(operationID, h)]) st
      end
  | None => st
  end.

(** [#clearOperation(operationID)] *)
Definition clearOperation (operationID : string) : Hook unit :=
  modify (fun st =>
    set_partitionRequests (delete operationID (partitionRequests st))
      (set_partitionResponses (delete operationID (partitionResponses st))
         (detach operationID st))).

(** *** Background tasks

    A task is the arrow function that [beforeRequest] hands to
    [async.parallelLimit].  When it starts it runs up to its [await],
    where it has called the transport; it goes on when the transport
    comes back. *)

Definition pageFailureMessage (i : nat) : string :=
  "Failed to send request for page " +:+ pretty (i + 1)%nat +:+ ".".

(** The start of a task, up to [await this.#client!.request(req)].  The
    client is read now; without one the access throws inside the [try],
    the failure is logged at once and the body has ended. *)
Definition startTask (t : Task) : Hook (Task * Flight) :=
  st <~ get ;;
  match client st with
  | Some c => ret (t, Waiting (c (task_request t)))
  | None =>
      console_error (pageFailureMessage (task_index t)) ;;;
      ret (t, Ended)
  end.

(** The rest of a task, once the transport has come back.  The response
    array is looked up now, under the operation id the task was made
    for; a missing array makes the assignment throw inside the [try]. *)
Definition finishTask (operationID : string) (t : Task) (flight : Flight)
  : Hook unit :=
  match flight with
  | Ended => ret tt
  | Waiting outcome =>
      tryCatch
        (response <~ lift outcome ;;
         if res_status response =? 200 then
           st <~ get ;;
           match partitionResponses st !! operationID with
           | Some slots =>
               modify (set_partitionResponses
                         (<[operationID := Array_set (task_index t) response slots]>
                            (partitionResponses st)))
           | None => throw (TypeError "Cannot set properties of undefined")
           end
         else ret tt)
        (fun _ => console_error (pageFailureMessage (task_index t)))
  end.

(** *** The pool of [async.parallelLimit]

    The library async (version 3) is not part of the hook.  Called
    without a callback, [parallelLimit(tasks, limit)] returns a promise.
    With a bound below 1 its iterator throws
    [RangeError('concurrency limit cannot be less than 1')] before any
    task has started, and the promise is rejected.  Otherwise the first
    [limit] tasks start at once; each time a task ends the next one
    starts; the promise resolves when all have ended. *)

Fixpoint startTasks (ts : list Task) : Hook (list (Task * Flight)) :=
  match ts with
  | [] => ret []
  | t :: ts' =>
      f <~ startTask t ;;
      fs <~ startTasks ts' ;;
      ret (f :: fs)
  end.

Definition async_parallelLimit (tasks : list Task) (limit : Z) : Hook Promise :=
  if limit <=? 0 then
    ret {| promise_running := []; promise_queued := []; promise_limit := limit |}
  else
    started <~ startTasks (take (Z.to_nat limit) tasks) ;;
    ret {| promise_running := started;
           promise_queued := drop (Z.to_nat limit) tasks;
           promise_limit := limit |}.

(** The task at the place [k] among the running tasks of [h] ends, and
    the pool starts the next of the waiting tasks.  [operationID] is the
    id the tasks of [h] were made for.  The result is the handle
    afterwards. *)
Definition settle (operationID : string) (h : Promise) (k : nat) : Hook Promise :=
  match promise_running h !! k with
  | None => ret h
  | Some (t, flight) =>
      finishTask operationID t flight ;;;
      started <~ startTasks (take 1 (promise_queued h)) ;;
      ret {| promise_running := delete k (promise_running h) ++ started;
             promise_queued := drop 1 (promise_queued h);
             promise_limit := promise_limit h |}
  end.

(** The same for the handle that the map holds for [operationID], and for
    the orphan at the place [j]. *)
Definition settleOwn (operationID : string) (k : nat) : Hook unit :=
  st <~ get ;;
  match partitionRequests st !! operationID with
  | None => ret tt
  | Some h =>
      h' <~ settle operationID h k ;;
      modify (fun st =>
        set_partitionRequests (<[operationID := h']> (partitionRequests st)) st)
  end.

Definition settleOrphan (j k : nat) : Hook unit :=
  st <~ get ;;
  match orphans st !! j with
  | None => ret tt
  | Some (operationID, h) =>
      h' <~ settle operationID h k ;;
      modify (fun st => set_orphans (<[j := (operationID, h')]> (orphans st)) st)
  end.

(** What the network does behind the hook's back: one request comes
    back, and its task ends. *)
Definition backgroundStep (s : Settlement) : Hook unit :=
  match s with
  | OfHandle operationID k => settleOwn operationID k
  | OfOrphan j k => settleOrphan j k
  end.

Fixpoint background (steps : list Settlement) : Hook unit :=
  match steps with
  | [] => ret tt
  | s :: steps' => backgroundStep s ;;; background steps'
  end.

(** *** The join *)

(** The orphans of [operationID] named in [batch] settle a task each. *)
Fixpoint settleMeanwhile (operationID : string) (batch : list (nat * nat))
  : Hook unit :=
  match batch with
  | [] => ret tt
  | (j, k) :: batch' =>
      st <~ get ;;
      (match orphans st !! j with
       | Some (id, _) =>
           if String.eqb id operationID then settleOrphan j k else ret tt
       | None => ret tt
       end) ;;;
      settleMeanwhile operationID batch'
  end.

(** The place of the running task that ends next. *)
Definition nextPlace (running : list (Task * Flight)) : nat :=
  let k := settlesNext running in
  if (k <? length running)%nat then k else 0%nat.

(** Waiting for the handle of [operationID] to resolve: as long as it has
    running tasks, one of them ends, after the older tasks of the same id
    that the network lets end first.  Each turn ends one task of the
    handle, so [fuel] turns are enough when the handle has [fuel] tasks
    left.  Requests of other operations come back on their own
    ([backgroundStep]): they write under their own ids. *)
Fixpoint awaitLoop (fuel : nat) (operationID : string) : Hook unit :=
  match fuel with
  | O => ret tt
  | S fuel' =>
      st <~ get ;;
      match partitionRequests st !! operationID with
      | None => ret tt
      | Some h =>
          match promise_running h with
          | [] => ret tt
          | _ :: _ =>
              settleMeanwhile operationID
                (settlesMeanwhile operationID (orphans st)) ;;;
              settleOwn operationID (nextPlace (promise_running h)) ;;;
              awaitLoop fuel' operationID
          end
      end
  end.

(** [await requests], where [requests] is the handle that the map holds
    for [operationID]: a handle made with a bound below 1 is rejected;
    any other resolves once its tasks have ended. *)
Definition awaitPromise (operationID : string) (requests : Promise) : Hook unit :=
  if promise_limit requests <=? 0 then
    throw (RangeError "concurrency limit cannot be less than 1")
  else
    awaitLoop (length (promise_running requests) + length (promise_queued requests))
      operationID.

(** [#awaitAllRequests(operationID)]; [None] is [undefined]. *)
Definition awaitAllRequests (operationID : string) : Hook (option (list Response)) :=
  st <~ get ;;
  match partitionRequests st !! operationID with
  | None => ret None
  | Some requests =>
      awaitPromise operationID requests ;;;
      st' <~ get ;;
      ret (Some (match partitionResponses st' !! operationID with
                 | Some slots => Array_filter_truthy slots
                 | None => []
                 end))
  end.

(** *** beforeRequest *)

(** [stringToBoolean((formData.get(KEY) as string) ?? "false")].  The cast
    is unchecked: a file under the flag's name reaches the string helper,
    outside its declared type. *)
Definition readSplitPdfPage (formData : FormData) : Completion bool :=
  match FormData_get PARTITION_FORM_SPLIT_PDF_PAGE_KEY formData with
  | None => Normal (stringToBoolean "false")
  | Some (FString s) => Normal (stringToBoolean s)
  | Some (FFile _ _) => Throw (TypeError "value is not a string")
  end.

(** The test [!file?.name.endsWith(".pdf")], read the other way round:
    [Some] of the file when the hook goes on, [None] when it gives up.
    A string under the file's name has no [name], and [endsWith] of
    [undefined] throws. *)
Definition pdfFile (file : option FormDataEntryValue)
  : Completion (option (string * Blob)) :=
  match file with
  | None => Normal None
  | Some (FFile name content) =>
      Normal (if JSString.endsWith name ".pdf" then Some (name, content) else None)
  | Some (FString _) =>
      Throw (TypeError "Cannot read properties of undefined (reading 'endsWith')")
  end.

Definition pageFileName (fileName : string) (i : nat) : string :=
  fileName +:+ "-" +:+ pretty (i + 1)%nat +:+ ".pdf".

(** The [Content-Type] that the platform gives to a form body. *)
Definition multipartContentType (body : FormData) : string :=
  "multipart/form-data; boundary=" +:+ multipartBoundary body.

(** [new Request(request.clone(), { headers, body })] with a form as
    body: the method and the URL are those of [request], the headers are
    those of the init, to which the platform appends the [Content-Type]
    of the body when they have none. *)
Definition Request_new (request : Request) (headers : Headers) (body : FormData)
  : Request :=
  {| req_method := req_method request; req_url := req_url request;
     req_headers := Headers_withContentType (multipartContentType body) headers;
     req_form := body |}.

(** One turn of the loop over [pages.entries()]. *)
Definition pageRequest (request : Request) (headers : Headers) (fileName : string)
  (i : nat) (page : Blob) : Request :=
  let body := prepareRequestBody request in
  let body := FormData_append PARTITION_FORM_FILES_KEY
                (FFile (pageFileName fileName i) page) body in
  Request_new request headers body.

(** The array [requests] after the loop. *)
Definition pageRequests (request : Request) (headers : Headers) (fileName : string)
  (pages : list Blob) : list Request :=
  imap (pageRequest request headers fileName) pages.

Definition notPdfWarning : string :=
  "Given file is not a PDF. Continuing without splitting.".
Definition noClientWarning : string :=
  "HTTP client not accessible! Continuing without splitting.".
Definition limitWarning (configured : Z) : string :=
  "'parallelLimit' was set to '" +:+ pretty configured
  +:+ "'. Max number of parallel request can't be higher then '"
  +:+ pretty MAX_NUMBER_OF_PARALLEL_REQUESTS
  +:+ "'. Using the maximum value instead.".

(** The bound handed to [async.parallelLimit]. *)
Definition effectiveLimit (configured : Z) : Z :=
  if configured >? MAX_NUMBER_OF_PARALLEL_REQUESTS
  then MAX_NUMBER_OF_PARALLEL_REQUESTS
  else configured.

(** [requests.slice(0, -1).map((req, i) => async () => ...)] *)
Definition backgroundTasks (requests : list Request) : list Task :=
  imap (fun i req => {| task_index := i; task_request := req |})
       (Array_slice_init requests).

(** [async.parallelLimit(requests.slice(0, -1).map(...), limit)] *)
Definition dispatch (requests : list Request) (limit : Z) : Hook Promise :=
  async_parallelLimit (backgroundTasks requests) limit.

(** [beforeRequest(hookCtx, request)]; the result [None] is [undefined]. *)
Definition beforeRequest (operationID : string) (request : Request)
  : Hook (option Request) :=
  let formData := req_form request in
  splitPdfPage <~ lift (readSplitPdfPage formData) ;;
  let file := FormData_get PARTITION_FORM_FILES_KEY formData in
  if negb splitPdfPage then ret (Some request) else
  pdf <~ lift (pdfFile file) ;;
  match pdf with
  | None => console_warn notPdfWarning ;;; ret (Some request)
  | Some (name, content) =>
      st <~ get ;;
      match client st with
      | None => console_warn noClientWarning ;;; ret (Some request)
      | Some _ =>
          let fileName := JSString.replace ".pdf" EmptyString name in
          pages <~ lift (getPdfPages content) ;;
          let headers := prepareRequestHeaders request in
          let requests := pageRequests request headers fileName pages in
          (if parallelLimit st >? MAX_NUMBER_OF_PARALLEL_REQUESTS
           then console_warn (limitWarning (parallelLimit st))
           else ret tt) ;;;
          let limit := effectiveLimit (parallelLimit st) in
          modify (fun st =>
            set_partitionResponses
              (<[operationID := replicate (length requests) None]>
                 (partitionResponses st)) st) ;;;
          handle <~ dispatch requests limit ;;
          modify (fun st =>
            set_partitionRequests
              (<[operationID := handle]> (partitionRequests st))
              (detach operationID st)) ;;;
          ret (Array_at_last requests)
      end
  end.

(** *** afterSuccess and afterError *)

Definition afterSuccess (operationID : string) (response : Response)
  : Hook Response :=
  responses <~ awaitAllRequests operationID ;;
  match responses with
  | None => ret response
  | Some responses =>
      let headers := prepareResponseHeaders response in
      body <~ lift (prepareResponseBody (responses ++ [response])) ;;
      clearOperation operationID ;;;
      lift (Response_new body headers (res_status response)
              (res_statusText response))
  end.

(** The error of the pipeline is any value; [None] is [null]. *)
Definition afterError (operationID : string) (response : option Response)
  (error : option JSError) : Hook (option Response * option JSError) :=
  responses <~ awaitAllRequests operationID ;;
  match responses with
  | None | Some [] =>
      clearOperation operationID ;;; ret (response, error)
  | Some ((okResponse :: _) as responses) =>
      let headers := prepareResponseHeaders okResponse in
      body <~ lift (prepareResponseBody responses) ;;
      finalResponse <~ lift (Response_new body headers (res_status okResponse)
                               (res_statusText okResponse)) ;;
      clearOperation operationID ;;;
      ret (Some finalResponse, None)
  end.

(** *** Notions used by the specification *)

(** What one task writes into the response array of its operation, and
    what it logs, with the client [c]. *)
Definition fillSlot (c : HTTPClient) (slots : list (option Response)) (t : Task)
  : list (option Response) :=
  match c (task_request t) with
  | Normal response =>
      if (res_status response =? 200)%Z
      then Array_set (task_index t) response slots
      else slots
  | Throw _ => slots
  end.

Definition taskLog (c : HTTPClient) (t : Task) : list LogEntry :=
  match c (task_request t) with
  | Normal _ => []
  | Throw _ => [Error (pageFailureMessage (task_index t))]
  end.

(** The value a task leaves in its own, initially empty, slot. *)
Definition slotOf (c : HTTPClient) (t : Task) : option Response :=
  match c (task_request t) with
  | Normal response => if (res_status response =? 200)%Z then Some response else None
  | Throw _ => None
  end.

(** The state once the join handle [requests] of [operationID] has been
    awaited, the responses collected from it, and the state without the
    operation. *)
Definition joined (operationID : string) (requests : Promise) (st : SplitPdfHook)
  : SplitPdfHook :=
  snd (awaitPromise operationID requests st).

Definition collected (operationID : string) (st : SplitPdfHook) : list Response :=
  match partitionResponses st !! operationID with
  | Some slots => Array_filter_truthy slots
  | None => []
  end.

Definition cleared (operationID : string) (st : SplitPdfHook) : SplitPdfHook :=
  snd (clearOperation operationID st).

(** The response [new Response(body, {headers, status, statusText})] built
    from the primary response. *)
Definition merged (primary : Response) (body : string) : Completion Response :=
  Response_new body (prepareResponseHeaders primary) (res_status primary)
    (res_statusText primary).

(** A status with which a response can be built around a body. *)
Definition bodyStatus (status : Z) : bool :=
  (200 <=? status)%Z && (status <=? 599)%Z && negb (nullBodyStatus status).

(** The tasks of a join handle that have not ended. *)
Definition pending (h : Promise) : list Task :=
  (fst <$> promise_running h) ++ promise_queued h.

(** How a handle changes when its running task at the place [k] ends:
    that task leaves it, and nothing else. *)
Definition ended (h : Promise) (k : nat) (h' : Promise) : Prop :=
  promise_limit h' = promise_limit h
  ∧ match promise_running h !! k with
    | Some (t, _) => t :: pending h' ≡ₚ pending h
    | None => h' = h
    end.

(** No task of the handle is in flight. *)
Definition idle (h : Promise) : bool :=
  match promise_running h with
  | [] => true
  | _ :: _ => false
  end.

(** No request made for [operationID] is in flight: none from an
    orphan, and none from the handle that the map holds for it. *)
Definition quietOrphans (operationID : string) (os : list (string * Promise))
  : bool :=
  forallb (fun o => negb (String.eqb (fst o) operationID) || idle (snd o)) os.

Definition quiet (operationID : string) (st : SplitPdfHook) : bool :=
  match partitionRequests st !! operationID with
  | Some h => idle h
  | None => true
  end
  && quietOrphans operationID (orphans st).

(** A task that has called the transport [c] and waits for it. *)
Definition waiting (c : HTTPClient) (t : Task) : Task * Flight :=
  (t, Waiting (c (task_request t))).

(** The handle that [dispatch] returns when the client is [c]. *)
Definition dispatched (c : HTTPClient) (requests : list Request) (limit : Z)
  : Promise :=
  if (limit <=? 0)%Z then
    {| promise_running := []; promise_queued := []; promise_limit := limit |}
  else
    {| promise_running :=
         waiting c <$> take (Z.to_nat limit) (backgroundTasks requests);
       promise_queued := drop (Z.to_nat limit) (backgroundTasks requests);
       promise_limit := limit |}.

(** The hook goes on to split: the flag is true, the file is named
    [*.pdf], the client is there, and pdf-lib returns [pages]. *)
Definition splits (request : Request) (st : SplitPdfHook)
  (name : string) (content : Blob) (pages : list Blob) : Prop :=
  readSplitPdfPage (req_form request) = Normal true
  ∧ pdfFile (FormData_get PARTITION_FORM_FILES_KEY (req_form request))
    = Normal (Some (name, content))
  ∧ is_Some (client st)
  ∧ getPdfPages content = Normal pages.

(** The array [requests] that [beforeRequest] builds for the file [name]. *)
Definition derivedRequests (request : Request) (name : string) (pages : list Blob)
  : list Request :=
  pageRequests request (prepareRequestHeaders request)
    (JSString.replace ".pdf" EmptyString name) pages.

Definition limitWarnings (configured : Z) : list LogEntry :=
  if (configured >? MAX_NUMBER_OF_PARALLEL_REQUESTS)%Z
  then [Warn (limitWarning configured)] else [].

(** The state in which [beforeRequest] leaves the hook after a split,
    when the client is [c]. *)
Definition registered (operationID : string) (c : HTTPClient)
  (requests : list Request) (st : SplitPdfHook) : SplitPdfHook :=
  set_partitionRequests
    (<[operationID := dispatched c requests (effectiveLimit (parallelLimit st))]>
       (partitionRequests st))
    (detach operationID
       (set_partitionResponses
          (<[operationID := replicate (length requests) None]>
             (partitionResponses st))
          (set_console (console st ++ limitWarnings (parallelLimit st)) st))).

(** A split of [requests] under way for [operationID] with the client
    [c]: the tasks [done] have ended and have written to the response
    array, the others are in the handle [h], running or waiting; the
    bound is at least 1, and no older request of the same id is in
    flight. *)
Definition underwayWith (c : HTTPClient) (operationID : string)
  (requests : list Request) (h : Promise) (done : list Task)
  (st : SplitPdfHook) : Prop :=
  client st = Some c
  ∧ quietOrphans operationID (orphans st) = true
  ∧ partitionRequests st !! operationID = Some h
  ∧ (0 < promise_limit h)%Z
  ∧ Forall (λ f, snd f = Waiting (c (task_request (fst f)))) (promise_running h)
  ∧ (promise_running h = [] → promise_queued h = [])
  ∧ done ++ pending h ≡ₚ backgroundTasks requests
  ∧ partitionResponses st !! operationID
    = Some (fold_left (fillSlot c) done (replicate (length requests) None)).

Definition underway (c : HTTPClient) (operationID : string)
  (requests : list Request) (st : SplitPdfHook) : Prop :=
  ∃ h done, underwayWith c operationID requests h done st.

(** What the tasks made for [operationID] do to the state when they
    start and when they end: they write to the response array of that
    id, if there is one, and to the console. *)
Definition taskEffect (operationID : string) (st st' : SplitPdfHook) : Prop :=
  ∃ responses' logs,
    st' = set_console (console st ++ logs) (set_partitionResponses responses' st)
    ∧ dom responses' = dom (partitionResponses st)
    ∧ ∀ id, id ≠ operationID → responses' !! id = partitionResponses st !! id.

(** The two private maps hold the same operation ids. *)
Definition store_wf (st : SplitPdfHook) : Prop :=
  dom (partitionResponses st) = dom (partitionRequests st).

(** The states of a hook: a fresh one, and whatever its methods, a
    caller's assignment to the static bound and the requests that come
    back make of it. *)
Inductive reachable : SplitPdfHook → Prop :=
| reachable_new : reachable newSplitPdfHook
| reachable_sdkInit c st :
    reachable st → reachable (snd (sdkInit c st))
| reachable_parallelLimit n st :
    reachable st → reachable (set_parallelLimit n st)
| reachable_beforeRequest operationID request st :
    reachable st → reachable (snd (beforeRequest operationID request st))
| reachable_afterSuccess operationID response st :
    reachable st → reachable (snd (afterSuccess operationID response st))
| reachable_afterError operationID response error st :
    reachable st → reachable (snd (afterError operationID response error st))
| reachable_background s st :
    reachable st → reachable (snd (backgroundStep s st)).

(** No state is held for [operationID]. *)
Definition no_operation (operationID : string) (st : SplitPdfHook) : Prop :=
  partitionResponses st !! operationID = None
  ∧ partitionRequests st !! operationID = None.

(** The two unchecked casts of [beforeRequest] hold: the flag, when
    present, is a string, and the file, when present, is a file. *)
Definition FormData_typed (formData : FormData) : bool :=
  match FormData_get PARTITION_FORM_SPLIT_PDF_PAGE_KEY formData with
  | Some (FFile _ _) => false
  | _ => true
  end
  && match FormData_get PARTITION_FORM_FILES_KEY formData with
     | Some (FString _) => false
     | _ => true
     end.

(** The split flag of the form parses as true. *)
Definition splitRequested (formData : FormData) : bool :=
  match readSplitPdfPage formData with
  | Normal b => b
  | Throw _ => false
  end.

(** The form holds a file whose name ends in [.pdf]. *)
Definition hasPdfName (formData : FormData) : bool :=
  match FormData_get PARTITION_FORM_FILES_KEY formData with
  | Some (FFile name _) => JSString.endsWith name ".pdf"
  | _ => false
  end.

(** A dot stands somewhere in [s]. *)
Fixpoint hasDot (s : string) : bool :=
  match s with
  | EmptyString => false
  | String c s' => Ascii.eqb c "." || hasDot s'
  end.

(** The response that a background request leaves in its slot: the one
    the transport returns, when it returns one with status 200. *)
Definition accepted (c : HTTPClient) (req : Request) : option Response :=
  match c req with
  | Normal response => if (res_status response =? 200)%Z then Some response else None
  | Throw _ => None
  end.

(** The requests handed to the background: all derived requests but the
    last. *)
Definition backgroundRequests (request : Request) (name : string)
  (pages : list Blob) : list Request :=
  Array_slice_init (derivedRequests request name pages).

(** The fields of a form other than the split flag and the file. *)
Definition otherFields (formData : FormData) : FormData :=
  FormData_delete PARTITION_FORM_FILES_KEY
    (FormData_delete PARTITION_FORM_SPLIT_PDF_PAGE_KEY formData).

(** [headers.get]-like view: the values under [name], whatever its case,
    in order. *)
Definition Headers_getAll (name : string) (h : Headers) : list string :=
  map snd
    (List.filter
       (fun kv => String.eqb (JSString.toLowerCase (fst kv))
                             (JSString.toLowerCase name)) h).

(** What a method for one operation leaves untouched: the entries of
    every other operation, the client and the configured bound. *)
Definition frame (operationID : string) (st st' : SplitPdfHook) : Prop :=
  (∀ id, id ≠ operationID →
         partitionResponses st' !! id = partitionResponses st !! id
         ∧ partitionRequests st' !! id = partitionRequests st !! id)
  ∧ client st' = client st
  ∧ parallelLimit st' = parallelLimit st.

(** What the requests that come back for one operation change: nothing
    of the other operations, and no operation id comes or goes. *)
Definition evolves (operationID : string) (st st' : SplitPdfHook) : Prop :=
  frame operationID st st'
  ∧ dom (partitionResponses st') = dom (partitionResponses st)
  ∧ dom (partitionRequests st') = dom (partitionRequests st).

End Methods.

(** ** A sample platform

    A small instance of [Platform] to run the hook on: a document is the
    header [%PDF] followed by one character per page, a JSON text is an
    array of decimal numbers, the running task that was started last
    comes back first, and the running tasks of the orphans all come back
    in the first turn of a join. *)
Module Sample.

(** Modelled from the spec: [stringToBoolean] of [./utils], which is not
    among the sources (section 6: the strings [true], [1] and [yes],
    whatever their case, are true; every other string is false). *)
Definition stringToBoolean (s : string) : bool :=
  let l := JSString.toLowerCase s in
  String.eqb l "true" || String.eqb l "1" || String.eqb l "yes".

Definition pdfHeader : string := "%PDF".

Fixpoint pagesOf (s : string) : list string :=
  match s with
  | EmptyString => []
  | String c s' => String c EmptyString :: pagesOf s'
  end.

Definition load (bytes : string) : Completion (list string) :=
  if JSString.startsWith pdfHeader bytes
  then Normal (pagesOf (JSString.slice 4 bytes))
  else Throw (LibraryError "No PDF header found").

Definition savePage (pdf : list string) (i : nat) : Completion string :=
  match pdf !! i with
  | Some p => Normal (pdfHeader +:+ p)
  | None => Throw (LibraryError "index out of range")
  end.

Fixpoint readNat (acc : nat) (s : string) : option nat :=
  match s with
  | EmptyString => Some acc
  | String c s' =>
      let n := nat_of_ascii c in
      if (Nat.leb 48 n && Nat.leb n 57)%bool
      then readNat (10 * acc + (n - 48))%nat s'
      else None
  end.

Fixpoint splitComma (cur s : string) : list string :=
  match s with
  | EmptyString => [cur]
  | String c s' =>
      if Ascii.eqb c "," then cur :: splitComma EmptyString s'
      else splitComma (cur +:+ String c EmptyString) s'
  end.

Definition parse (s : string) : Completion JSON :=
  if String.eqb s "[]" then Normal (JArray [])
  else if (JSString.startsWith "[" s && JSString.endsWith s "]")%bool then
    let inner := String.substring 1 (String.length s - 2) s in
    match mapM (fun w => match w with
                         | EmptyString => None
                         | _ => readNat 0 w
                         end) (splitComma EmptyString inner) with
    | Some ns => Normal (JArray (map (fun n => JNumber (Z.of_nat n)) ns))
    | None => Throw (SyntaxError "Unexpected token")
    end
  else Throw (SyntaxError "Unexpected token").

Definition quote (s : string) : string :=
  String (ascii_of_nat 34) (s +:+ String (ascii_of_nat 34) EmptyString).

Fixpoint stringify (j : JSON) : string :=
  match j with
  | JNull => "null"
  | JBool b => if b then "true" else "false"
  | JNumber n => pretty n
  | JString s => quote s
  | JArray xs =>
      "[" +:+
      (fix items (xs : list JSON) : string :=
         match xs with
         | [] => EmptyString
         | [x] => stringify x
         | x :: xs' => stringify x +:+ "," +:+ items xs'
         end) xs +:+ "]"
  | JObject ms =>
      "{" +:+
      (fix members (ms : list (string * JSON)) : string :=
         match ms with
         | [] => EmptyString
         | [(k, v)] => quote k +:+ ":" +:+ stringify v
         | (k, v) :: ms' =>
             quote k +:+ ":" +:+ stringify v +:+ "," +:+ members ms'
         end) ms +:+ "}"
  end.

Definition boundary (body : FormData) : string :=
  "page" +:+ pretty (length body).

Definition platform : Platform :=
  Build_Platform stringToBoolean (list string) load (fun pdf => length pdf)
    savePage parse stringify boundary
    (fun running => (length running - 1)%nat)
    (fun _ os =>
       concat (imap (fun j o =>
                       replicate (length (promise_running (snd o))) (j, 0%nat))
                    os)).

Definition pdfBlob (bytes : string) : Blob :=
  {| blob_bytes := bytes; blob_type := "application/pdf" |}.

(** A partition request for the file [name] holding [bytes]. *)
Definition request (flag name bytes : string) : Request :=
  {| req_method := "POST";
     req_url := "https://api.unstructured.io/general/v0/general";
     req_headers := [("Content-Type", "multipart/form-data; boundary=x");
                     ("unstructured-api-key", "key")];
     req_form := [("strategy", FString "fast");
                  (PARTITION_FORM_SPLIT_PDF_PAGE_KEY, FString flag);
                  (PARTITION_FORM_FILES_KEY, FFile name (pdfBlob bytes))] |}.

Definition jsonHeaders (len : string) : Headers :=
  [("content-type", "application/json"); ("Content-Length", len)].

Definition okResponse (body : string) : Response :=
  {| res_status := 200; res_statusText := "OK";
     res_headers := jsonHeaders "3"; res_body := body |}.

Definition errorResponse : Response :=
  {| res_status := 500; res_statusText := "Internal Server Error";
     res_headers := jsonHeaders "2"; res_body := "[]" |}.

(** A transport that answers by page: page [a] is partitioned into
    [[1,2]], page [b] is refused by the server, the request for page
    [c] fails on the network, page [e] comes back as CSV, and any other
    page gives [[7]]. *)
Definition transport : HTTPClient := fun req =>
  match FormData_get PARTITION_FORM_FILES_KEY (req_form req) with
  | Some (FFile _ content) =>
      let bytes := blob_bytes content in
      if String.eqb bytes "%PDFa" then Normal (okResponse "[1,2]")
      else if String.eqb bytes "%PDFb" then Normal errorResponse
      else if String.eqb bytes "%PDFc" then Throw (LibraryError "fetch failed")
      else if String.eqb bytes "%PDFe" then Normal (okResponse "a,b")
      else Normal (okResponse "[7]")
  | _ => Normal errorResponse
  end.

(** The hook after [sdkInit] with the transport. *)
Definition ready : SplitPdfHook := set_client (Some transport) newSplitPdfHook.

End Sample.

(** * Scenarios on the sample platform *)

Module Scenario.
Import Sample.

Definition op : string := "partition".

(** A four-page document; pages [a], [b], [c] go to the background, page
    [d] is the request the pipeline sends itself. *)
Definition fourPages : Request := request "true" "doc.pdf" "%PDFabcd".
Definition split4 : SplitPdfHook :=
  snd (@beforeRequest platform op fourPages ready).

(** A one-page document: no background task at all. *)
Definition onePage : Request := request "true" "doc.pdf" "%PDFd".
Definition split1 : SplitPdfHook :=
  snd (@beforeRequest platform op onePage ready).

(** A document whose two background pages both fail. *)
Definition failingPages : Request := request "true" "doc.pdf" "%PDFbcd".
Definition split3 : SplitPdfHook :=
  snd (@beforeRequest platform op failingPages ready).

(** The four-page document with the bound set to [0]. *)
Definition zeroBound : SplitPdfHook :=
  snd (@beforeRequest platform op fourPages (set_parallelLimit 0 ready)).

(** A document whose one background page comes back as CSV. *)
Definition csvPages : Request := request "true" "doc.pdf" "%PDFed".
Definition splitCsv : SplitPdfHook :=
  snd (@beforeRequest platform op csvPages ready).

(** A second call under the same operation id while the three
    background requests of a first one are in flight: a two-page
    document after a four-page one whose pages are all accepted. *)
Definition acceptedPages : Request := request "true" "doc.pdf" "%PDFaaad".
Definition twoPages : Request := request "true" "doc.pdf" "%PDFad".
Definition overwritten : SplitPdfHook :=
  snd (@beforeRequest platform op twoPages
         (snd (@beforeRequest platform op acceptedPages ready))).

Definition handleOf (st : SplitPdfHook) : Promise :=
  default {| promise_running := []; promise_queued := []; promise_limit := 0 |}
    (partitionRequests st !! op).

End Scenario.


(** * The schema of the request

    The namespace [PartitionRequest$] of the generated half of the file.
    Its two zod schemas validate an object and hand it to a [transform]
    callback, which renames the keys between the wire shape (snake and
    kebab case) and the SDK shape (camel case).  The callbacks are what
    is embedded here; a JS object is the map of its own keys, and a value
    is [undefined] or a JSON value ([null] included). *)

Module PartitionRequest_schema.

(** The values the callbacks see: [undefined], [null], a string, or an
    object, which they pass on by reference without looking into it. *)
Inductive JSValue : Type :=
| VUndefined
| VNull
| VString (s : string)
| VObject (ref : nat).

(** [v.key]: the value under an own key, [undefined] without it. *)
Definition prop (key : string) (v : gmap string JSValue) : JSValue :=
  default VUndefined (v !! key).

(** [...(x === undefined ? null : { key: x })]: spreading [null] adds
    nothing. *)
Definition spreadDefined (key : string) (x : JSValue) : gmap string JSValue :=
  match x with
  | VUndefined => ∅
  | _ => {[ key := x ]}
  end.

(** The callback of [inboundSchema]: wire shape to SDK shape. *)
Definition inboundTransform (v : gmap string JSValue) : gmap string JSValue :=
  <["partitionParameters" := prop "partition_parameters" v]>
    (spreadDefined "unstructuredApiKey" (prop "unstructured-api-key" v)).

(** The callback of [outboundSchema]: SDK shape to wire shape. *)
Definition outboundTransform (v : gmap string JSValue) : gmap string JSValue :=
  <["partition_parameters" := prop "partitionParameters" v]>
    (spreadDefined "unstructured-api-key" (prop "unstructuredApiKey" v)).

(** An object of the wire shape as zod hands it to the callback: the
    parameters are an object, the key is a string or [null] when it is
    there, and there is no other key. *)
Definition wireShaped (v : gmap string JSValue) : Prop :=
  (∃ parameters, v !! "partition_parameters" = Some (VObject parameters))
  ∧ (∀ x, v !! "unstructured-api-key" = Some x →
          x = VNull ∨ ∃ key, x = VString key)
  ∧ ∀ k, k ≠ "partition_parameters" → k ≠ "unstructured-api-key" → v !! k = None.

(** The same for the SDK shape. *)
Definition sdkShaped (v : gmap string JSValue) : Prop :=
  (∃ parameters, v !! "partitionParameters" = Some (VObject parameters))
  ∧ (∀ x, v !! "unstructuredApiKey" = Some x →
          x = VNull ∨ ∃ key, x = VString key)
  ∧ ∀ k, k ≠ "partitionParameters" → k ≠ "unstructuredApiKey" → v !! k = None.

(** A wire object whose key is [null]. *)
Definition nullKey : gmap string JSValue :=
  <["partition_parameters" := VObject 0]> {[ "unstructured-api-key" := VNull ]}.

End PartitionRequest_schema.

(** * Facts about the helpers *)

Local Open Scope nat_scope.

Ltac hook_unfold :=
  unfold bind, ret, throw, lift, get, modify, tryCatch, console_warn,
    console_error in *.

(** ** Strings, headers and forms *)

Lemma Array_flat_arrays (xss : list (list JSON)) :
  Array_flat (map JArray xss) = concat xss.
Proof.
  unfold Array_flat. induction xss as [|xs xss IH]; simpl; [done|].
  by rewrite IH.
Qed.

Lemma Array_flat_app (xs ys : list JSON) :
  Array_flat (xs ++ ys) = Array_flat xs ++ Array_flat ys.
Proof. unfold Array_flat. apply flat_map_app. Qed.

(** A loop that comes to its end has parsed every element, in order. *)
Lemma cmapM_Normal {A B} (f : A → Completion B) (xs : list A) (ys : list B) :
  cmapM f xs = Normal ys → Forall2 (λ x y, f x = Normal y) xs ys.
Proof.
  revert ys. induction xs as [|x xs IH]; intros ys E; simpl in E.
  - injection E as <-. constructor.
  - destruct (f x) as [y|] eqn:Ex; simpl in E; [|done].
    destruct (cmapM f xs) as [ys'|]; simpl in E; [|done].
    injection E as <-. constructor; [done|]. by apply IH.
Qed.

Lemma Headers_has_delete (name : string) (h : Headers) :
  Headers_has name (Headers_delete name h) = false.
Proof.
  unfold Headers_has, Headers_delete.
  induction h as [|[k v] h IH]; simpl; [done|].
  destruct (String.eqb (JSString.toLowerCase k) (JSString.toLowerCase name)) eqn:E;
    simpl; [done|].
  by rewrite E.
Qed.

Lemma FormData_getAll_app (k : string) (a b : FormData) :
  FormData_getAll k (a ++ b) = FormData_getAll k a ++ FormData_getAll k b.
Proof. unfold FormData_getAll. by rewrite List.filter_app, map_app. Qed.

Lemma FormData_getAll_delete (k : string) (fd : FormData) :
  FormData_getAll k (FormData_delete k fd) = [].
Proof.
  unfold FormData_getAll, FormData_delete.
  induction fd as [|[k' v] fd IH]; simpl; [done|].
  destruct (String.eqb k' k) eqn:E; simpl; [done|]. by rewrite E.
Qed.

Lemma FormData_getAll_delete_ne (k k' : string) (fd : FormData) :
  String.eqb k' k = false →
  FormData_getAll k (FormData_delete k' fd) = FormData_getAll k fd.
Proof.
  intros Hne. unfold FormData_getAll, FormData_delete.
  induction fd as [|[k0 v] fd IH]; simpl; [done|].
  destruct (String.eqb k0 k') eqn:E; simpl.
  - apply String.eqb_eq in E as ->. by rewrite Hne.
  - destruct (String.eqb k0 k); simpl; by rewrite IH.
Qed.

(** ** Arrays *)

Lemma Array_set_length_lt {A} (i : nat) (v : A) (arr : list (option A)) :
  i < length arr → length (Array_set i v arr) = length arr.
Proof.
  intros Hi. unfold Array_set.
  destruct (Nat.ltb_spec i (length arr)); [|lia]. by rewrite length_insert.
Qed.

Lemma Array_set_lookup_eq {A} (i : nat) (v : A) (arr : list (option A)) :
  i < length arr → Array_set i v arr !! i = Some (Some v).
Proof.
  intros Hi. unfold Array_set.
  destruct (Nat.ltb_spec i (length arr)); [|lia]. by apply list_lookup_insert_eq.
Qed.

Lemma Array_set_lookup_ne {A} (i j : nat) (v : A) (arr : list (option A)) :
  i < length arr → i ≠ j → Array_set i v arr !! j = arr !! j.
Proof.
  intros Hi Hne. unfold Array_set.
  destruct (Nat.ltb_spec i (length arr)); [|lia]. by apply list_lookup_insert_ne.
Qed.

(** Nothing is collected exactly when every slot is a hole. *)
Lemma Array_filter_truthy_nil {A} (arr : list (option A)) :
  Array_filter_truthy arr = [] ↔ Forall (λ slot, slot = None) arr.
Proof.
  unfold Array_filter_truthy. induction arr as [|[x|] arr IH]; simpl.
  - split; [constructor|done].
  - split; [done|]. intros Hall. by apply Forall_cons in Hall as [? _].
  - rewrite IH. split; [by constructor|]. intros Hall.
    by apply Forall_cons in Hall as [_ ?].
Qed.

Lemma Array_slice_init_length {A} (arr : list A) :
  length (Array_slice_init arr) = length arr - 1.
Proof. unfold Array_slice_init. rewrite length_take. lia. Qed.

Lemma Array_slice_init_lookup {A} (arr : list A) (i : nat) :
  i < length arr - 1 → Array_slice_init arr !! i = arr !! i.
Proof. intros Hi. unfold Array_slice_init. by apply lookup_take_lt. Qed.

Lemma Array_at_last_None {A} (arr : list A) :
  Array_at_last arr = None ↔ arr = [].
Proof. unfold Array_at_last. apply last_None. Qed.

Lemma Array_at_last_lookup {A} (arr : list A) :
  Array_at_last arr = arr !! (length arr - 1).
Proof.
  unfold Array_at_last. rewrite last_lookup. f_equal. lia.
Qed.

(** ** Background tasks *)

Section Tasks.
Context `{Platform}.

Lemma taskEffect_refl (operationID : string) (st : SplitPdfHook) :
  taskEffect operationID st st.
Proof.
  exists (partitionResponses st), []. rewrite app_nil_r. by destruct st.
Qed.

Lemma taskEffect_trans (operationID : string) (st1 st2 st3 : SplitPdfHook) :
  taskEffect operationID st1 st2 → taskEffect operationID st2 st3 →
  taskEffect operationID st1 st3.
Proof.
  intros (r1 & l1 & -> & D1 & O1) (r2 & l2 & -> & D2 & O2).
  exists r2, (l1 ++ l2). destruct st1; simpl in *.
  unfold set_console, set_partitionResponses; simpl. rewrite app_assoc.
  split; [done|]. split; [congruence|].
  intros id Hne. by rewrite O2, O1.
Qed.

Lemma taskEffect_console (operationID : string) (logs : list LogEntry)
  (st : SplitPdfHook) :
  taskEffect operationID st (set_console (console st ++ logs) st).
Proof. exists (partitionResponses st), logs. by destruct st. Qed.

Lemma taskEffect_fields (operationID : string) (st st' : SplitPdfHook) :
  taskEffect operationID st st' →
  client st' = client st
  ∧ parallelLimit st' = parallelLimit st
  ∧ partitionRequests st' = partitionRequests st
  ∧ orphans st' = orphans st
  ∧ dom (partitionResponses st') = dom (partitionResponses st)
  ∧ ∀ id, id ≠ operationID →
          partitionResponses st' !! id = partitionResponses st !! id.
Proof. intros (r & l & -> & D & O). by repeat split. Qed.

(** *** The start of a task *)

Lemma startTask_client (t : Task) (st : SplitPdfHook) (c : HTTPClient) :
  client st = Some c → startTask t st = (Normal (waiting c t), st).
Proof. intros Hc. unfold startTask. hook_unfold. by rewrite Hc. Qed.

Lemma startTasks_client (c : HTTPClient) (ts : list Task) (st : SplitPdfHook) :
  client st = Some c → startTasks ts st = (Normal (waiting c <$> ts), st).
Proof.
  intros Hc. induction ts as [|t ts IH]; simpl; [done|].
  unfold bind at 1. rewrite (startTask_client _ _ c) by done.
  unfold bind at 1. by rewrite IH.
Qed.

Lemma startTask_total (operationID : string) (t : Task) (st : SplitPdfHook) :
  ∃ flight st',
    startTask t st = (Normal (t, flight), st') ∧ taskEffect operationID st st'.
Proof.
  unfold startTask. hook_unfold. destruct (client st).
  - eexists _, _. split; [done|]. apply taskEffect_refl.
  - eexists _, _. split; [done|]. apply taskEffect_console.
Qed.

Lemma startTasks_total (operationID : string) (ts : list Task) :
  ∀ st : SplitPdfHook,
  ∃ fs st',
    startTasks ts st = (Normal fs, st')
    ∧ taskEffect operationID st st'
    ∧ fst <$> fs = ts.
Proof.
  induction ts as [|t ts IH]; intros st; simpl.
  - exists [], st. split; [done|]. split; [apply taskEffect_refl|done].
  - destruct (startTask_total operationID t st) as (f & st1 & E1 & T1).
    destruct (IH st1) as (fs & st2 & E2 & T2 & Hfs).
    exists ((t, f) :: fs), st2. unfold bind at 1. rewrite E1.
    unfold bind at 1. rewrite E2. split; [done|].
    split; [by eapply taskEffect_trans|]. rewrite fmap_cons. simpl. by f_equal.
Qed.

(** *** The end of a task *)

(** With the response array in place, a task that comes back writes
    what [fillSlot] says and logs what [taskLog] says. *)
Lemma finishTask_run (operationID : string) (t : Task) (st : SplitPdfHook)
  (c : HTTPClient) (slots : list (option Response)) :
  partitionResponses st !! operationID = Some slots →
  finishTask operationID t (Waiting (c (task_request t))) st
  = (Normal tt,
     set_console (console st ++ taskLog c t)
       (set_partitionResponses
          (<[operationID := fillSlot c slots t]> (partitionResponses st)) st)).
Proof.
  intros Hs. unfold finishTask, fillSlot, taskLog. hook_unfold.
  destruct st as [cl resp reqs lim con orph]; simpl in *.
  destruct (c (task_request t)) as [response|e]; simpl.
  - destruct (res_status response =? 200)%Z; simpl.
    + rewrite Hs. simpl. unfold set_console, set_partitionResponses; simpl.
      by rewrite app_nil_r.
    + unfold set_console, set_partitionResponses; simpl.
      by rewrite app_nil_r, insert_id.
  - unfold set_console, set_partitionResponses; simpl.
    by rewrite insert_id.
Qed.

(** A task never throws, whatever the store. *)
Lemma finishTask_total (operationID : string) (t : Task) (flight : Flight)
  (st : SplitPdfHook) :
  ∃ st', finishTask operationID t flight st = (Normal tt, st')
         ∧ taskEffect operationID st st'.
Proof.
  unfold finishTask. destruct flight as [outcome|].
  2:{ exists st. split; [done|]. apply taskEffect_refl. }
  hook_unfold. destruct outcome as [response|e]; simpl.
  2:{ eexists. split; [done|]. apply taskEffect_console. }
  destruct (res_status response =? 200)%Z; simpl.
  2:{ eexists. split; [done|]. apply taskEffect_refl. }
  destruct (partitionResponses st !! operationID) as [slots|] eqn:Hs; simpl.
  - eexists. split; [done|].
    exists (<[operationID := Array_set (task_index t) response slots]>
              (partitionResponses st)), [].
    rewrite app_nil_r. split; [by destruct st|]. split.
    + apply dom_insert_lookup_L. by rewrite Hs.
    + intros id Hne. by rewrite lookup_insert_ne.
  - eexists. split; [done|]. apply taskEffect_console.
Qed.

(** *** The slots after a run, task by task *)

Lemma fold_fillSlot_length (c : HTTPClient) (ts : list Task) :
  ∀ slots : list (option Response),
    (∀ t, t ∈ ts → task_index t < length slots) →
    length (fold_left (fillSlot c) ts slots) = length slots.
Proof.
  induction ts as [|t ts IH]; intros slots Hlt; simpl; [done|].
  assert (length (fillSlot c slots t) = length slots) as Hlen.
  { unfold fillSlot. destruct (c (task_request t)) as [r|]; [|done].
    destruct (res_status r =? 200)%Z; [|done].
    apply Array_set_length_lt, Hlt. set_solver. }
  rewrite IH; [done|]. intros t' Ht'. rewrite Hlen. apply Hlt. set_solver.
Qed.

Lemma fold_fillSlot_other (c : HTTPClient) (ts : list Task) (j : nat) :
  ∀ slots : list (option Response),
    (∀ t, t ∈ ts → task_index t < length slots) →
    (∀ t, t ∈ ts → task_index t ≠ j) →
    fold_left (fillSlot c) ts slots !! j = slots !! j.
Proof.
  induction ts as [|t ts IH]; intros slots Hlt Hne; simpl; [done|].
  assert (task_index t < length slots) as Hi by (apply Hlt; set_solver).
  assert (length (fillSlot c slots t) = length slots) as Hlen.
  { unfold fillSlot. destruct (c (task_request t)) as [r|]; [|done].
    destruct (res_status r =? 200)%Z; [|done]. by apply Array_set_length_lt. }
  rewrite IH.
  - unfold fillSlot. destruct (c (task_request t)) as [r|]; [|done].
    destruct (res_status r =? 200)%Z; [|done].
    apply Array_set_lookup_ne; [done|]. apply Hne. set_solver.
  - intros t' Ht'. rewrite Hlen. apply Hlt. set_solver.
  - intros t' Ht'. apply Hne. set_solver.
Qed.

(** Each task decides its own slot, wherever it stands in the run. *)
Lemma fold_fillSlot_own (c : HTTPClient) (ts : list Task) :
  ∀ (slots : list (option Response)) (t : Task),
    NoDup (map task_index ts) →
    (∀ t', t' ∈ ts → task_index t' < length slots) →
    t ∈ ts →
    slots !! task_index t = Some None →
    fold_left (fillSlot c) ts slots !! task_index t = Some (slotOf c t).
Proof.
  induction ts as [|t0 ts IH]; intros slots t Hnd Hlt Hin Hempty; simpl.
  { by apply elem_of_nil in Hin. }
  simpl in Hnd. apply NoDup_cons in Hnd as [Hfresh Hnd].
  assert (task_index t0 < length slots) as Hi0 by (apply Hlt; by left).
  assert (length (fillSlot c slots t0) = length slots) as Hlen.
  { unfold fillSlot. destruct (c (task_request t0)) as [r|]; [|done].
    destruct (res_status r =? 200)%Z; [|done]. by apply Array_set_length_lt. }
  apply elem_of_cons in Hin as [->|Hin].
  - rewrite fold_fillSlot_other.
    + unfold fillSlot, slotOf. destruct (c (task_request t0)) as [r|]; [|done].
      destruct (res_status r =? 200)%Z; [|done]. by apply Array_set_lookup_eq.
    + intros t' Ht'. rewrite Hlen. apply Hlt. set_solver.
    + intros t' Ht' Heq. apply Hfresh. rewrite <- Heq.
      apply list_elem_of_fmap. by exists t'.
  - apply IH; [done| |done|].
    + intros t' Ht'. rewrite Hlen. apply Hlt. set_solver.
    + assert (task_index t0 ≠ task_index t) as Hne.
      { intros Heq. apply Hfresh. rewrite Heq.
        apply list_elem_of_fmap. by exists t. }
      unfold fillSlot. destruct (c (task_request t0)) as [r|]; [|done].
      destruct (res_status r =? 200)%Z; [|done].
      by rewrite Array_set_lookup_ne.
Qed.

End Tasks.

(** ** The pool *)

Section Pool.
Context `{Platform}.

Lemma evolves_refl (operationID : string) (st : SplitPdfHook) :
  evolves operationID st st.
Proof. by repeat split. Qed.

Lemma evolves_trans (operationID : string) (st1 st2 st3 : SplitPdfHook) :
  evolves operationID st1 st2 → evolves operationID st2 st3 →
  evolves operationID st1 st3.
Proof.
  intros ((H12 & Hc12 & Hl12) & D12 & E12) ((H23 & Hc23 & Hl23) & D23 & E23).
  split; [|split; congruence].
  split; [|split; congruence].
  intros id Hne. destruct (H12 id Hne) as [? ?]. destruct (H23 id Hne) as [? ?].
  split; congruence.
Qed.

Lemma taskEffect_evolves (operationID : string) (st st' : SplitPdfHook) :
  taskEffect operationID st st' → evolves operationID st st'.
Proof.
  intros (r & l & -> & D & O). split; [|done].
  split; [|done]. intros id Hne. split; [by apply O|done].
Qed.

Lemma evolves_handle (operationID : string) (h : Promise) (st : SplitPdfHook) :
  is_Some (partitionRequests st !! operationID) →
  evolves operationID st
    (set_partitionRequests (<[operationID := h]> (partitionRequests st)) st).
Proof.
  intros Hp. split; [|split; [done|]].
  - split; [|done]. intros id Hne. simpl. by rewrite lookup_insert_ne.
  - simpl. by apply dom_insert_lookup_L.
Qed.

Lemma evolves_orphans (operationID : string) (os : list (string * Promise))
  (st : SplitPdfHook) :
  evolves operationID st (set_orphans os st).
Proof. by repeat split. Qed.

Lemma ended_length (h h' : Promise) (k : nat) :
  ended h k h' → k < length (promise_running h) →
  length (pending h') + 1 = length (pending h).
Proof.
  intros [_ He] Hk. destruct (lookup_lt_is_Some_2 _ _ Hk) as [[t f] E].
  rewrite E in He. rewrite <- He. simpl. lia.
Qed.

(** *** One task ends *)

Lemma settle_idle (operationID : string) (h : Promise) (k : nat)
  (st : SplitPdfHook) :
  promise_running h !! k = None → settle operationID h k st = (Normal h, st).
Proof. intros E. unfold settle. by rewrite E. Qed.

Lemma pending_settled (running : list (Task * Flight)) (queued : list Task)
  (fs : list (Task * Flight)) (k : nat) (t : Task) (f : Flight) :
  running !! k = Some (t, f) →
  fst <$> fs = take 1 queued →
  t :: (fst <$> delete k running ++ fs) ++ drop 1 queued
  ≡ₚ (fst <$> running) ++ queued.
Proof.
  intros E Hfs. rewrite fmap_app, Hfs, <- app_assoc, take_drop.
  rewrite (delete_Permutation running k (t, f)) at 2 by done.
  by rewrite fmap_cons.
Qed.

Lemma settle_total (operationID : string) (h : Promise) (k : nat)
  (st : SplitPdfHook) :
  ∃ h' st',
    settle operationID h k st = (Normal h', st')
    ∧ taskEffect operationID st st'
    ∧ ended h k h'.
Proof.
  unfold settle, ended.
  destruct (promise_running h !! k) as [[t f]|] eqn:E.
  2:{ exists h, st. split; [done|]. split; [apply taskEffect_refl|done]. }
  destruct (finishTask_total operationID t f st) as (st1 & E1 & T1).
  destruct (startTasks_total operationID (take 1 (promise_queued h)) st1)
    as (fs & st2 & E2 & T2 & Hfs).
  eexists _, st2. unfold bind at 1. rewrite E1. unfold bind at 1. rewrite E2.
  split; [done|]. split; [by eapply taskEffect_trans|]. split; [done|].
  unfold pending; simpl. by apply (pending_settled _ _ _ _ _ f).
Qed.

(** The same with the client [c] and the response array in place. *)
Lemma settle_run (operationID : string) (h : Promise) (k : nat)
  (st : SplitPdfHook) (c : HTTPClient) (slots : list (option Response))
  (t : Task) :
  client st = Some c →
  partitionResponses st !! operationID = Some slots →
  promise_running h !! k = Some (waiting c t) →
  settle operationID h k st
  = (Normal {| promise_running :=
                 delete k (promise_running h)
                 ++ (waiting c <$> take 1 (promise_queued h));
               promise_queued := drop 1 (promise_queued h);
               promise_limit := promise_limit h |},
     set_console (console st ++ taskLog c t)
       (set_partitionResponses
          (<[operationID := fillSlot c slots t]> (partitionResponses st)) st)).
Proof.
  intros Hc Hs E. unfold settle. rewrite E. unfold waiting.
  unfold bind at 1. rewrite (finishTask_run _ _ _ c slots) by done.
  unfold bind at 1. rewrite (startTasks_client c) by done. done.
Qed.

Lemma settleOwn_absent (operationID : string) (k : nat) (st : SplitPdfHook) :
  partitionRequests st !! operationID = None →
  settleOwn operationID k st = (Normal tt, st).
Proof. intros Hp. unfold settleOwn. hook_unfold. by rewrite Hp. Qed.

Lemma settleOwn_present (operationID : string) (k : nat) (st : SplitPdfHook)
  (h h' : Promise) (st' : SplitPdfHook) :
  partitionRequests st !! operationID = Some h →
  settle operationID h k st = (Normal h', st') →
  settleOwn operationID k st
  = (Normal tt,
     set_partitionRequests (<[operationID := h']> (partitionRequests st')) st').
Proof.
  intros Hp E. unfold settleOwn. unfold bind at 1. unfold get at 1.
  rewrite Hp. unfold bind. rewrite E. done.
Qed.

Lemma settleOwn_total (operationID : string) (k : nat) (st : SplitPdfHook) :
  ∃ st',
    settleOwn operationID k st = (Normal tt, st')
    ∧ evolves operationID st st'
    ∧ orphans st' = orphans st
    ∧ ∀ h, partitionRequests st !! operationID = Some h →
           ∃ h', partitionRequests st' !! operationID = Some h' ∧ ended h k h'.
Proof.
  destruct (partitionRequests st !! operationID) as [h|] eqn:Hp.
  2:{ exists st. rewrite settleOwn_absent by done.
      split; [done|]. split; [apply evolves_refl|]. done. }
  destruct (settle_total operationID h k st) as (h' & st1 & E & T & He).
  rewrite (settleOwn_present _ _ _ h h' st1) by done.
  eexists. split; [done|].
  destruct (taskEffect_fields _ _ _ T) as (_ & _ & Hreqs & Horph & _).
  split; [|split; [done|]].
  - eapply evolves_trans; [by apply taskEffect_evolves|].
    apply evolves_handle. by rewrite Hreqs, Hp.
  - intros h0 [= <-]. exists h'. split; [|done]. simpl. apply lookup_insert_eq.
Qed.

Lemma settleOrphan_absent (j k : nat) (st : SplitPdfHook) :
  orphans st !! j = None → settleOrphan j k st = (Normal tt, st).
Proof. intros Ho. unfold settleOrphan. hook_unfold. by rewrite Ho. Qed.

Lemma settleOrphan_present (j k : nat) (st : SplitPdfHook) (operationID : string)
  (h h' : Promise) (st' : SplitPdfHook) :
  orphans st !! j = Some (operationID, h) →
  settle operationID h k st = (Normal h', st') →
  settleOrphan j k st
  = (Normal tt, set_orphans (<[j := (operationID, h')]> (orphans st')) st').
Proof.
  intros Ho E. unfold settleOrphan. unfold bind at 1. unfold get at 1.
  rewrite Ho. unfold bind. rewrite E. done.
Qed.

(** An orphan whose tasks have all ended has nothing left to do. *)
Lemma settleOrphan_idle (j k : nat) (st : SplitPdfHook) (operationID : string)
  (h : Promise) :
  orphans st !! j = Some (operationID, h) →
  idle h = true →
  settleOrphan j k st = (Normal tt, st).
Proof.
  intros Ho Hidle.
  rewrite (settleOrphan_present _ _ _ operationID h h st) by
    (try done; apply settle_idle; unfold idle in Hidle;
     by destruct (promise_running h)).
  rewrite list_insert_id by done. by destruct st.
Qed.

Lemma settleOrphan_total (j k : nat) (st : SplitPdfHook) :
  ∃ st',
    settleOrphan j k st = (Normal tt, st')
    ∧ partitionRequests st' = partitionRequests st
    ∧ match orphans st !! j with
      | None => st' = st
      | Some (operationID, h) =>
          evolves operationID st st'
          ∧ ∃ h', ended h k h'
                  ∧ orphans st' = <[j := (operationID, h')]> (orphans st)
      end.
Proof.
  destruct (orphans st !! j) as [[operationID h]|] eqn:Ho.
  2:{ exists st. by rewrite settleOrphan_absent. }
  destruct (settle_total operationID h k st) as (h' & st1 & E & T & He).
  rewrite (settleOrphan_present _ _ _ operationID h h' st1) by done.
  destruct (taskEffect_fields _ _ _ T) as (_ & _ & Hreqs & Horph & _).
  eexists. split; [done|]. split; [done|]. split.
  - eapply evolves_trans; [by apply taskEffect_evolves|apply evolves_orphans].
  - exists h'. split; [done|]. simpl. by rewrite Horph.
Qed.

(** *** The join *)

Lemma settleMeanwhile_total (operationID : string) (batch : list (nat * nat)) :
  ∀ st : SplitPdfHook,
  ∃ st',
    settleMeanwhile operationID batch st = (Normal tt, st')
    ∧ evolves operationID st st'
    ∧ partitionRequests st' = partitionRequests st.
Proof.
  induction batch as [|[j k] batch IH]; intros st; simpl.
  { exists st. split; [done|]. split; [apply evolves_refl|done]. }
  unfold bind at 1. unfold get at 1. unfold bind at 1.
  assert (∃ st1,
            match orphans st !! j with
            | Some (id, _) =>
                if String.eqb id operationID then settleOrphan j k else ret tt
            | None => ret tt
            end st = (Normal tt, st1)
            ∧ evolves operationID st st1
            ∧ partitionRequests st1 = partitionRequests st)
    as (st1 & -> & Ev1 & Hr1).
  { destruct (orphans st !! j) as [[id h]|] eqn:Ho.
    2:{ exists st. split; [done|]. split; [apply evolves_refl|done]. }
    destruct (String.eqb_spec id operationID) as [->|Hne].
    2:{ exists st. split; [done|]. split; [apply evolves_refl|done]. }
    destruct (settleOrphan_total j k st) as (st1 & E & Hr & Hm).
    rewrite Ho in Hm. destruct Hm as [Ev _]. by exists st1. }
  destruct (IH st1) as (st2 & E2 & Ev2 & Hr2).
  exists st2. split; [done|]. split; [by eapply evolves_trans|congruence].
Qed.

Lemma nextPlace_lt (running : list (Task * Flight)) :
  running ≠ [] → nextPlace running < length running.
Proof.
  intros Hne. unfold nextPlace.
  destruct (Nat.ltb_spec (settlesNext running) (length running)); [done|].
  destruct running; [done|]. simpl. lia.
Qed.

(** The loop of the join returns, and with enough fuel it leaves a handle
    without running tasks. *)
Lemma awaitLoop_total (operationID : string) (fuel : nat) :
  ∀ st : SplitPdfHook,
  ∃ st',
    awaitLoop fuel operationID st = (Normal tt, st')
    ∧ evolves operationID st st'
    ∧ ∀ h, partitionRequests st !! operationID = Some h →
           length (pending h) ≤ fuel →
           ∃ h', partitionRequests st' !! operationID = Some h'
                 ∧ promise_running h' = []
                 ∧ promise_limit h' = promise_limit h.
Proof.
  induction fuel as [|fuel IH]; intros st; simpl.
  { exists st. split; [done|]. split; [apply evolves_refl|].
    intros h Hp Hlen. exists h. split; [done|]. split; [|done].
    unfold pending in Hlen. rewrite length_app, length_fmap in Hlen.
    destruct (promise_running h); [done|]. simpl in Hlen. lia. }
  unfold bind at 1. unfold get at 1.
  destruct (partitionRequests st !! operationID) as [h|] eqn:Hp.
  2:{ exists st. split; [done|]. split; [apply evolves_refl|done]. }
  destruct (promise_running h) as [|f0 running] eqn:Hrun.
  { exists st. split; [done|]. split; [apply evolves_refl|].
    intros h0 [= <-] _. exists h. by rewrite Hp. }
  rewrite <- Hrun.
  destruct (settleMeanwhile_total operationID
              (settlesMeanwhile operationID (orphans st)) st)
    as (st1 & E1 & Ev1 & Hr1).
  unfold bind at 1. rewrite E1.
  destruct (settleOwn_total operationID (nextPlace (promise_running h)) st1)
    as (st2 & E2 & Ev2 & _ & Hh2).
  unfold bind at 1. rewrite E2.
  destruct (IH st2) as (st3 & E3 & Ev3 & Hh3).
  exists st3. split; [done|]. split.
  { eapply evolves_trans; [exact Ev1|]. by eapply evolves_trans. }
  intros h0 [= <-] Hlen.
  destruct (Hh2 h) as (h2 & Hp2 & He2); [by rewrite Hr1|].
  assert (nextPlace (promise_running h) < length (promise_running h)) as Hk
    by (apply nextPlace_lt; by rewrite Hrun).
  pose proof (ended_length _ _ _ He2 Hk) as Hl2.
  destruct (Hh3 h2 Hp2) as (h3 & Hp3 & Hrun3 & Hlim3); [lia|].
  exists h3. split; [done|]. split; [done|].
  destruct He2 as [Hlim2 _]. congruence.
Qed.

Lemma awaitPromise_rejected (operationID : string) (requests : Promise)
  (st : SplitPdfHook) :
  (promise_limit requests ≤ 0)%Z →
  awaitPromise operationID requests st
  = (Throw (RangeError "concurrency limit cannot be less than 1"), st).
Proof.
  intros Hlim. unfold awaitPromise.
  by destruct (Z.leb_spec (promise_limit requests) 0); [|lia].
Qed.

Lemma awaitPromise_normal (operationID : string) (requests : Promise)
  (st : SplitPdfHook) :
  (0 < promise_limit requests)%Z →
  awaitPromise operationID requests st
  = (Normal tt, joined operationID requests st).
Proof.
  intros Hlim. unfold joined, awaitPromise.
  destruct (Z.leb_spec (promise_limit requests) 0); [lia|].
  destruct (awaitLoop_total operationID
              (length (promise_running requests) + length (promise_queued requests))
              st) as (st' & E & _).
  by rewrite E.
Qed.

Lemma joined_rejected (operationID : string) (requests : Promise)
  (st : SplitPdfHook) :
  (promise_limit requests ≤ 0)%Z → joined operationID requests st = st.
Proof. intros Hlim. unfold joined. by rewrite awaitPromise_rejected. Qed.

Lemma evolves_joined (operationID : string) (requests : Promise)
  (st : SplitPdfHook) :
  evolves operationID st (joined operationID requests st).
Proof.
  destruct (Z.leb_spec (promise_limit requests) 0) as [Hlim|Hlim].
  { rewrite joined_rejected by done. apply evolves_refl. }
  unfold joined, awaitPromise.
  destruct (Z.leb_spec (promise_limit requests) 0); [lia|].
  destruct (awaitLoop_total operationID
              (length (promise_running requests) + length (promise_queued requests))
              st) as (st' & E & Ev & _).
  by rewrite E.
Qed.

(** Once awaited, the handle of the map has no running task left. *)
Lemma joined_idle (operationID : string) (requests : Promise)
  (st : SplitPdfHook) :
  partitionRequests st !! operationID = Some requests →
  (0 < promise_limit requests)%Z →
  ∃ h', partitionRequests (joined operationID requests st) !! operationID = Some h'
        ∧ promise_running h' = []
        ∧ promise_limit h' = promise_limit requests.
Proof.
  intros Hp Hlim. unfold joined, awaitPromise.
  destruct (Z.leb_spec (promise_limit requests) 0); [lia|].
  destruct (awaitLoop_total operationID
              (length (promise_running requests) + length (promise_queued requests))
              st) as (st' & E & _ & Hh).
  rewrite E. apply Hh; [done|].
  unfold pending. by rewrite length_app, length_fmap.
Qed.

(** Awaiting a handle without running tasks changes nothing. *)
Lemma joined_again (operationID : string) (requests : Promise)
  (st : SplitPdfHook) :
  partitionRequests st !! operationID = Some requests →
  promise_running requests = [] →
  joined operationID requests st = st.
Proof.
  intros Hp Hrun. unfold joined, awaitPromise.
  destruct (promise_limit requests <=? 0)%Z; [done|].
  destruct (length (promise_running requests) + length (promise_queued requests))
    as [|fuel]; simpl; [done|].
  unfold bind, get. by rewrite Hp, Hrun.
Qed.

End Pool.

(** ** The join and the two response hooks *)

Section Join.
Context `{Platform}.

Lemma detach_absent (operationID : string) (st : SplitPdfHook) :
  partitionRequests st !! operationID = None → detach operationID st = st.
Proof. intros Hp. unfold detach. by rewrite Hp. Qed.

Lemma detach_fields (operationID : string) (st : SplitPdfHook) :
  client (detach operationID st) = client st
  ∧ partitionResponses (detach operationID st) = partitionResponses st
  ∧ partitionRequests (detach operationID st) = partitionRequests st
  ∧ parallelLimit (detach operationID st) = parallelLimit st
  ∧ console (detach operationID st) = console st.
Proof.
  unfold detach. destruct (partitionRequests st !! operationID) as [h|]; [|done].
  by destruct (promise_running h).
Qed.

(** Nothing joins the orphans when no task of the handle is in flight. *)
Lemma detach_idle (operationID : string) (st : SplitPdfHook) :
  match partitionRequests st !! operationID with
  | Some h => idle h
  | None => true
  end = true →
  detach operationID st = st.
Proof.
  unfold detach, idle.
  destruct (partitionRequests st !! operationID) as [h|]; [|done].
  by destruct (promise_running h).
Qed.

Lemma awaitAllRequests_absent (operationID : string) (st : SplitPdfHook) :
  partitionRequests st !! operationID = None →
  awaitAllRequests operationID st = (Normal None, st).
Proof. intros Hp. unfold awaitAllRequests, bind, get, ret. by rewrite Hp. Qed.

Lemma awaitAllRequests_rejected (operationID : string) (st : SplitPdfHook)
  (requests : Promise) :
  partitionRequests st !! operationID = Some requests →
  (promise_limit requests ≤ 0)%Z →
  awaitAllRequests operationID st
  = (Throw (RangeError "concurrency limit cannot be less than 1"), st).
Proof.
  intros Hp Hlim. unfold awaitAllRequests. unfold bind at 1. unfold get at 1.
  rewrite Hp. unfold bind at 1. by rewrite awaitPromise_rejected.
Qed.

Lemma awaitAllRequests_present (operationID : string) (st : SplitPdfHook)
  (requests : Promise) :
  partitionRequests st !! operationID = Some requests →
  (0 < promise_limit requests)%Z →
  awaitAllRequests operationID st
  = (Normal (Some (collected operationID (joined operationID requests st))),
     joined operationID requests st).
Proof.
  intros Hp Hlim. unfold awaitAllRequests. unfold bind at 1. unfold get at 1.
  rewrite Hp. unfold bind at 1. rewrite awaitPromise_normal by done.
  unfold bind, get, ret, collected. done.
Qed.

Lemma merged_ok (primary : Response) (body : string) :
  bodyStatus (res_status primary) = true →
  merged primary body
  = Normal {| res_status := res_status primary;
              res_statusText := res_statusText primary;
              res_headers :=
                Headers_withContentType textContentType
                  (Headers_delete "content-length" (res_headers primary));
              res_body := body |}.
Proof.
  unfold bodyStatus, merged, Response_new, prepareResponseHeaders. intros Hs.
  apply andb_true_iff in Hs as [Hs Hnull].
  apply andb_true_iff in Hs as [Hlo Hhi].
  apply negb_true_iff in Hnull. rewrite Hnull.
  destruct (Z.ltb_spec (res_status primary) 200); [lia|].
  destruct (Z.ltb_spec 599 (res_status primary)); [lia|]. done.
Qed.

Lemma afterSuccess_absent (operationID : string) (response : Response)
  (st : SplitPdfHook) :
  partitionRequests st !! operationID = None →
  afterSuccess operationID response st = (Normal response, st).
Proof.
  intros Hp. unfold afterSuccess, bind.
  by rewrite awaitAllRequests_absent.
Qed.

Lemma afterSuccess_rejected (operationID : string) (response : Response)
  (st : SplitPdfHook) (requests : Promise) :
  partitionRequests st !! operationID = Some requests →
  (promise_limit requests ≤ 0)%Z →
  afterSuccess operationID response st
  = (Throw (RangeError "concurrency limit cannot be less than 1"), st).
Proof.
  intros Hp Hlim. unfold afterSuccess, bind.
  by rewrite (awaitAllRequests_rejected _ _ requests).
Qed.

Lemma afterSuccess_present (operationID : string) (response : Response)
  (st : SplitPdfHook) (requests : Promise) :
  partitionRequests st !! operationID = Some requests →
  (0 < promise_limit requests)%Z →
  let st1 := joined operationID requests st in
  afterSuccess operationID response st
  = match prepareResponseBody (collected operationID st1 ++ [response]) with
    | Normal body => (merged response body, cleared operationID st1)
    | Throw e => (Throw e, st1)
    end.
Proof.
  intros Hp Hlim st1. unfold afterSuccess. unfold bind at 1.
  rewrite (awaitAllRequests_present _ _ requests) by done. fold st1.
  unfold bind, lift, ret, cleared, clearOperation, modify, merged.
  by destruct (prepareResponseBody _).
Qed.

Lemma afterError_absent (operationID : string) (response : option Response)
  (error : option JSError) (st : SplitPdfHook) :
  partitionRequests st !! operationID = None →
  afterError operationID response error st
  = (Normal (response, error), cleared operationID st).
Proof.
  intros Hp. unfold afterError, bind.
  by rewrite awaitAllRequests_absent.
Qed.

Lemma afterError_rejected (operationID : string) (response : option Response)
  (error : option JSError) (st : SplitPdfHook) (requests : Promise) :
  partitionRequests st !! operationID = Some requests →
  (promise_limit requests ≤ 0)%Z →
  afterError operationID response error st
  = (Throw (RangeError "concurrency limit cannot be less than 1"), st).
Proof.
  intros Hp Hlim. unfold afterError, bind.
  by rewrite (awaitAllRequests_rejected _ _ requests).
Qed.

Lemma afterError_present (operationID : string) (response : option Response)
  (error : option JSError) (st : SplitPdfHook) (requests : Promise) :
  partitionRequests st !! operationID = Some requests →
  (0 < promise_limit requests)%Z →
  let st1 := joined operationID requests st in
  afterError operationID response error st
  = match collected operationID st1 with
    | [] => (Normal (response, error), cleared operationID st1)
    | okResponse :: _ =>
        match prepareResponseBody (collected operationID st1) with
        | Normal body =>
            match merged okResponse body with
            | Normal finalResponse =>
                (Normal (Some finalResponse, None), cleared operationID st1)
            | Throw e => (Throw e, st1)
            end
        | Throw e => (Throw e, st1)
        end
    end.
Proof.
  intros Hp Hlim st1. unfold afterError. unfold bind at 1.
  rewrite (awaitAllRequests_present _ _ requests) by done. fold st1.
  destruct (collected operationID st1) as [|okResponse rest]; [done|].
  unfold bind, lift, ret, cleared, clearOperation, modify, merged.
  destruct (prepareResponseBody _); [|done].
  by destruct (Response_new _ _ _ _).
Qed.

Lemma cleared_lookup (operationID : string) (st : SplitPdfHook) :
  partitionResponses (cleared operationID st) !! operationID = None
  ∧ partitionRequests (cleared operationID st) !! operationID = None.
Proof.
  unfold cleared, clearOperation, modify; simpl.
  split; apply lookup_delete_eq.
Qed.

Lemma cleared_idempotent (operationID : string) (st : SplitPdfHook) :
  cleared operationID (cleared operationID st) = cleared operationID st.
Proof.
  unfold cleared at 1. unfold clearOperation, modify; cbn [snd].
  rewrite detach_absent by apply cleared_lookup.
  unfold cleared, clearOperation, modify; simpl.
  unfold set_partitionRequests, set_partitionResponses; simpl.
  rewrite !delete_delete_eq. done.
Qed.

Lemma cleared_absent (operationID : string) (st : SplitPdfHook) :
  no_operation operationID st → cleared operationID st = st.
Proof.
  intros [Hr Hp]. unfold cleared, clearOperation, modify; simpl.
  rewrite detach_absent by done.
  destruct st; unfold set_partitionRequests, set_partitionResponses; simpl in *.
  by rewrite !delete_id.
Qed.

End Join.

(** ** beforeRequest, path by path *)

Section BeforeRequest.
Context `{Platform}.

(** With the client [c] every task that starts calls the transport and
    waits. *)
Lemma dispatch_client (requests : list Request) (limit : Z) (st : SplitPdfHook)
  (c : HTTPClient) :
  client st = Some c →
  dispatch requests limit st = (Normal (dispatched c requests limit), st).
Proof.
  intros Hc. unfold dispatch, async_parallelLimit, dispatched.
  destruct (limit <=? 0)%Z; [done|].
  unfold bind. by rewrite (startTasks_client c).
Qed.

Lemma beforeRequest_split (operationID : string) (request : Request)
  (st : SplitPdfHook) (name : string) (content : Blob) (pages : list Blob)
  (c : HTTPClient) :
  splits request st name content pages →
  client st = Some c →
  beforeRequest operationID request st
  = (Normal (Array_at_last (derivedRequests request name pages)),
     registered operationID c (derivedRequests request name pages) st).
Proof.
  intros (Hflag & Hfile & _ & Hpages) Hc.
  unfold beforeRequest. unfold bind at 1. unfold lift at 1.
  rewrite Hflag. cbn [negb]. unfold bind at 1. unfold lift at 1.
  rewrite Hfile. unfold bind at 1. unfold get at 1. rewrite Hc.
  unfold bind at 1. unfold lift at 1. rewrite Hpages.
  fold (derivedRequests request name pages).
  set (requests := derivedRequests request name pages).
  unfold registered, limitWarnings.
  set (st1 := set_console _ st).
  assert ((if (parallelLimit st >? MAX_NUMBER_OF_PARALLEL_REQUESTS)%Z
           then console_warn (limitWarning (parallelLimit st))
           else ret tt) st = (Normal tt, st1)) as Hwarn.
  { unfold st1. destruct (parallelLimit st >? MAX_NUMBER_OF_PARALLEL_REQUESTS)%Z.
    - done.
    - unfold ret. rewrite app_nil_r. by destruct st. }
  unfold bind at 1. rewrite Hwarn.
  unfold bind at 1. unfold modify at 1.
  unfold bind at 1.
  rewrite (dispatch_client _ _ _ c) by (by destruct st).
  unfold bind, modify, ret. done.
Qed.

Lemma beforeRequest_fatal (operationID : string) (request : Request)
  (st : SplitPdfHook) (name : string) (content : Blob) (e : JSError) :
  readSplitPdfPage (req_form request) = Normal true →
  pdfFile (FormData_get PARTITION_FORM_FILES_KEY (req_form request))
  = Normal (Some (name, content)) →
  is_Some (client st) →
  getPdfPages content = Throw e →
  beforeRequest operationID request st = (Throw e, st).
Proof.
  intros Hflag Hfile [c Hc] Hpages. unfold beforeRequest.
  unfold bind at 1. unfold lift at 1. rewrite Hflag. cbn [negb].
  unfold bind at 1. unfold lift at 1. rewrite Hfile.
  unfold bind at 1. unfold get at 1. rewrite Hc.
  unfold bind at 1. unfold lift at 1. by rewrite Hpages.
Qed.

Lemma beforeRequest_flag_false (operationID : string) (request : Request)
  (st : SplitPdfHook) :
  readSplitPdfPage (req_form request) = Normal false →
  beforeRequest operationID request st = (Normal (Some request), st).
Proof. intros Hflag. unfold beforeRequest. hook_unfold. by rewrite Hflag. Qed.

Lemma beforeRequest_not_pdf (operationID : string) (request : Request)
  (st : SplitPdfHook) :
  readSplitPdfPage (req_form request) = Normal true →
  pdfFile (FormData_get PARTITION_FORM_FILES_KEY (req_form request)) = Normal None →
  beforeRequest operationID request st
  = (Normal (Some request), set_console (console st ++ [Warn notPdfWarning]) st).
Proof.
  intros Hflag Hfile. unfold beforeRequest. hook_unfold.
  rewrite Hflag; simpl. by rewrite Hfile.
Qed.

Lemma beforeRequest_no_client (operationID : string) (request : Request)
  (st : SplitPdfHook) (name : string) (content : Blob) :
  readSplitPdfPage (req_form request) = Normal true →
  pdfFile (FormData_get PARTITION_FORM_FILES_KEY (req_form request))
  = Normal (Some (name, content)) →
  client st = None →
  beforeRequest operationID request st
  = (Normal (Some request), set_console (console st ++ [Warn noClientWarning]) st).
Proof.
  intros Hflag Hfile Hc. unfold beforeRequest. hook_unfold.
  rewrite Hflag; simpl. rewrite Hfile; simpl. by rewrite Hc.
Qed.

Lemma beforeRequest_flag_throws (operationID : string) (request : Request)
  (st : SplitPdfHook) (e : JSError) :
  readSplitPdfPage (req_form request) = Throw e →
  beforeRequest operationID request st = (Throw e, st).
Proof. intros Hflag. unfold beforeRequest. hook_unfold. by rewrite Hflag. Qed.

Lemma beforeRequest_file_throws (operationID : string) (request : Request)
  (st : SplitPdfHook) (e : JSError) :
  readSplitPdfPage (req_form request) = Normal true →
  pdfFile (FormData_get PARTITION_FORM_FILES_KEY (req_form request)) = Throw e →
  beforeRequest operationID request st = (Throw e, st).
Proof.
  intros Hflag Hfile. unfold beforeRequest. hook_unfold.
  rewrite Hflag; simpl. by rewrite Hfile.
Qed.

(** *** The derived requests *)

Lemma derivedRequests_length (request : Request) (name : string) (pages : list Blob) :
  length (derivedRequests request name pages) = length pages.
Proof. unfold derivedRequests, pageRequests. apply length_imap. Qed.

Lemma derivedRequests_lookup (request : Request) (name : string)
  (pages : list Blob) (i : nat) :
  derivedRequests request name pages !! i
  = pageRequest request (prepareRequestHeaders request)
      (JSString.replace ".pdf" EmptyString name) i <$> pages !! i.
Proof. unfold derivedRequests, pageRequests. apply list_lookup_imap. Qed.

Lemma prepareRequestBody_files (request : Request) :
  FormData_getAll PARTITION_FORM_FILES_KEY (prepareRequestBody request) = [].
Proof.
  unfold prepareRequestBody, FormData_append.
  rewrite FormData_getAll_app, FormData_getAll_delete. done.
Qed.

Lemma prepareRequestBody_flag (request : Request) :
  FormData_getAll PARTITION_FORM_SPLIT_PDF_PAGE_KEY (prepareRequestBody request)
  = [FString "false"].
Proof.
  unfold prepareRequestBody, FormData_append.
  rewrite FormData_getAll_app, FormData_getAll_delete_ne by done.
  rewrite FormData_getAll_delete. done.
Qed.

(** Every other field of the source form is carried over as it is. *)
Lemma prepareRequestBody_other (request : Request) (k : string) :
  String.eqb PARTITION_FORM_FILES_KEY k = false →
  String.eqb PARTITION_FORM_SPLIT_PDF_PAGE_KEY k = false →
  FormData_getAll k (prepareRequestBody request)
  = FormData_getAll k (req_form request).
Proof.
  intros Hf Hs. unfold prepareRequestBody, FormData_append.
  rewrite FormData_getAll_app, !FormData_getAll_delete_ne by done.
  assert (FormData_getAll k [(PARTITION_FORM_SPLIT_PDF_PAGE_KEY, FString "false")]
          = []) as ->.
  { unfold FormData_getAll. cbv [List.filter fst]. by rewrite Hs. }
  by rewrite app_nil_r.
Qed.

(** The shape of the [i]-th derived request: one file, the page [i],
    under the name the hook computes; the flag [false]; the content type
    of the source is gone and the platform has put that of the new
    form in its place. *)
Lemma pageRequest_shape (request : Request) (fileName : string) (i : nat)
  (page : Blob) :
  let req := pageRequest request (prepareRequestHeaders request) fileName i page in
  FormData_getAll PARTITION_FORM_FILES_KEY (req_form req)
  = [FFile (pageFileName fileName i) page]
  ∧ FormData_getAll PARTITION_FORM_SPLIT_PDF_PAGE_KEY (req_form req)
    = [FString "false"]
  ∧ req_headers req
    = Headers_delete "content-type" (req_headers request)
      ++ [("content-type", multipartContentType (req_form req))]
  ∧ req_method req = req_method request
  ∧ req_url req = req_url request.
Proof.
  simpl. unfold FormData_append.
  rewrite !FormData_getAll_app, prepareRequestBody_files, prepareRequestBody_flag.
  split; [done|]. split; [done|]. split; [|done].
  unfold Headers_withContentType, prepareRequestHeaders.
  by rewrite Headers_has_delete.
Qed.

(** *** The tasks handed to the dispatcher *)

Lemma backgroundTasks_indices (requests : list Request) :
  map task_index (backgroundTasks requests) = seq 0 (length requests - 1).
Proof.
  unfold backgroundTasks. rewrite <- Array_slice_init_length.
  generalize (Array_slice_init requests). intros l.
  assert (∀ k, map task_index
                 (imap (λ i req, {| task_index := k + i; task_request := req |}) l)
               = seq k (length l)) as Hgen.
  { induction l as [|x l IH]; intros k; simpl; [done|].
    f_equal; [lia|]. rewrite <- IH. f_equal.
    apply imap_ext. intros; simpl. f_equal. lia. }
  apply (Hgen 0).
Qed.

Lemma backgroundTasks_length (requests : list Request) :
  length (backgroundTasks requests) = length requests - 1.
Proof.
  unfold backgroundTasks. by rewrite length_imap, Array_slice_init_length.
Qed.

Lemma backgroundTasks_elem (requests : list Request) (t : Task) :
  t ∈ backgroundTasks requests ↔
  task_index t < length requests - 1
  ∧ requests !! task_index t = Some (task_request t).
Proof.
  unfold backgroundTasks. rewrite list_elem_of_lookup. split.
  - intros [i Hi]. rewrite list_lookup_imap in Hi.
    destruct (Array_slice_init requests !! i) as [req|] eqn:E; [|done].
    simpl in Hi. injection Hi as <-. simpl.
    assert (i < length requests - 1) as Hlt.
    { rewrite <- Array_slice_init_length. by eapply lookup_lt_Some. }
    split; [done|]. by rewrite <- Array_slice_init_lookup.
  - intros [Hlt Hreq]. exists (task_index t).
    rewrite list_lookup_imap, Array_slice_init_lookup, Hreq by done.
    simpl. by destruct t.
Qed.

Lemma dispatched_limit (c : HTTPClient) (requests : list Request) (limit : Z) :
  promise_limit (dispatched c requests limit) = limit.
Proof. unfold dispatched. by destruct (limit <=? 0)%Z. Qed.

Lemma fst_waiting (c : HTTPClient) (ts : list Task) :
  fst <$> (waiting c <$> ts) = ts.
Proof. induction ts as [|t ts IH]; csimpl; [done|]. by rewrite IH. Qed.

(** The tasks of the handle a split has just made: all the background
    tasks, when the bound is at least 1. *)
Lemma dispatched_pending (c : HTTPClient) (requests : list Request) (limit : Z) :
  (0 < limit)%Z →
  pending (dispatched c requests limit) = backgroundTasks requests.
Proof.
  intros Hlim. unfold dispatched, pending.
  destruct (Z.leb_spec limit 0); [lia|]. simpl.
  by rewrite fst_waiting, take_drop.
Qed.

End BeforeRequest.


(** ** The store invariant

    The two private maps are written together and cleared together: an
    operation has a response array exactly when it has a join handle. *)

Section Store.
Context `{Platform}.

Lemma store_wf_new : store_wf newSplitPdfHook.
Proof. unfold store_wf; simpl. by rewrite !dom_empty_L. Qed.

Lemma store_wf_absent (operationID : string) (st : SplitPdfHook) :
  store_wf st →
  partitionRequests st !! operationID = None →
  partitionResponses st !! operationID = None.
Proof.
  unfold store_wf. intros Hwf Hp.
  apply not_elem_of_dom. rewrite Hwf. by apply not_elem_of_dom.
Qed.

Lemma store_wf_console (l : list LogEntry) (st : SplitPdfHook) :
  store_wf st → store_wf (set_console l st).
Proof. done. Qed.

Lemma store_wf_sdkInit (c : option HTTPClient) (st : SplitPdfHook) :
  store_wf st → store_wf (snd (sdkInit c st)).
Proof. done. Qed.

Lemma store_wf_evolves (operationID : string) (st st' : SplitPdfHook) :
  evolves operationID st st' → store_wf st → store_wf st'.
Proof. unfold store_wf. intros (_ & D1 & D2) Hwf. congruence. Qed.

Lemma store_wf_cleared (operationID : string) (st : SplitPdfHook) :
  store_wf st → store_wf (cleared operationID st).
Proof.
  unfold store_wf, cleared, clearOperation, modify. cbn [snd].
  unfold set_partitionRequests, set_partitionResponses.
  cbn [partitionResponses partitionRequests].
  intros Hwf. by rewrite !dom_delete_L, Hwf.
Qed.

Lemma store_wf_registered (operationID : string) (c : HTTPClient)
  (requests : list Request) (st : SplitPdfHook) :
  store_wf st → store_wf (registered operationID c requests st).
Proof.
  unfold store_wf, registered. intros Hwf.
  unfold set_partitionRequests at 1 2. cbn [partitionResponses partitionRequests].
  match goal with |- context [detach operationID ?s] =>
    destruct (detach_fields operationID s) as (_ & -> & _) end.
  simpl. by rewrite !dom_insert_L, Hwf.
Qed.

Lemma store_wf_joined (operationID : string) (requests : Promise)
  (st : SplitPdfHook) :
  store_wf st → store_wf (joined operationID requests st).
Proof. apply store_wf_evolves with operationID, evolves_joined. Qed.

Lemma store_wf_beforeRequest (operationID : string) (request : Request)
  (st : SplitPdfHook) :
  store_wf st → store_wf (snd (beforeRequest operationID request st)).
Proof.
  intros Hwf.
  destruct (readSplitPdfPage (req_form request)) as [[|]|e] eqn:Hflag.
  2:{ by rewrite beforeRequest_flag_false. }
  2:{ by rewrite (beforeRequest_flag_throws _ _ _ e). }
  destruct (pdfFile (FormData_get PARTITION_FORM_FILES_KEY (req_form request)))
    as [[[name content]|]|e] eqn:Hfile.
  2:{ by rewrite beforeRequest_not_pdf. }
  2:{ by rewrite (beforeRequest_file_throws _ _ _ e). }
  destruct (client st) as [c|] eqn:Hc.
  2:{ by rewrite (beforeRequest_no_client _ _ _ name content). }
  destruct (getPdfPages content) as [pages|e] eqn:Hpages.
  - rewrite (beforeRequest_split _ _ _ name content pages c); [|  |done].
    + by apply store_wf_registered.
    + unfold splits. by rewrite Hc.
  - by rewrite (beforeRequest_fatal _ _ _ name content e).
Qed.

Lemma store_wf_afterSuccess (operationID : string) (response : Response)
  (st : SplitPdfHook) :
  store_wf st → store_wf (snd (afterSuccess operationID response st)).
Proof.
  intros Hwf. destruct (partitionRequests st !! operationID) as [p|] eqn:Hp.
  2:{ by rewrite afterSuccess_absent. }
  destruct (Z.leb_spec (promise_limit p) 0) as [Hlim|Hlim].
  { by rewrite (afterSuccess_rejected _ _ _ p). }
  rewrite (afterSuccess_present _ _ _ p) by done.
  pose proof (store_wf_joined operationID p st Hwf) as Hj.
  destruct (prepareResponseBody _); simpl; [|done].
  by apply store_wf_cleared.
Qed.

Lemma store_wf_afterError (operationID : string) (response : option Response)
  (error : option JSError) (st : SplitPdfHook) :
  store_wf st → store_wf (snd (afterError operationID response error st)).
Proof.
  intros Hwf. destruct (partitionRequests st !! operationID) as [p|] eqn:Hp.
  2:{ rewrite afterError_absent by done. by apply store_wf_cleared. }
  destruct (Z.leb_spec (promise_limit p) 0) as [Hlim|Hlim].
  { by rewrite (afterError_rejected _ _ _ _ p). }
  rewrite (afterError_present _ _ _ _ p) by done.
  pose proof (store_wf_joined operationID p st Hwf) as Hj.
  destruct (collected operationID (joined operationID p st)) as [|okResponse ?];
    simpl.
  { by apply store_wf_cleared. }
  destruct (prepareResponseBody _); simpl; [|done].
  destruct (merged okResponse _); simpl; [|done].
  by apply store_wf_cleared.
Qed.

Lemma store_wf_backgroundStep (s : Settlement) (st : SplitPdfHook) :
  store_wf st → store_wf (snd (backgroundStep s st)).
Proof.
  intros Hwf. destruct s as [operationID k|j k]; simpl.
  - destruct (settleOwn_total operationID k st) as (st' & -> & Ev & _).
    by eapply store_wf_evolves.
  - destruct (settleOrphan_total j k st) as (st' & -> & _ & Hm).
    destruct (orphans st !! j) as [[operationID h]|].
    + destruct Hm as [Ev _]. by eapply store_wf_evolves.
    + by rewrite Hm.
Qed.

(** The invariant holds of every state the hook can be in. *)
Lemma reachable_store_wf (st : SplitPdfHook) : reachable st → store_wf st.
Proof.
  induction 1 as [|c st _ IH|n st _ IH|id request st _ IH|id response st _ IH
                 |id response error st _ IH|s st _ IH].
  - apply store_wf_new.
  - by apply store_wf_sdkInit.
  - exact IH.
  - by apply store_wf_beforeRequest.
  - by apply store_wf_afterSuccess.
  - by apply store_wf_afterError.
  - by apply store_wf_backgroundStep.
Qed.

End Store.

(** ** A split under way *)

Section Underway.
Context `{Platform}.

Lemma registered_lookup (operationID : string) (c : HTTPClient)
  (requests : list Request) (st : SplitPdfHook) :
  partitionResponses (registered operationID c requests st) !! operationID
  = Some (replicate (length requests) None)
  ∧ partitionRequests (registered operationID c requests st) !! operationID
    = Some (dispatched c requests (effectiveLimit (parallelLimit st)))
  ∧ client (registered operationID c requests st) = client st
  ∧ console (registered operationID c requests st)
    = console st ++ limitWarnings (parallelLimit st)
  ∧ parallelLimit (registered operationID c requests st) = parallelLimit st.
Proof.
  unfold registered.
  unfold set_partitionRequests at 1 2 3 4 5.
  cbn [partitionResponses partitionRequests client console parallelLimit].
  match goal with |- context [detach operationID ?s] =>
    destruct (detach_fields operationID s) as (-> & -> & _ & -> & ->) end.
  simpl. by rewrite !lookup_insert_eq.
Qed.

(** When no request of the id is in flight, a split orphans nothing. *)
Lemma registered_orphans (operationID : string) (c : HTTPClient)
  (requests : list Request) (st : SplitPdfHook) :
  quiet operationID st = true →
  orphans (registered operationID c requests st) = orphans st.
Proof.
  intros Hq. apply andb_true_iff in Hq as [Hidle _].
  unfold registered. unfold set_partitionRequests at 1. cbn [orphans].
  by rewrite detach_idle.
Qed.

Lemma effectiveLimit_pos (configured : Z) :
  (0 < configured)%Z → (0 < effectiveLimit configured)%Z.
Proof.
  unfold effectiveLimit, MAX_NUMBER_OF_PARALLEL_REQUESTS.
  destruct (configured >? 15)%Z; lia.
Qed.

Lemma quietOrphans_lookup (operationID : string) (os : list (string * Promise))
  (j : nat) (h : Promise) :
  quietOrphans operationID os = true →
  os !! j = Some (operationID, h) →
  idle h = true.
Proof.
  revert j. induction os as [|o os IH]; intros j Hq Ho; [done|].
  simpl in Hq. apply andb_true_iff in Hq as [Ho1 Hq].
  destruct j as [|j]; simpl in Ho.
  - injection Ho as ->. simpl in Ho1. by rewrite String.eqb_refl in Ho1.
  - by apply (IH j).
Qed.

Lemma quietOrphans_insert (operationID id : string) (os : list (string * Promise))
  (j : nat) (h : Promise) :
  quietOrphans operationID os = true →
  id ≠ operationID →
  quietOrphans operationID (<[j := (id, h)]> os) = true.
Proof.
  intros Hq Hne. revert j Hq. induction os as [|o os IH]; intros j Hq; [done|].
  simpl in Hq. apply andb_true_iff in Hq as [Ho1 Hq].
  destruct j as [|j]; simpl.
  - rewrite Hq. by destruct (String.eqb_spec id operationID).
  - rewrite Ho1. by apply IH.
Qed.

(** The split that [beforeRequest] has just registered is under way. *)
Lemma underway_registered (operationID : string) (c : HTTPClient)
  (requests : list Request) (st : SplitPdfHook) :
  client st = Some c →
  (0 < parallelLimit st)%Z →
  quiet operationID st = true →
  underwayWith c operationID requests
    (dispatched c requests (effectiveLimit (parallelLimit st))) []
    (registered operationID c requests st).
Proof.
  intros Hc Hlim Hq.
  destruct (registered_lookup operationID c requests st)
    as (Hs & Hp & Hc' & _ & _).
  pose proof (effectiveLimit_pos _ Hlim) as Hpos.
  set (limit := effectiveLimit (parallelLimit st)) in *.
  split; [congruence|]. split.
  { rewrite registered_orphans by done.
    by apply andb_true_iff in Hq as [_ Hq]. }
  split; [done|].
  assert (promise_limit (dispatched c requests limit) = limit) as Hl.
  { unfold dispatched. by destruct (limit <=? 0)%Z. }
  split; [lia|].
  assert (promise_running (dispatched c requests limit)
          = waiting c <$> take (Z.to_nat limit) (backgroundTasks requests)
          ∧ promise_queued (dispatched c requests limit)
            = drop (Z.to_nat limit) (backgroundTasks requests)) as [Hrun Hque].
  { unfold dispatched. by destruct (Z.leb_spec limit 0); [lia|]. }
  split; [|split; [|split]].
  - rewrite Hrun. apply Forall_fmap, Forall_forall. done.
  - rewrite Hrun, Hque. intros Hnil. apply fmap_nil_inv in Hnil.
    destruct (backgroundTasks requests) as [|t ts]; [by rewrite drop_nil|].
    destruct (Z.to_nat limit) as [|n] eqn:E; [lia|]. done.
  - simpl. by rewrite dispatched_pending.
  - done.
Qed.

(** *** Requests that come back while a split is under way *)

Lemma settleMeanwhile_quiet (operationID : string) (batch : list (nat * nat))
  (st : SplitPdfHook) :
  quietOrphans operationID (orphans st) = true →
  settleMeanwhile operationID batch st = (Normal tt, st).
Proof.
  intros Hq. induction batch as [|[j k] batch IH]; simpl; [done|].
  unfold bind at 1. unfold get at 1. unfold bind at 1.
  destruct (orphans st !! j) as [[id h]|] eqn:Ho; [|exact IH].
  destruct (String.eqb_spec id operationID) as [->|Hne]; [|exact IH].
  rewrite (settleOrphan_idle _ _ _ operationID h) by
    (try done; by eapply quietOrphans_lookup).
  exact IH.
Qed.

Lemma settleOwn_underway (operationID : string) (c : HTTPClient)
  (requests : list Request) (h : Promise) (done : list Task)
  (st : SplitPdfHook) (k : nat) (t : Task) (f : Flight) :
  underwayWith c operationID requests h done st →
  promise_running h !! k = Some (t, f) →
  ∃ h' st',
    settleOwn operationID k st = (Normal tt, st')
    ∧ underwayWith c operationID requests h' (done ++ [t]) st'
    ∧ t :: pending h' ≡ₚ pending h
    ∧ console st' = console st ++ taskLog c t.
Proof.
  intros (Hc & Hq & Hp & Hlim & Hwait & Hstall & Hperm & Hs) Hk.
  assert (f = Waiting (c (task_request t))) as ->
    by (by apply (Forall_lookup_1 _ _ _ _ Hwait Hk)).
  exists {| promise_running :=
              delete k (promise_running h)
              ++ (waiting c <$> take 1 (promise_queued h));
            promise_queued := drop 1 (promise_queued h);
            promise_limit := promise_limit h |}.
  eexists. split.
  { eapply settleOwn_present; [done|]. by eapply settle_run. }
  assert (t :: (fst <$> delete k (promise_running h)
                        ++ (waiting c <$> take 1 (promise_queued h)))
               ++ drop 1 (promise_queued h)
          ≡ₚ pending h) as Hend.
  { apply (pending_settled _ _ _ _ _ (Waiting (c (task_request t)))); [done|].
    apply fst_waiting. }
  split; [|split; [exact Hend|by destruct st]].
  split; [by destruct st|]. split; [by destruct st|].
  split; [simpl; apply lookup_insert_eq|]. split; [done|].
  split; [|split; [|split]]; simpl.
  - apply Forall_app. split; [by apply Forall_delete|].
    apply Forall_fmap, Forall_forall. done.
  - intros Hnil. apply app_eq_nil in Hnil as [_ Hnil].
    apply fmap_nil_inv in Hnil. by destruct (promise_queued h).
  - rewrite <- app_assoc. simpl. unfold pending at 1; simpl.
    by rewrite Hend.
  - rewrite lookup_insert_eq. by rewrite fold_left_app.
Qed.

(** The join of a split under way: the tasks that are left end, in some
    order, and the handle has nothing left. *)
Lemma awaitLoop_underway (operationID : string) (c : HTTPClient)
  (requests : list Request) (fuel : nat) :
  ∀ (h : Promise) (done : list Task) (st : SplitPdfHook),
    underwayWith c operationID requests h done st →
    length (pending h) ≤ fuel →
    ∃ h' order st',
      awaitLoop fuel operationID st = (Normal tt, st')
      ∧ underwayWith c operationID requests h' (done ++ order) st'
      ∧ pending h' = []
      ∧ order ≡ₚ pending h
      ∧ console st' = console st ++ flat_map (taskLog c) order.
Proof.
  induction fuel as [|fuel IH]; intros h done st Hu Hlen.
  { exists h, [], st. rewrite !app_nil_r.
    destruct (pending h); [done|]. simpl in Hlen. lia. }
  pose proof Hu as (Hc & Hq & Hp & Hlim & Hwait & Hstall & Hperm & Hs).
  simpl. unfold bind at 1. unfold get at 1. rewrite Hp.
  destruct (promise_running h) as [|f0 running] eqn:Hrun.
  { exists h, [], st. rewrite !app_nil_r.
    unfold pending. rewrite Hrun, Hstall by done. done. }
  rewrite <- Hrun.
  unfold bind at 1. rewrite settleMeanwhile_quiet by done.
  assert (nextPlace (promise_running h) < length (promise_running h)) as Hk
    by (apply nextPlace_lt; by rewrite Hrun).
  destruct (lookup_lt_is_Some_2 _ _ Hk) as [[t f] Et].
  destruct (settleOwn_underway _ _ _ _ _ _ _ _ _ Hu Et)
    as (h1 & st1 & E1 & Hu1 & Hend1 & Hlog1).
  unfold bind at 1. rewrite E1.
  destruct (IH h1 (done ++ [t]) st1 Hu1) as (h2 & order & st2 & E2 & Hu2 & Hp2 & Ho2 & Hlog2).
  { rewrite <- Hend1 in Hlen. simpl in Hlen. lia. }
  exists h2, (t :: order), st2. split; [done|].
  split; [by rewrite <- app_assoc in Hu2|]. split; [done|].
  split; [by rewrite Ho2|].
  rewrite Hlog2, Hlog1. simpl. by rewrite <- app_assoc.
Qed.

Lemma underway_joined (operationID : string) (c : HTTPClient)
  (requests : list Request) (h : Promise) (done : list Task)
  (st : SplitPdfHook) :
  underwayWith c operationID requests h done st →
  ∃ h' order,
    awaitPromise operationID h st = (Normal tt, joined operationID h st)
    ∧ underwayWith c operationID requests h' (done ++ order)
        (joined operationID h st)
    ∧ pending h' = []
    ∧ order ≡ₚ pending h
    ∧ console (joined operationID h st)
      = console st ++ flat_map (taskLog c) order.
Proof.
  intros Hu. pose proof Hu as (_ & _ & _ & Hlim & _).
  destruct (awaitLoop_underway operationID c requests
              (length (promise_running h) + length (promise_queued h))
              h done st Hu) as (h' & order & st' & E & Hu' & Hp' & Ho & Hlog).
  { unfold pending. by rewrite length_app, length_fmap. }
  exists h', order. split; [by apply awaitPromise_normal|].
  unfold joined, awaitPromise.
  destruct (Z.leb_spec (promise_limit h) 0); [lia|]. by rewrite E.
Qed.

(** *** The response array of a split under way *)

Lemma done_in_range (operationID : string) (c : HTTPClient)
  (requests : list Request) (h : Promise) (done : list Task)
  (st : SplitPdfHook) (t : Task) :
  underwayWith c operationID requests h done st →
  t ∈ done →
  task_index t < length requests - 1
  ∧ requests !! task_index t = Some (task_request t).
Proof.
  intros (_ & _ & _ & _ & _ & _ & Hperm & _) Ht.
  apply backgroundTasks_elem. rewrite <- Hperm. set_solver.
Qed.

(** The array keeps the length it was made with, and no task writes to
    its last slot. *)
Lemma underway_length (operationID : string) (c : HTTPClient)
  (requests : list Request) (h : Promise) (done : list Task)
  (st : SplitPdfHook) :
  underwayWith c operationID requests h done st →
  ∃ slots,
    partitionResponses st !! operationID = Some slots
    ∧ length slots = length requests
    ∧ slots !! (length requests - 1)
      = (if length requests is 0 then None else Some None)
    ∧ length (pending h) ≤ length requests - 1.
Proof.
  intros Hu. pose proof Hu as (_ & _ & _ & _ & _ & _ & Hperm & Hs).
  eexists. split; [exact Hs|].
  assert (∀ t, t ∈ done →
               task_index t < length (replicate (length requests) (@None Response)))
    as Hrange.
  { intros t Ht. destruct (done_in_range _ _ _ _ _ _ t Hu Ht) as [Hlt _].
    rewrite length_replicate. lia. }
  split; [|split].
  - rewrite fold_fillSlot_length by done. apply length_replicate.
  - rewrite fold_fillSlot_other; [|done|].
    + destruct (length requests) as [|n]; [done|].
      apply lookup_replicate_2. lia.
    + intros t Ht. destruct (done_in_range _ _ _ _ _ _ t Hu Ht) as [Hlt _]. lia.
  - rewrite <- backgroundTasks_length, <- Hperm, length_app. lia.
Qed.

(** The slots once every background task has ended: the outcome of each
    background request at its index, and the hole of the last request,
    whatever the order in which the tasks ended. *)
Lemma settled_slots (c : HTTPClient) (requests : list Request)
  (order : list Task) :
  order ≡ₚ backgroundTasks requests →
  fold_left (fillSlot c) order (replicate (length requests) None)
  = (accepted c <$> Array_slice_init requests)
    ++ replicate (length requests - (length requests - 1)) None.
Proof.
  intros Hperm.
  assert (∀ t, t ∈ order →
               task_index t < length requests - 1
               ∧ requests !! task_index t = Some (task_request t)) as Helem.
  { intros t Ht. apply backgroundTasks_elem. by rewrite <- Hperm. }
  assert (∀ t, t ∈ order →
               task_index t < length (replicate (length requests) (@None Response)))
    as Hrange.
  { intros t Ht. apply Helem in Ht as [Hlt _].
    rewrite length_replicate. lia. }
  apply list_eq. intros i.
  destruct (decide (i < length requests - 1)) as [Hi|Hi].
  - destruct (lookup_lt_is_Some_2 requests i) as [req Hreq]; [lia|].
    set (t := {| task_index := i; task_request := req |}).
    rewrite lookup_app_l by (rewrite length_fmap, Array_slice_init_length; lia).
    rewrite list_lookup_fmap, Array_slice_init_lookup, Hreq by done. simpl.
    change i with (task_index t) at 1.
    rewrite (fold_fillSlot_own c order _ t).
    + done.
    + assert (map task_index order ≡ₚ map task_index (backgroundTasks requests))
        as -> by (by apply Permutation_map).
      rewrite backgroundTasks_indices. apply NoDup_seq.
    + exact Hrange.
    + rewrite Hperm. by apply backgroundTasks_elem.
    + apply lookup_replicate_2. simpl. lia.
  - rewrite fold_fillSlot_other; [|exact Hrange|].
    2:{ intros t Ht. apply Helem in Ht as [Hlt _]. lia. }
    rewrite lookup_app_r by (rewrite length_fmap, Array_slice_init_length; lia).
    rewrite length_fmap, Array_slice_init_length.
    destruct (decide (i < length requests)) as [Hlt|Hge].
    + rewrite !lookup_replicate_2 by lia. done.
    + rewrite !lookup_ge_None_2; [done| |]; rewrite length_replicate; lia.
Qed.

Lemma omap_accepted_slots {A B} (f : A → option B) (l : list A) (k : nat) :
  Array_filter_truthy ((f <$> l) ++ replicate k None) = omap f l.
Proof.
  unfold Array_filter_truthy. rewrite omap_app.
  assert (omap id (replicate k (@None B)) = []) as ->
    by (induction k; simpl; done).
  rewrite app_nil_r. induction l as [|x l IH]; csimpl; [done|].
  destruct (f x); csimpl; by rewrite IH.
Qed.

Lemma omap_length_le {A B} (f : A → option B) (l : list A) :
  length (omap f l) ≤ length l.
Proof.
  induction l as [|x l IH]; csimpl; [done|].
  destruct (f x); csimpl; lia.
Qed.

Lemma underway_slots (operationID : string) (c : HTTPClient)
  (requests : list Request) (h : Promise) (done : list Task)
  (st : SplitPdfHook) :
  underwayWith c operationID requests h done st →
  pending h = [] →
  partitionResponses st !! operationID
  = Some ((accepted c <$> Array_slice_init requests)
          ++ replicate (length requests - (length requests - 1)) None)
  ∧ collected operationID st = omap (accepted c) (Array_slice_init requests).
Proof.
  intros (_ & _ & _ & _ & _ & _ & Hperm & Hs) Hnil.
  rewrite Hnil, app_nil_r in Hperm.
  rewrite (settled_slots c requests done Hperm) in Hs.
  split; [exact Hs|]. unfold collected. rewrite Hs. apply omap_accepted_slots.
Qed.

Lemma accepted_status (c : HTTPClient) (l : list Request) :
  Forall (λ r, res_status r = 200%Z) (omap (accepted c) l).
Proof.
  apply Forall_forall. intros r Hr.
  apply list_elem_of_omap in Hr as (req & _ & Hacc). unfold accepted in Hacc.
  destruct (c req) as [response|]; [|done].
  destruct (Z.eqb_spec (res_status response) 200); [|done]. by injection Hacc as <-.
Qed.

(** *** The invariant *)

Lemma backgroundStep_underway (c : HTTPClient) (operationID : string)
  (requests : list Request) (s : Settlement) (st : SplitPdfHook) :
  underway c operationID requests st →
  ∃ st', backgroundStep s st = (Normal tt, st')
         ∧ underway c operationID requests st'.
Proof.
  intros (h & done & Hu).
  pose proof Hu as (Hc & Hq & Hp & Hlim & Hwait & Hstall & Hperm & Hs).
  destruct s as [id k|j k]; simpl.
  - destruct (decide (id = operationID)) as [->|Hne].
    + destruct (promise_running h !! k) as [[t f]|] eqn:Ek.
      * destruct (settleOwn_underway _ _ _ _ _ _ _ _ _ Hu Ek)
          as (h' & st' & E & Hu' & _).
        exists st'. split; [done|]. by exists h', (done ++ [t]).
      * eexists. split.
        { eapply settleOwn_present; [done|]. by apply settle_idle. }
        exists h, done. split; [by destruct st|]. split; [by destruct st|].
        split; [simpl; apply lookup_insert_eq|]. done.
    + destruct (settleOwn_total id k st) as (st' & E & Ev & Horph & _).
      exists st'. split; [done|]. exists h, done.
      destruct Ev as ((Hframe & Hc' & _) & _).
      destruct (Hframe operationID) as [Hs' Hp']; [done|].
      split; [congruence|]. split; [congruence|]. split; [congruence|].
      split; [done|]. split; [done|]. split; [done|]. split; [done|]. congruence.
  - destruct (orphans st !! j) as [[id h0]|] eqn:Ho.
    2:{ exists st. split; [by apply settleOrphan_absent|]. by exists h, done. }
    destruct (decide (id = operationID)) as [->|Hne].
    { exists st. split; [|by exists h, done].
      eapply settleOrphan_idle; [done|]. by eapply quietOrphans_lookup. }
    destruct (settleOrphan_total j k st) as (st' & E & Hreqs & Hm).
    rewrite Ho in Hm. destruct Hm as (Ev & h0' & _ & Horph).
    exists st'. split; [done|]. exists h, done.
    destruct Ev as ((Hframe & Hc' & _) & _).
    destruct (Hframe operationID) as [Hs' Hp']; [done|].
    split; [congruence|]. split.
    { rewrite Horph. by apply quietOrphans_insert. }
    split; [congruence|].
    split; [done|]. split; [done|]. split; [done|]. split; [done|]. congruence.
Qed.

Lemma background_underway (c : HTTPClient) (operationID : string)
  (requests : list Request) (steps : list Settlement) :
  ∀ st : SplitPdfHook,
    underway c operationID requests st →
    underway c operationID requests (snd (background steps st)).
Proof.
  induction steps as [|s steps IH]; intros st Hu; simpl; [done|].
  destruct (backgroundStep_underway c operationID requests s st Hu)
    as (st' & E & Hu').
  unfold bind. rewrite E. by apply IH.
Qed.

(** After a split, and whichever of the requests have come back
    since, the split is under way. *)
Lemma split_underway (operationID : string) (request : Request)
  (st : SplitPdfHook) (name : string) (content : Blob) (pages : list Blob)
  (c : HTTPClient) (steps : list Settlement) :
  splits request st name content pages →
  client st = Some c →
  (0 < parallelLimit st)%Z →
  quiet operationID st = true →
  underway c operationID (derivedRequests request name pages)
    (snd (background steps (snd (beforeRequest operationID request st)))).
Proof.
  intros Hsplit Hc Hlim Hq. apply background_underway.
  rewrite (beforeRequest_split _ _ _ name content pages c) by done. cbn [snd].
  eexists _, []. by apply underway_registered.
Qed.

(** What the join of such a split collects: the accepted responses of
    the background requests, in page order. *)
Lemma split_awaited (operationID : string) (request : Request)
  (st : SplitPdfHook) (name : string) (content : Blob) (pages : list Blob)
  (c : HTTPClient) (steps : list Settlement) :
  splits request st name content pages →
  client st = Some c →
  (0 < parallelLimit st)%Z →
  quiet operationID st = true →
  let st1 := snd (background steps (snd (beforeRequest operationID request st))) in
  ∃ h,
    partitionRequests st1 !! operationID = Some h
    ∧ (0 < promise_limit h)%Z
    ∧ collected operationID (joined operationID h st1)
      = omap (accepted c) (backgroundRequests request name pages).
Proof.
  intros Hsplit Hc Hlim Hq st1.
  destruct (split_underway operationID request st name content pages c steps
              Hsplit Hc Hlim Hq) as (h & done & Hu).
  fold st1 in Hu. pose proof Hu as (_ & _ & Hp & Hpos & _).
  destruct (underway_joined _ _ _ _ _ _ Hu) as (h' & order & _ & Hu' & Hp' & _).
  destruct (underway_slots _ _ _ _ _ _ Hu' Hp') as [_ Hcol].
  by exists h.
Qed.

End Underway.

(** ** What a method leaves untouched *)

Section Frame.
Context `{Platform}.

Lemma frame_refl (operationID : string) (st : SplitPdfHook) :
  frame operationID st st.
Proof. by repeat split. Qed.

Lemma frame_trans (operationID : string) (st1 st2 st3 : SplitPdfHook) :
  frame operationID st1 st2 → frame operationID st2 st3 → frame operationID st1 st3.
Proof.
  intros (H12 & Hc12 & Hl12) (H23 & Hc23 & Hl23).
  split; [|split; congruence].
  intros id Hne. destruct (H12 id Hne) as [? ?]. destruct (H23 id Hne) as [? ?].
  split; congruence.
Qed.

Lemma frame_console (operationID : string) (l : list LogEntry) (st : SplitPdfHook) :
  frame operationID st (set_console l st).
Proof. by repeat split. Qed.

Lemma frame_cleared (operationID : string) (st : SplitPdfHook) :
  frame operationID st (cleared operationID st).
Proof.
  unfold cleared, clearOperation, modify. cbn [snd].
  unfold set_partitionRequests, set_partitionResponses.
  destruct (detach_fields operationID st) as (Hc & _ & _ & Hl & _).
  split; [|by split]. intros id Hne. simpl. by rewrite !lookup_delete_ne.
Qed.

Lemma frame_registered (operationID : string) (c : HTTPClient)
  (requests : list Request) (st : SplitPdfHook) :
  frame operationID st (registered operationID c requests st).
Proof.
  destruct (registered_lookup operationID c requests st) as (_ & _ & Hc & _ & Hl).
  split; [|by split]. intros id Hne. unfold registered.
  unfold set_partitionRequests at 1 2. cbn [partitionResponses partitionRequests].
  match goal with |- context [detach operationID ?s] =>
    destruct (detach_fields operationID s) as (_ & -> & _) end.
  simpl. by rewrite !lookup_insert_ne.
Qed.

Lemma frame_joined (operationID : string) (requests : Promise) (st : SplitPdfHook) :
  frame operationID st (joined operationID requests st).
Proof. apply evolves_joined. Qed.

Lemma frame_beforeRequest (operationID : string) (request : Request)
  (st : SplitPdfHook) :
  frame operationID st (snd (beforeRequest operationID request st)).
Proof.
  destruct (readSplitPdfPage (req_form request)) as [[|]|e] eqn:Hflag.
  2:{ rewrite beforeRequest_flag_false by done. apply frame_refl. }
  2:{ rewrite (beforeRequest_flag_throws _ _ _ e) by done. apply frame_refl. }
  destruct (pdfFile (FormData_get PARTITION_FORM_FILES_KEY (req_form request)))
    as [[[name content]|]|e] eqn:Hfile.
  2:{ rewrite beforeRequest_not_pdf by done. apply frame_console. }
  2:{ rewrite (beforeRequest_file_throws _ _ _ e) by done. apply frame_refl. }
  destruct (client st) as [c|] eqn:Hc.
  2:{ rewrite (beforeRequest_no_client _ _ _ name content) by done.
      apply frame_console. }
  destruct (getPdfPages content) as [pages|e] eqn:Hpages.
  - rewrite (beforeRequest_split _ _ _ name content pages c); [| |done].
    + apply frame_registered.
    + unfold splits. by rewrite Hc.
  - rewrite (beforeRequest_fatal _ _ _ name content e) by done. apply frame_refl.
Qed.

Lemma frame_afterSuccess (operationID : string) (response : Response)
  (st : SplitPdfHook) :
  frame operationID st (snd (afterSuccess operationID response st)).
Proof.
  destruct (partitionRequests st !! operationID) as [p|] eqn:Hp.
  2:{ rewrite afterSuccess_absent by done. apply frame_refl. }
  destruct (Z.leb_spec (promise_limit p) 0) as [Hlim|Hlim].
  { rewrite (afterSuccess_rejected _ _ _ p) by done. apply frame_refl. }
  rewrite (afterSuccess_present _ _ _ p) by done.
  destruct (prepareResponseBody _); simpl.
  - eapply frame_trans; [apply frame_joined|apply frame_cleared].
  - apply frame_joined.
Qed.

Lemma frame_afterError (operationID : string) (response : option Response)
  (error : option JSError) (st : SplitPdfHook) :
  frame operationID st (snd (afterError operationID response error st)).
Proof.
  destruct (partitionRequests st !! operationID) as [p|] eqn:Hp.
  2:{ rewrite afterError_absent by done. apply frame_cleared. }
  destruct (Z.leb_spec (promise_limit p) 0) as [Hlim|Hlim].
  { rewrite (afterError_rejected _ _ _ _ p) by done. apply frame_refl. }
  rewrite (afterError_present _ _ _ _ p) by done.
  destruct (collected operationID (joined operationID p st)) as [|okResponse ?];
    simpl.
  { eapply frame_trans; [apply frame_joined|apply frame_cleared]. }
  destruct (prepareResponseBody _); simpl; [|apply frame_joined].
  destruct (merged okResponse _); simpl; [|apply frame_joined].
  eapply frame_trans; [apply frame_joined|apply frame_cleared].
Qed.

End Frame.

(** ** Failures of pdf-lib *)

Lemma cmapM_throw_at {A B} (f : A → Completion B) (pre : list A) (x : A)
  (post : list A) (e : JSError) :
  (∀ y, y ∈ pre → isNormal (f y) = true) →
  f x = Throw e →
  cmapM f (pre ++ x :: post) = Throw e.
Proof.
  intros Hpre Hx. induction pre as [|y pre IH]; simpl.
  - by rewrite Hx.
  - assert (isNormal (f y) = true) as Hy by (apply Hpre; by left).
    destruct (f y); [|done]. simpl. rewrite IH; [done|].
    intros z Hz. apply Hpre. by right.
Qed.

(** ** The derived requests of a split *)

(** When the extension is the only place of the name where a dot stands,
    removing the first [.pdf] removes the extension. *)
Lemma replace_extension_stem (s : string) :
  hasDot s = false →
  JSString.replace ".pdf" EmptyString (s +:+ ".pdf") = s
  ∧ JSString.stem (s +:+ ".pdf") = s.
Proof.
  intros Hdot. split.
  - induction s as [|c s IH]; [done|].
    simpl in Hdot. apply orb_false_iff in Hdot as [Hc Hs].
    change (String c s +:+ ".pdf") with (String c (s +:+ ".pdf")).
    unfold JSString.replace; fold JSString.replace.
    assert (JSString.startsWith ".pdf" (String c (s +:+ ".pdf")) = false) as ->.
    { unfold JSString.startsWith; fold JSString.startsWith.
      destruct (Ascii.eqb_spec "." c) as [<-|]; [|done].
      by rewrite Ascii.eqb_refl in Hc. }
    by rewrite IH.
  - unfold JSString.stem. clear Hdot.
    assert (String.length (s +:+ ".pdf") = String.length s + 4) as ->.
    { induction s as [|c s IH]; [done|]. simpl. by rewrite IH. }
    replace (String.length s + 4 - 4) with (String.length s) by lia.
    induction s as [|c s IH]; [done|]. simpl. by rewrite IH.
Qed.

(** What holds of every split with N pages: N derived requests; the
    [i]-th carries the page [i] as its one file, under the name the hook
    computes from [file.name.replace] and the 1-based index,
    its flag is the string [false], and the content-type header of the
    source has given way to the one the platform computes for the new
    form; the last derived request is the one returned. *)
Lemma derived_requests_shape `{Platform}
  (operationID : string) (request : Request) (st : SplitPdfHook)
  (name : string) (content : Blob) (pages : list Blob) :
  splits request st name content pages →
  let requests := derivedRequests request name pages in
  let fileName := JSString.replace ".pdf" EmptyString name in
  length requests = length pages
  ∧ (∀ i page,
       pages !! i = Some page →
       ∃ req,
         requests !! i = Some req
         ∧ FormData_getAll PARTITION_FORM_FILES_KEY (req_form req)
           = [FFile (fileName +:+ "-" +:+ pretty (i + 1) +:+ ".pdf") page]
         ∧ FormData_getAll PARTITION_FORM_SPLIT_PDF_PAGE_KEY (req_form req)
           = [FString "false"]
         ∧ req_headers req
           = Headers_delete "content-type" (req_headers request)
             ++ [("content-type", multipartContentType (req_form req))])
  ∧ fst (beforeRequest operationID request st) = Normal (last requests).
Proof.
  intros Hsplit requests fileName. pose proof Hsplit as (_ & _ & [c Hc] & _).
  split; [apply derivedRequests_length|]. split.
  - intros i page Hpage. eexists. unfold requests.
    rewrite derivedRequests_lookup, Hpage. split; [done|].
    destruct (pageRequest_shape request fileName i page) as (Hf & Hs & Hh & _).
    done.
  - by rewrite (beforeRequest_split _ _ _ name content pages c).
Qed.

(** * The claims *)

(** C1, as stated, fails.  A four-page document is split with the bound
    set to [0]: the library refuses the bound, no background request is
    sent and no slot is filled, yet afterError does not hand the response
    and the error back: it throws the [RangeError] of the join, and the
    state of the operation stays in the store.  And when the one
    background page of a document comes back as CSV with status 200, its
    slot is filled, but afterError throws the [SyntaxError] of the merge
    where the claim has a merged response and a null error. *)
Lemma afterError_throws_out_of_join_or_merge :
  promise_limit (Scenario.handleOf Scenario.zeroBound) = 0%Z
  ∧ partitionResponses Scenario.zeroBound !! Scenario.op
    = Some [None; None; None; None]
  ∧ @afterError Sample.platform Scenario.op (Some Sample.errorResponse)
      (Some (LibraryError "status 500")) Scenario.zeroBound
    = (Throw (RangeError "concurrency limit cannot be less than 1"),
       Scenario.zeroBound)
  ∧ collected Scenario.op
      (@joined Sample.platform Scenario.op (Scenario.handleOf Scenario.splitCsv)
         Scenario.splitCsv)
    = [Sample.okResponse "a,b"]
  ∧ fst (@afterError Sample.platform Scenario.op (Some Sample.errorResponse)
           (Some (LibraryError "status 500")) Scenario.splitCsv)
    = Throw (SyntaxError "Unexpected token").
Proof. vm_compute. repeat split. Qed.

(** C1 (amended). For every call to afterError with an operation id for
    which an Operation exists and whose join handle was made with a bound
    of at least 1: once the join handle has been awaited, if no
    background slot is filled the operation's state is cleared and the
    original response and error are returned unchanged; if at least one
    slot is filled, the collected bodies are JSON and the status of the
    first collected response allows a body (as the status 200 of every
    accepted page does), the merged response is returned with a null
    error: its status and status text are those of the first collected
    background response, its headers are the headers of that response
    less content-length, with the content type of a text body added when
    they have none, its body is the flattened JSON of the collected
    responses only, the failing final response having no part in it, and
    the state is cleared. *)
Theorem afterError_merges_background_only `{Platform}
  (operationID : string) (response : option Response) (error : option JSError)
  (st : SplitPdfHook) (requests : Promise) :
  partitionRequests st !! operationID = Some requests →
  (0 < promise_limit requests)%Z →
  let st1 := joined operationID requests st in
  let responses := collected operationID st1 in
  no_operation operationID (cleared operationID st1)
  ∧ (responses = [] →
     afterError operationID response error st
     = (Normal (response, error), cleared operationID st1))
  ∧ (∀ okResponse rest allElements,
       responses = okResponse :: rest →
       cmapM Response_json responses = Normal allElements →
       bodyStatus (res_status okResponse) = true →
       afterError operationID response error st
       = (Normal
            (Some {| res_status := res_status okResponse;
                     res_statusText := res_statusText okResponse;
                     res_headers :=
                       Headers_withContentType textContentType
                         (Headers_delete "content-length" (res_headers okResponse));
                     res_body := JSON_stringify (JArray (Array_flat allElements)) |},
             None),
          cleared operationID st1)).
Proof.
  intros Hp Hlim st1 responses. split; [apply cleared_lookup|].
  pose proof (afterError_present operationID response error st requests Hp Hlim)
    as E.
  cbv zeta in E. subst st1 responses. split.
  - intros Hnil. by rewrite E, Hnil.
  - intros okResponse rest allElements Hresp Hjson Hstatus.
    rewrite E. clear E. rewrite Hresp in Hjson |- *.
    unfold prepareResponseBody. rewrite Hjson. cbn [cbind].
    by rewrite merged_ok.
Qed.

(** On the four-page scenario the final page fails: page [a] alone was
    collected, and its response is the one returned. *)
Lemma afterError_merges_background_only_witness :
  @afterError Sample.platform Scenario.op (Some Sample.errorResponse)
    (Some (LibraryError "status 500")) Scenario.split4
  = (Normal (Some {| res_status := 200; res_statusText := "OK";
                     res_headers := [("content-type", "application/json")];
                     res_body := "[1,2]" |}, None),
     cleared Scenario.op
       (@joined Sample.platform Scenario.op (Scenario.handleOf Scenario.split4)
          Scenario.split4)).
Proof.
  refine (proj2 (proj2
    (@afterError_merges_background_only Sample.platform Scenario.op
       (Some Sample.errorResponse) (Some (LibraryError "status 500"))
       Scenario.split4 (Scenario.handleOf Scenario.split4) _ _))
    (Sample.okResponse "[1,2]") [] [JArray [JNumber 1; JNumber 2]] _ _ _);
    vm_compute; reflexivity.
Defined.

(** C2, as stated, fails.  The final response of a one-page split comes
    back with a length and no content type: the headers of the response
    that afterSuccess returns are not those headers less content-length,
    which are none, for the constructor of the response has added the
    content type of a text body.  And after a split with the bound set to
    [0] afterSuccess returns no response at all: it throws the
    [RangeError] of the join. *)
Lemma afterSuccess_adds_content_type :
  let final := {| res_status := 200; res_statusText := "OK";
                  res_headers := [("Content-Length", "3")];
                  res_body := "[7]" |} in
  Headers_delete "content-length" (res_headers final) = []
  ∧ fst (@afterSuccess Sample.platform Scenario.op final Scenario.split1)
    = Normal {| res_status := 200; res_statusText := "OK";
                res_headers := [("content-type", "text/plain;charset=UTF-8")];
                res_body := "[7]" |}
  ∧ @afterSuccess Sample.platform Scenario.op (Sample.okResponse "[9]")
      Scenario.zeroBound
    = (Throw (RangeError "concurrency limit cannot be less than 1"),
       Scenario.zeroBound).
Proof. vm_compute. repeat split. Qed.

(** C2 (amended). For every call to afterSuccess with an operation id for
    which an Operation exists and whose join handle was made with a bound
    of at least 1, the merge input is the collected non-empty background
    responses in slot order followed by the final response; when their
    bodies are JSON and the status of the final response allows a body,
    the returned response has the final response's status and status
    text, the final response's headers minus content-length, with the
    content type of a text body added when they have none, and as body
    the JSON encoding of the one-level flattening of the parsed bodies of
    the inputs, in input order. *)
Theorem afterSuccess_merges_in_order `{Platform}
  (operationID : string) (response : Response) (st : SplitPdfHook)
  (requests : Promise) (allElements : list JSON) :
  partitionRequests st !! operationID = Some requests →
  (0 < promise_limit requests)%Z →
  bodyStatus (res_status response) = true →
  let st1 := joined operationID requests st in
  let inputs := Array_filter_truthy
                  (default [] (partitionResponses st1 !! operationID))
                ++ [response] in
  cmapM Response_json inputs = Normal allElements →
  afterSuccess operationID response st
  = (Normal {| res_status := res_status response;
               res_statusText := res_statusText response;
               res_headers :=
                 Headers_withContentType textContentType
                   (Headers_delete "content-length" (res_headers response));
               res_body := JSON_stringify (JArray (Array_flat allElements)) |},
     cleared operationID st1)
  ∧ Forall2 (λ input elements, Response_json input = Normal elements)
      inputs allElements
  ∧ (∀ xss, allElements = map JArray xss → Array_flat allElements = concat xss).
Proof.
  intros Hp Hlim Hstatus st1 inputs Hjson.
  pose proof (afterSuccess_present operationID response st requests Hp Hlim) as E.
  cbv zeta in E. subst st1 inputs.
  assert (∀ st', Array_filter_truthy (default [] (partitionResponses st' !! operationID))
                 = collected operationID st') as Hcol.
  { intros st'. unfold collected. by destruct (partitionResponses st' !! operationID). }
  rewrite Hcol in Hjson |- *. split; [|split].
  - rewrite E. unfold prepareResponseBody. rewrite Hjson. cbn [cbind].
    by rewrite merged_ok.
  - by apply cmapM_Normal.
  - intros xss ->. apply Array_flat_arrays.
Qed.

(** On the four-page scenario the final page answers [[9]]: the merge is
    page [a] followed by the final page. *)
Lemma afterSuccess_merges_in_order_witness :
  @afterSuccess Sample.platform Scenario.op (Sample.okResponse "[9]") Scenario.split4
  = (Normal {| res_status := 200; res_statusText := "OK";
               res_headers := [("content-type", "application/json")];
               res_body := "[1,2,9]" |},
     cleared Scenario.op
       (@joined Sample.platform Scenario.op (Scenario.handleOf Scenario.split4)
          Scenario.split4)).
Proof.
  refine (proj1
    (@afterSuccess_merges_in_order Sample.platform Scenario.op
       (Sample.okResponse "[9]") Scenario.split4
       (Scenario.handleOf Scenario.split4)
       [JArray [JNumber 1; JNumber 2]; JArray [JNumber 9]] _ _ _ _));
    vm_compute; reflexivity.
Defined.

(** The merge keeps page order: three pages answering [[1]], [[2]] and
    [[3]] merge into [[1,2,3]] (section 8 of the specification). *)
Example merge_keeps_page_order :
  @prepareResponseBody Sample.platform
    [Sample.okResponse "[1]"; Sample.okResponse "[2]"; Sample.okResponse "[3]"]
  = Normal "[1,2,3]".
Proof. vm_compute. reflexivity. Qed.

(** Only one level is flattened. *)
Example flat_is_one_level :
  Array_flat [JArray [JNumber 1; JArray [JNumber 2]]; JNumber 3; JArray []]
  = [JNumber 1; JArray [JNumber 2]; JNumber 3].
Proof. reflexivity. Qed.

(** C3, as stated, fails: both background pages of the sample document
    fail, page 1 with status 500 and page 2 on the network; after the join
    both slots are empty, but only the network failure has been logged:
    nothing is written for the page refused with a status other than 200. *)
Lemma non200_is_not_logged :
  let handle := Scenario.handleOf Scenario.split3 in
  let st1 := @joined Sample.platform Scenario.op handle Scenario.split3 in
  (Sample.transport ∘ task_request) <$> pending handle
  = [Normal Sample.errorResponse; Throw (LibraryError "fetch failed")]
  ∧ res_status Sample.errorResponse = 500%Z
  ∧ partitionResponses st1 !! Scenario.op = Some [None; None; None]
  ∧ console Scenario.split3 = []
  ∧ console st1 = [Error "Failed to send request for page 2."]
  ∧ Error (pageFailureMessage 0) ∉ console st1.
Proof.
  vm_compute. repeat split.
  intros Hin. apply list_elem_of_singleton in Hin. discriminate Hin.
Qed.

(** C3 (amended). For every background page request i dispatched by a
    split with a bound of at least 1, made while no older request of the
    same operation id is in flight, and whichever of the requests have
    come back since: once the join handle is awaited, which then
    completes, slot i of the operation's response array holds the
    response of request i when its transport call returned status 200,
    and is empty when the call threw or returned another status; this
    holds for each i whatever happened to the other tasks and in whatever
    order the tasks ended.  A transport error is logged with
    [console.error] and swallowed; a status other than 200 is dropped
    without any log.  (With a bound below 1 the join is rejected and no
    request is sent; an older request of the same id writes to the same
    array when it comes back.) *)
Theorem background_slots_by_index `{Platform}
  (operationID : string) (request : Request) (st : SplitPdfHook)
  (name : string) (content : Blob) (pages : list Blob) (c : HTTPClient)
  (steps : list Settlement) :
  splits request st name content pages →
  client st = Some c →
  (0 < parallelLimit st)%Z →
  quiet operationID st = true →
  let requests := derivedRequests request name pages in
  let st0 := snd (beforeRequest operationID request st) in
  let st1 := snd (background steps st0) in
  ∃ handle slots1 order,
    partitionRequests st1 !! operationID = Some handle
    ∧ awaitPromise operationID handle st1
      = (Normal tt, joined operationID handle st1)
    ∧ partitionResponses (joined operationID handle st1) !! operationID
      = Some slots1
    ∧ (∀ i req,
         i < length pages - 1 →
         requests !! i = Some req →
         slots1 !! i
         = Some (match c req with
                 | Normal response =>
                     if (res_status response =? 200)%Z then Some response else None
                 | Throw _ => None
                 end))
    ∧ order ≡ₚ pending handle
    ∧ console (joined operationID handle st1)
      = console st1
        ++ flat_map
             (λ t, match c (task_request t) with
                   | Normal _ => []
                   | Throw _ => [Error (pageFailureMessage (task_index t))]
                   end)
             order.
Proof.
  intros Hsplit Hc Hlim Hq requests st0 st1.
  destruct (split_underway operationID request st name content pages c steps
              Hsplit Hc Hlim Hq) as (h & done & Hu).
  fold requests st0 st1 in Hu. pose proof Hu as (_ & _ & Hp & _).
  destruct (underway_joined _ _ _ _ _ _ Hu)
    as (h' & order & E & Hu' & Hp' & Ho & Hlog).
  destruct (underway_slots _ _ _ _ _ _ Hu' Hp') as [Hslots _].
  eexists h, _, order. split; [exact Hp|]. split; [exact E|].
  split; [exact Hslots|]. split; [|split; [exact Ho|exact Hlog]].
  intros i req Hi Hreq.
  assert (length requests = length pages) as Hlen
    by apply derivedRequests_length.
  rewrite lookup_app_l by (rewrite length_fmap, Array_slice_init_length; lia).
  rewrite list_lookup_fmap, Array_slice_init_lookup, Hreq by lia. done.
Qed.

(** On the four-page scenario, after the request for page [c] has come
    back on its own: page [a] is in its slot, the slots of pages [b] and
    [c] are empty. *)
Lemma background_slots_by_index_witness :
  let st1 := snd (background [OfHandle Scenario.op 2]
                    Scenario.split4) in
  ∃ handle slots1,
    partitionRequests st1 !! Scenario.op = Some handle
    ∧ partitionResponses (@joined Sample.platform Scenario.op handle st1)
        !! Scenario.op = Some slots1
    ∧ slots1 !! 0 = Some (Some (Sample.okResponse "[1,2]"))
    ∧ slots1 !! 1 = Some None
    ∧ slots1 !! 2 = Some None.
Proof.
  destruct (@background_slots_by_index Sample.platform Scenario.op
              Scenario.fourPages Sample.ready "doc.pdf" (Sample.pdfBlob "%PDFabcd")
              (Sample.pdfBlob <$> ["%PDFa"; "%PDFb"; "%PDFc"; "%PDFd"])
              Sample.transport [OfHandle Scenario.op 2])
    as (handle & slots1 & order & Hp & _ & Hs & Hslots & _).
  - unfold splits. repeat split; try (vm_compute; reflexivity).
    exists Sample.transport. reflexivity.
  - reflexivity.
  - reflexivity.
  - reflexivity.
  - exists handle, slots1. split; [exact Hp|]. split; [exact Hs|].
    split; [|split].
    + refine (Hslots 0 _ _ eq_refl). vm_compute. lia.
    + refine (Hslots 1 _ _ eq_refl). vm_compute. lia.
    + refine (Hslots 2 _ _ eq_refl). vm_compute. lia.
Defined.

(** C4, as stated, fails: with the bound configured as [0] the hook
    hands [0] to the dispatcher, not the default [5]; a negative bound
    goes through as it is too. *)
Lemma nonpositive_limit_passes_through :
  promise_limit
    (Scenario.handleOf
       (snd (@beforeRequest Sample.platform Scenario.op Scenario.fourPages
               (set_parallelLimit 0 Sample.ready)))) = 0%Z
  ∧ promise_limit
      (Scenario.handleOf
         (snd (@beforeRequest Sample.platform Scenario.op Scenario.fourPages
                 (set_parallelLimit (-3) Sample.ready)))) = (-3)%Z
  ∧ promise_limit
      (Scenario.handleOf
         (snd (@beforeRequest Sample.platform Scenario.op Scenario.fourPages
                 (set_parallelLimit 0 Sample.ready)))) ≠ 5%Z.
Proof. vm_compute. repeat split. discriminate. Qed.

(** C4 (amended). For every configured parallelism value, the bound
    handed to the dispatcher by a split is min(configured, 15): a value
    above 15 is reduced to 15 and one warning is logged, any other value,
    zero and negative ones included, is handed over as it is and nothing
    is logged; a hook whose bound was never set has the default 5. *)
Theorem dispatcher_bound_is_min `{Platform}
  (operationID : string) (request : Request) (st : SplitPdfHook)
  (name : string) (content : Blob) (pages : list Blob) :
  splits request st name content pages →
  let st0 := snd (beforeRequest operationID request st) in
  ∃ handle,
    partitionRequests st0 !! operationID = Some handle
    ∧ promise_limit handle
      = Z.min (parallelLimit st) MAX_NUMBER_OF_PARALLEL_REQUESTS
    ∧ ((parallelLimit st > 15)%Z →
       promise_limit handle = 15%Z
       ∧ console st0 = console st ++ [Warn (limitWarning (parallelLimit st))])
    ∧ ((parallelLimit st ≤ 15)%Z →
       promise_limit handle = parallelLimit st ∧ console st0 = console st)
    ∧ parallelLimit newSplitPdfHook = 5%Z.
Proof.
  intros Hsplit st0. subst st0. pose proof Hsplit as (_ & _ & [c Hc] & _).
  rewrite (beforeRequest_split _ _ _ name content pages c) by done. cbn [snd].
  destruct (registered_lookup operationID c (derivedRequests request name pages) st)
    as (_ & Hp & _ & -> & _).
  eexists. split; [exact Hp|]. rewrite dispatched_limit.
  unfold effectiveLimit, limitWarnings, MAX_NUMBER_OF_PARALLEL_REQUESTS.
  destruct (Z.gtb_spec (parallelLimit st) 15).
  - split; [lia|]. split; [done|]. split; [lia|done].
  - split; [lia|]. split; [lia|]. split; [|done].
    intros _. by rewrite app_nil_r.
Qed.

(** A bound of 40 reaches the dispatcher as 15. *)
Lemma dispatcher_bound_is_min_witness :
  ∃ handle,
    partitionRequests
      (snd (@beforeRequest Sample.platform Scenario.op Scenario.fourPages
              (set_parallelLimit 40 Sample.ready))) !! Scenario.op = Some handle
    ∧ promise_limit handle = Z.min 40 15.
Proof.
  destruct (@dispatcher_bound_is_min Sample.platform Scenario.op Scenario.fourPages
              (set_parallelLimit 40 Sample.ready) "doc.pdf"
              (Sample.pdfBlob "%PDFabcd")
              (Sample.pdfBlob <$> ["%PDFa"; "%PDFb"; "%PDFc"; "%PDFd"]))
    as (handle & Hp & Hlim & _).
  - unfold splits. repeat split; try (vm_compute; reflexivity).
    exists Sample.transport. reflexivity.
  - exists handle. split; [exact Hp|exact Hlim].
Defined.

(** C5, as stated, fails: the split flag is true and the file is
    [notes.txt]; the request is returned as it is and nothing is
    registered, but the skip is logged with a warning. *)
Lemma not_pdf_skip_warns :
  let request := Sample.request "true" "notes.txt" "plain text" in
  @splitRequested Sample.platform (req_form request) = true
  ∧ hasPdfName (req_form request) = false
  ∧ fst (@beforeRequest Sample.platform Scenario.op request Sample.ready)
    = Normal (Some request)
  ∧ console Sample.ready = []
  ∧ console (snd (@beforeRequest Sample.platform Scenario.op request Sample.ready))
    = [Warn "Given file is not a PDF. Continuing without splitting."]
  ∧ console (snd (@beforeRequest Sample.platform Scenario.op request Sample.ready))
    ≠ console Sample.ready.
Proof. vm_compute. repeat split. discriminate. Qed.

(** C5 (amended). For every incoming request (whose flag field is a
    string and whose file field is a file, when present) whose split flag
    parses as false, or whose file name does not end in ".pdf", or when
    the HTTP client is unavailable, beforeRequest returns the original
    request unchanged and creates no Operation state; nothing is logged
    when the flag is false, and one warning is logged when the skip is
    due to the file name or to the missing client. *)
Theorem skip_returns_original `{Platform}
  (operationID : string) (request : Request) (st : SplitPdfHook) :
  FormData_typed (req_form request) = true →
  splitRequested (req_form request) = false
  ∨ hasPdfName (req_form request) = false
  ∨ client st = None →
  let st' := snd (beforeRequest operationID request st) in
  fst (beforeRequest operationID request st) = Normal (Some request)
  ∧ partitionResponses st' = partitionResponses st
  ∧ partitionRequests st' = partitionRequests st
  ∧ client st' = client st
  ∧ console st'
    = console st
      ++ (if negb (splitRequested (req_form request)) then []
          else if negb (hasPdfName (req_form request))
               then [Warn notPdfWarning]
               else [Warn noClientWarning]).
Proof.
  intros Htyped Hskip st'. subst st'.
  unfold FormData_typed, splitRequested, hasPdfName in *.
  apply andb_true_iff in Htyped as [Hflag Hfile].
  destruct (readSplitPdfPage (req_form request)) as [[|]|e] eqn:Eflag; simpl.
  - (* the flag is true *)
    destruct (FormData_get PARTITION_FORM_FILES_KEY (req_form request))
      as [[s|name content]|] eqn:Efile; [done| |].
    + destruct (JSString.endsWith name ".pdf") eqn:Epdf; simpl.
      * destruct Hskip as [?|[?|Hc]]; [done|done|].
        rewrite (beforeRequest_no_client _ _ _ name content);
          [done|done| |done].
        rewrite Efile. simpl. by rewrite Epdf.
      * rewrite beforeRequest_not_pdf; [done|done|].
        rewrite Efile. simpl. by rewrite Epdf.
    + rewrite beforeRequest_not_pdf; [done|done|]. by rewrite Efile.
  - (* the flag is false *)
    rewrite beforeRequest_flag_false by done. simpl.
    by rewrite app_nil_r.
  - (* the flag is a file: excluded *)
    unfold readSplitPdfPage in Eflag.
    destruct (FormData_get PARTITION_FORM_SPLIT_PDF_PAGE_KEY (req_form request))
      as [[?|? ?]|]; done.
Qed.

(** The flag [no] parses as false: the request goes through as it is. *)
Lemma skip_returns_original_witness :
  fst (@beforeRequest Sample.platform Scenario.op
         (Sample.request "no" "doc.pdf" "%PDFabcd") Sample.ready)
  = Normal (Some (Sample.request "no" "doc.pdf" "%PDFabcd")).
Proof.
  refine (proj1 (@skip_returns_original Sample.platform Scenario.op
                   (Sample.request "no" "doc.pdf" "%PDFabcd") Sample.ready _ _)).
  - reflexivity.
  - left. reflexivity.
Defined.

(** C6, at the failing input: the file is named [a.pdf.b.pdf], so its
    stem is [a.pdf.b]; the hook removes the first [.pdf] of the name, not
    the extension, and the page request it returns carries the page under
    the name [a.b.pdf-1.pdf] where the claim has [a.pdf.b-1.pdf]. *)
Theorem page_name_drops_first_pdf :
  let request := Sample.request "true" "a.pdf.b.pdf" "%PDFd" in
  JSString.endsWith "a.pdf.b.pdf" ".pdf" = true
  ∧ JSString.stem "a.pdf.b.pdf" = "a.pdf.b"
  ∧ match fst (@beforeRequest Sample.platform Scenario.op request Sample.ready) with
    | Normal (Some req) => FormData_getAll PARTITION_FORM_FILES_KEY (req_form req)
    | _ => []
    end = [FFile "a.b.pdf-1.pdf" (Sample.pdfBlob "%PDFd")]
  ∧ pageFileName (JSString.stem "a.pdf.b.pdf") 0 = "a.pdf.b-1.pdf".
Proof. vm_compute. repeat split. Qed.

(** C7, as stated, fails: a split of a one-page document is registered,
    the final response comes back with a body that is not JSON (the
    server was asked for CSV), and afterSuccess throws out of the merge
    before it reaches [#clearOperation]: both entries of the operation
    are still in the store. *)
Lemma afterSuccess_throw_leaves_state :
  store_wf Scenario.split1
  ∧ is_Some (partitionRequests Scenario.split1 !! Scenario.op)
  ∧ ∃ e st',
      @afterSuccess Sample.platform Scenario.op (Sample.okResponse "a,b")
        Scenario.split1 = (Throw e, st')
      ∧ is_Some (partitionResponses st' !! Scenario.op)
      ∧ is_Some (partitionRequests st' !! Scenario.op).
Proof.
  split; [|split].
  - apply store_wf_beforeRequest, store_wf_new.
  - vm_compute. eauto.
  - eexists _, _. split; [vm_compute; reflexivity|].
    split; vm_compute; eauto.
Qed.

(** C7 (amended). Given a store in which the two maps hold the same
    operation ids: when afterSuccess or afterError returns normally for an
    operation id, no state (response slots or join handle) remains in the
    store for that id; afterSuccess clears the state whenever an Operation
    exists, its join handle was made with a bound of at least 1 and the
    merge of the bodies does not throw; and clearing the same id a second
    time changes nothing. *)
Theorem no_state_after_normal_return `{Platform}
  (operationID : string) (st : SplitPdfHook) :
  store_wf st →
  (∀ response r st',
     afterSuccess operationID response st = (Normal r, st') →
     no_operation operationID st')
  ∧ (∀ response error r st',
       afterError operationID response error st = (Normal r, st') →
       no_operation operationID st')
  ∧ (∀ response requests body,
       partitionRequests st !! operationID = Some requests →
       (0 < promise_limit requests)%Z →
       prepareResponseBody
         (collected operationID (joined operationID requests st) ++ [response])
       = Normal body →
       snd (afterSuccess operationID response st)
       = cleared operationID (joined operationID requests st))
  ∧ cleared operationID (cleared operationID st) = cleared operationID st.
Proof.
  intros Hwf. split; [|split; [|split]].
  - intros response r st' E.
    destruct (partitionRequests st !! operationID) as [p|] eqn:Hp.
    + destruct (Z.leb_spec (promise_limit p) 0) as [Hlim|Hlim].
      { by rewrite (afterSuccess_rejected _ _ _ p) in E. }
      rewrite (afterSuccess_present _ _ _ p) in E by done.
      destruct (prepareResponseBody _); [|done].
      injection E as _ <-. apply cleared_lookup.
    + rewrite afterSuccess_absent in E by done. injection E as _ <-.
      split; [by apply store_wf_absent|done].
  - intros response error r st' E.
    destruct (partitionRequests st !! operationID) as [p|] eqn:Hp.
    + destruct (Z.leb_spec (promise_limit p) 0) as [Hlim|Hlim].
      { by rewrite (afterError_rejected _ _ _ _ p) in E. }
      rewrite (afterError_present _ _ _ _ p) in E by done.
      destruct (collected _ _) as [|okResponse ?].
      * injection E as _ <-. apply cleared_lookup.
      * destruct (prepareResponseBody _); [|done].
        destruct (merged okResponse _); [|done].
        injection E as _ <-. apply cleared_lookup.
    + rewrite afterError_absent in E by done. injection E as _ <-.
      apply cleared_lookup.
  - intros response requests body Hp Hlim Hbody.
    rewrite (afterSuccess_present _ _ _ requests) by done. by rewrite Hbody.
  - apply cleared_idempotent.
Qed.

(** On the four-page scenario afterSuccess returns, and nothing is left. *)
Lemma no_state_after_normal_return_witness :
  no_operation Scenario.op
    (snd (@afterSuccess Sample.platform Scenario.op (Sample.okResponse "[9]")
            Scenario.split4)).
Proof.
  refine (proj1
    (@no_state_after_normal_return Sample.platform Scenario.op Scenario.split4 _)
    (Sample.okResponse "[9]")
    {| res_status := 200; res_statusText := "OK";
       res_headers := [("content-type", "application/json")];
       res_body := "[1,2,9]" |} _ _).
  - vm_compute. reflexivity.
  - vm_compute. reflexivity.
Defined.

(** C8, as stated, fails: a two-page document is split, one page goes
    to the background, and the response array that is registered has two
    slots, not one. *)
Lemma response_array_has_N_slots :
  let st0 := snd (@beforeRequest Sample.platform Scenario.op
                    (Sample.request "true" "doc.pdf" "%PDFad") Sample.ready) in
  @getPdfPages Sample.platform (Sample.pdfBlob "%PDFad")
  = Normal [Sample.pdfBlob "%PDFa"; Sample.pdfBlob "%PDFd"]
  ∧ length (pending (Scenario.handleOf st0)) = 1
  ∧ partitionResponses st0 !! Scenario.op = Some [None; None]
  ∧ length (default [] (partitionResponses st0 !! Scenario.op)) ≠ 2 - 1.
Proof. vm_compute. repeat split. lia. Qed.

(** C8 (amended). For every split with page count N, made with a bound
    of at least 1 while no older request of the same operation id is in
    flight: the Operation registered in the store has a response array
    of N empty slots (one per derived request: N-1 for the background
    tasks and a last one that no task writes) and a join handle of N-1
    tasks; and whichever of the requests have come back since, the array
    has length N, and it still has length N, with its last slot empty,
    once the join handle has been awaited. *)
Theorem response_array_length `{Platform}
  (operationID : string) (request : Request) (st : SplitPdfHook)
  (name : string) (content : Blob) (pages : list Blob)
  (steps : list Settlement) :
  splits request st name content pages →
  (0 < parallelLimit st)%Z →
  quiet operationID st = true →
  let st0 := snd (beforeRequest operationID request st) in
  let st1 := snd (background steps st0) in
  (∃ handle0,
     partitionResponses st0 !! operationID = Some (replicate (length pages) None)
     ∧ partitionRequests st0 !! operationID = Some handle0
     ∧ length (pending handle0) = length pages - 1)
  ∧ ∃ handle slots slots1,
      partitionRequests st1 !! operationID = Some handle
      ∧ partitionResponses st1 !! operationID = Some slots
      ∧ length slots = length pages
      ∧ partitionResponses (joined operationID handle st1) !! operationID
        = Some slots1
      ∧ length slots1 = length pages
      ∧ slots1 !! (length pages - 1)
        = (if length pages is 0 then None else Some None).
Proof.
  intros Hsplit Hlim Hq st0 st1.
  pose proof Hsplit as (_ & _ & [c Hc] & _).
  set (requests := derivedRequests request name pages).
  assert (length requests = length pages) as Hlen
    by apply derivedRequests_length.
  split.
  - subst st0.
    rewrite (beforeRequest_split _ _ _ name content pages c) by done. cbn [snd].
    fold requests.
    destruct (registered_lookup operationID c requests st) as (Hs & Hp & _).
    eexists. split; [by rewrite Hs, Hlen|]. split; [exact Hp|].
    rewrite dispatched_pending by (by apply effectiveLimit_pos).
    by rewrite backgroundTasks_length, Hlen.
  - destruct (split_underway operationID request st name content pages c steps
                Hsplit Hc Hlim Hq) as (h & done & Hu).
    fold requests st0 st1 in Hu. pose proof Hu as (_ & _ & Hp & _).
    destruct (underway_length _ _ _ _ _ _ Hu) as (slots & Hs & Hl & _).
    destruct (underway_joined _ _ _ _ _ _ Hu) as (h' & order & _ & Hu' & _).
    destruct (underway_length _ _ _ _ _ _ Hu') as (slots1 & Hs1 & Hl1 & Hlast & _).
    exists h, slots, slots1. rewrite <- Hlen. done.
Qed.

(** Four pages, of which the second has come back: four slots, three
    tasks, four slots after the join. *)
Lemma response_array_length_witness :
  let st1 := snd (background [OfHandle Scenario.op 1]
                    Scenario.split4) in
  ∃ handle slots slots1,
    partitionRequests st1 !! Scenario.op = Some handle
    ∧ partitionResponses st1 !! Scenario.op = Some slots
    ∧ length slots = 4
    ∧ partitionResponses (@joined Sample.platform Scenario.op handle st1)
        !! Scenario.op = Some slots1
    ∧ length slots1 = 4
    ∧ slots1 !! (4 - 1) = Some None.
Proof.
  refine (proj2 (@response_array_length Sample.platform Scenario.op
                   Scenario.fourPages Sample.ready "doc.pdf"
                   (Sample.pdfBlob "%PDFabcd")
                   (Sample.pdfBlob <$> ["%PDFa"; "%PDFb"; "%PDFc"; "%PDFd"])
                   [OfHandle Scenario.op 1] _ _ _)).
  - unfold splits. repeat split; try (vm_compute; reflexivity).
    exists Sample.transport. reflexivity.
  - reflexivity.
  - reflexivity.
Defined.

(** The condition on older requests is needed.  A two-page document is
    split under an id whose previous split, of four pages that are all
    accepted, still has its three requests in flight; they come back
    during the join, each writes under the id to the array that is there
    now, and the third one writes past its end. *)
Example older_requests_grow_the_array :
  quiet Scenario.op
    (snd (@beforeRequest Sample.platform Scenario.op Scenario.acceptedPages
            Sample.ready)) = false
  ∧ partitionResponses Scenario.overwritten !! Scenario.op = Some [None; None]
  ∧ length (orphans Scenario.overwritten) = 1
  ∧ length
      (default []
         (partitionResponses
            (@joined Sample.platform Scenario.op
               (Scenario.handleOf Scenario.overwritten) Scenario.overwritten)
          !! Scenario.op))
    = 3.
Proof. vm_compute. repeat split. Qed.

(** C9. For every request with split enabled (a file named [*.pdf], the
    client available) whose document cannot be parsed or paginated, the
    failure of pdf-lib leaves beforeRequest as it was thrown, and the
    hook is as before the call: no Operation state, no join handle and
    so no page request dispatched.  The failure is that of
    [PDFDocument.load] when the bytes do not parse, and that of the first
    page that cannot be extracted otherwise. *)
Theorem paging_failure_propagates `{Platform}
  (operationID : string) (request : Request) (st : SplitPdfHook)
  (name : string) (content : Blob) :
  readSplitPdfPage (req_form request) = Normal true →
  pdfFile (FormData_get PARTITION_FORM_FILES_KEY (req_form request))
  = Normal (Some (name, content)) →
  is_Some (client st) →
  (∀ e, getPdfPages content = Throw e →
        beforeRequest operationID request st = (Throw e, st))
  ∧ (∀ e, PDFDocument_load (blob_bytes content) = Throw e →
          getPdfPages content = Throw e)
  ∧ (∀ pdf i e,
       PDFDocument_load (blob_bytes content) = Normal pdf →
       i < PDFDocument_pageCount pdf →
       (∀ j, j < i → isNormal (PDFDocument_savePage pdf j) = true) →
       PDFDocument_savePage pdf i = Throw e →
       getPdfPages content = Throw e).
Proof.
  intros Hflag Hfile Hc. split; [|split].
  - intros e He. by apply (beforeRequest_fatal _ _ _ name content).
  - intros e He. unfold getPdfPages. by rewrite He.
  - intros pdf i e Hload Hi Hbefore Hpage. unfold getPdfPages.
    rewrite Hload. simpl.
    replace (PDFDocument_pageCount pdf) with (i + S (PDFDocument_pageCount pdf - S i))
      by lia.
    rewrite seq_app. simpl. apply cmapM_throw_at.
    + intros j Hj. apply elem_of_seq in Hj. unfold pdfPageToBlob.
      assert (isNormal (PDFDocument_savePage pdf j) = true) as Hn
        by (apply Hbefore; lia).
      by destruct (PDFDocument_savePage pdf j).
    + unfold pdfPageToBlob. by rewrite Hpage.
Qed.

(** Bytes that are no PDF: the error of the loader, and the state as it
    was. *)
Lemma paging_failure_propagates_witness :
  @beforeRequest Sample.platform Scenario.op
    (Sample.request "true" "doc.pdf" "not a pdf") Sample.ready
  = (Throw (LibraryError "No PDF header found"), Sample.ready).
Proof.
  refine (proj1 (@paging_failure_propagates Sample.platform Scenario.op
                   (Sample.request "true" "doc.pdf" "not a pdf") Sample.ready
                   "doc.pdf" (Sample.pdfBlob "not a pdf") _ _ _)
            (LibraryError "No PDF header found") _).
  - reflexivity.
  - reflexivity.
  - exists Sample.transport. reflexivity.
  - reflexivity.
Defined.

(** C10. beforeRequest yields a Request only when the split produces at
    least one page: for a zero-page PDF with split enabled the list of
    derived requests is empty and the value returned, the last element of
    that list, is [undefined] where a Request is declared; with at least
    one page it is the last derived request. *)
Theorem zero_pages_returns_undefined `{Platform}
  (operationID : string) (request : Request) (st : SplitPdfHook)
  (name : string) (content : Blob) (pages : list Blob) :
  splits request st name content pages →
  ∃ result,
    fst (beforeRequest operationID request st) = Normal result
    ∧ (pages = [] → derivedRequests request name pages = [] ∧ result = None)
    ∧ (is_Some result ↔ pages ≠ [])
    ∧ result = derivedRequests request name pages !! (length pages - 1).
Proof.
  intros Hsplit. pose proof Hsplit as (_ & _ & [c Hc] & _).
  rewrite (beforeRequest_split _ _ _ name content pages c) by done. cbn [fst].
  eexists. split; [done|]. split; [|split].
  - intros ->. done.
  - rewrite <- not_eq_None_Some, Array_at_last_None.
    split; intros Hne Heq; apply Hne.
    + by subst pages.
    + apply length_zero_iff_nil. rewrite <- (derivedRequests_length request name).
      by rewrite Heq.
  - rewrite Array_at_last_lookup. by rewrite derivedRequests_length.
Qed.

(** A PDF without pages: the hook returns [undefined]. *)
Lemma zero_pages_returns_undefined_witness :
  fst (@beforeRequest Sample.platform Scenario.op
         (Sample.request "true" "empty.pdf" "%PDF") Sample.ready)
  = Normal None.
Proof.
  destruct (@zero_pages_returns_undefined Sample.platform Scenario.op
              (Sample.request "true" "empty.pdf" "%PDF") Sample.ready
              "empty.pdf" (Sample.pdfBlob "%PDF") [])
    as (result & Hfst & Hnil & _).
  - unfold splits. repeat split; try (vm_compute; reflexivity).
    exists Sample.transport. reflexivity.
  - destruct (Hnil eq_refl) as [_ Hres]. rewrite Hfst. f_equal. exact Hres.
Defined.

(** * Further properties of the hook *)

(** ** Splitting a document into pages *)

Lemma cmapM_Forall2 {A B} (f : A → Completion B) (xs : list A) (ys : list B) :
  Forall2 (λ x y, f x = Normal y) xs ys → cmapM f xs = Normal ys.
Proof.
  induction 1 as [|x y xs ys Hx _ IH]; simpl; [done|].
  by rewrite Hx, IH.
Qed.

(** X1. [#getPdfPages] succeeds exactly when pdf-lib loads the bytes and
    saves every page; it then returns one blob per page of the document,
    in page order from page 0, each holding the bytes saved for that page
    and typed [application/pdf]. *)
Theorem getPdfPages_one_blob_per_page `{Platform} (file : Blob) (pages : list Blob) :
  getPdfPages file = Normal pages ↔
  ∃ pdf,
    PDFDocument_load (blob_bytes file) = Normal pdf
    ∧ length pages = PDFDocument_pageCount pdf
    ∧ ∀ i, i < PDFDocument_pageCount pdf →
           ∃ bytes,
             PDFDocument_savePage pdf i = Normal bytes
             ∧ pages !! i = Some {| blob_bytes := bytes;
                                    blob_type := "application/pdf" |}.
Proof.
  unfold getPdfPages. split.
  - destruct (PDFDocument_load (blob_bytes file)) as [pdf|e]; simpl; [|done].
    intros E. apply cmapM_Normal in E. exists pdf. split; [done|].
    pose proof (Forall2_length _ _ _ E) as Hlen. rewrite length_seq in Hlen.
    split; [done|]. intros i Hi.
    destruct (lookup_lt_is_Some_2 pages i) as [page Hpage]; [lia|].
    pose proof (Forall2_lookup_lr _ _ _ i i page E (lookup_seq_lt 0 _ i Hi) Hpage)
      as Hi'. simpl in Hi'. unfold pdfPageToBlob in Hi'.
    destruct (PDFDocument_savePage pdf i) as [bytes|]; simpl in Hi'; [|done].
    exists bytes. split; [done|]. rewrite Hpage. by injection Hi' as <-.
  - intros (pdf & Hload & Hlen & Hpages). rewrite Hload. simpl.
    apply cmapM_Forall2. apply Forall2_same_length_lookup_2.
    { by rewrite length_seq. }
    intros i j page Hj Hpage. apply lookup_seq in Hj as [-> Hi]. simpl.
    destruct (Hpages i Hi) as (bytes & Hsave & Hpage').
    unfold pdfPageToBlob. rewrite Hsave. simpl. congruence.
Qed.

(** A three-page document of the sample platform. *)
Lemma getPdfPages_one_blob_per_page_witness :
  ∃ pdf,
    @PDFDocument_load Sample.platform "%PDFabc" = Normal pdf
    ∧ 3 = @PDFDocument_pageCount Sample.platform pdf.
Proof.
  destruct (proj1 (@getPdfPages_one_blob_per_page Sample.platform
                     (Sample.pdfBlob "%PDFabc")
                     (Sample.pdfBlob <$> ["%PDFa"; "%PDFb"; "%PDFc"])))
    as (pdf & Hload & Hlen & _).
  - reflexivity.
  - exists pdf. split; [exact Hload|exact Hlen].
Defined.

(** ** The page requests *)

Lemma append_length (s t : string) :
  String.length (s +:+ t) = String.length s + String.length t.
Proof. induction s as [|c s IH]; simpl; [done|]. by rewrite IH. Qed.

Lemma append_inj_r (s1 s2 t : string) : s1 +:+ t = s2 +:+ t → s1 = s2.
Proof.
  revert s2. induction s1 as [|c s1 IH]; intros [|d s2] E; simpl in E.
  - done.
  - apply (f_equal String.length) in E. simpl in E.
    rewrite !append_length in E. simpl in E. lia.
  - apply (f_equal String.length) in E. simpl in E.
    rewrite !append_length in E. simpl in E. lia.
  - injection E as -> E. f_equal. by apply IH.
Qed.

Lemma pageFileName_inj (fileName : string) (i j : nat) :
  pageFileName fileName i = pageFileName fileName j → i = j.
Proof.
  unfold pageFileName. intros E.
  apply (inj (String.app fileName)) in E.
  apply (inj (String.app "-")) in E.
  apply append_inj_r in E. apply (inj pretty) in E. lia.
Qed.

(** X2. The page requests of one split are told apart by their file
    names: two different page indices never give the same file name, so
    no two derived requests are equal, even when two pages have the same
    bytes. *)
Theorem page_requests_have_distinct_names `{Platform}
  (request : Request) (name : string) (pages : list Blob)
  (i j : nat) (ri rj : Request) :
  derivedRequests request name pages !! i = Some ri →
  derivedRequests request name pages !! j = Some rj →
  i ≠ j →
  (∀ ni nj pi pj,
     FormData_getAll PARTITION_FORM_FILES_KEY (req_form ri) = [FFile ni pi] →
     FormData_getAll PARTITION_FORM_FILES_KEY (req_form rj) = [FFile nj pj] →
     ni ≠ nj)
  ∧ ri ≠ rj.
Proof.
  intros Hi Hj Hne.
  rewrite derivedRequests_lookup in Hi, Hj.
  destruct (pages !! i) as [pi|]; [|done]. destruct (pages !! j) as [pj|]; [|done].
  simpl in Hi, Hj. injection Hi as <-. injection Hj as <-.
  set (fileName := JSString.replace ".pdf" EmptyString name).
  destruct (pageRequest_shape request fileName i pi) as (Hfi & _).
  destruct (pageRequest_shape request fileName j pj) as (Hfj & _).
  assert (∀ ni nj pi' pj',
            FormData_getAll PARTITION_FORM_FILES_KEY
              (req_form (pageRequest request (prepareRequestHeaders request) fileName i pi))
            = [FFile ni pi'] →
            FormData_getAll PARTITION_FORM_FILES_KEY
              (req_form (pageRequest request (prepareRequestHeaders request) fileName j pj))
            = [FFile nj pj'] →
            ni ≠ nj) as Hnames.
  { intros ni nj pi' pj' Ei Ej. rewrite Hfi in Ei. rewrite Hfj in Ej.
    injection Ei as <- _. injection Ej as <- _.
    intros E. by apply pageFileName_inj in E. }
  split; [exact Hnames|].
  intros E. pose proof (Hnames _ _ _ _ Hfi Hfj) as Hn.
  rewrite E, Hfj in Hfi. by injection Hfi as Hname _.
Qed.

(** Two equal pages of the sample document still travel under two names. *)
Lemma page_requests_have_distinct_names_witness :
  @pageRequest Sample.platform Scenario.fourPages
    (prepareRequestHeaders Scenario.fourPages) "doc" 0 (Sample.pdfBlob "%PDFa")
  ≠ @pageRequest Sample.platform Scenario.fourPages
      (prepareRequestHeaders Scenario.fourPages) "doc" 1 (Sample.pdfBlob "%PDFa").
Proof.
  refine (proj2 (@page_requests_have_distinct_names Sample.platform
                   Scenario.fourPages "doc.pdf"
                   (Sample.pdfBlob <$> ["%PDFa"; "%PDFa"]) 0 1 _ _ _ _ _)).
  - reflexivity.
  - reflexivity.
  - lia.
Defined.

Lemma FormData_delete_app (k : string) (a b : FormData) :
  FormData_delete k (a ++ b) = FormData_delete k a ++ FormData_delete k b.
Proof. unfold FormData_delete. apply List.filter_app. Qed.

Lemma FormData_delete_idemp (k : string) (fd : FormData) :
  FormData_delete k (FormData_delete k fd) = FormData_delete k fd.
Proof.
  unfold FormData_delete. induction fd as [|[k' v] fd IH]; simpl; [done|].
  destruct (String.eqb k' k) eqn:E; simpl; [done|]. by rewrite E, IH.
Qed.

Lemma FormData_delete_comm (k1 k2 : string) (fd : FormData) :
  FormData_delete k1 (FormData_delete k2 fd)
  = FormData_delete k2 (FormData_delete k1 fd).
Proof.
  unfold FormData_delete. induction fd as [|[k' v] fd IH]; simpl; [done|].
  destruct (String.eqb k' k2) eqn:E2; destruct (String.eqb k' k1) eqn:E1;
    simpl; rewrite ?E1, ?E2; simpl; by rewrite ?IH.
Qed.

Lemma otherFields_idemp (fd : FormData) :
  otherFields (otherFields fd) = otherFields fd.
Proof.
  unfold otherFields.
  rewrite (FormData_delete_comm PARTITION_FORM_SPLIT_PDF_PAGE_KEY
             PARTITION_FORM_FILES_KEY
             (FormData_delete PARTITION_FORM_SPLIT_PDF_PAGE_KEY fd)).
  by rewrite !FormData_delete_idemp.
Qed.

(** X3. Every page request is the source request but for the two fields
    the hook rewrites: it has the method and the URL of the source, and
    once the split flag and the file are set aside its form is that of
    the source, field for field, in the same order and with the same
    repetitions; the flag and the file come last, in that order. *)
Theorem page_request_keeps_other_fields `{Platform}
  (request : Request) (name : string) (pages : list Blob) (i : nat) (req : Request) :
  derivedRequests request name pages !! i = Some req →
  req_method req = req_method request
  ∧ req_url req = req_url request
  ∧ otherFields (req_form req) = otherFields (req_form request)
  ∧ ∃ page,
      pages !! i = Some page
      ∧ req_form req
        = otherFields (req_form request)
          ++ [(PARTITION_FORM_SPLIT_PDF_PAGE_KEY, FString "false");
              (PARTITION_FORM_FILES_KEY,
               FFile (pageFileName (JSString.replace ".pdf" EmptyString name) i) page)].
Proof.
  intros Hi. rewrite derivedRequests_lookup in Hi.
  destruct (pages !! i) as [page|]; [|done]. simpl in Hi. injection Hi as <-.
  split; [done|]. split; [done|].
  assert (req_form (pageRequest request (prepareRequestHeaders request)
                      (JSString.replace ".pdf" EmptyString name) i page)
          = otherFields (req_form request)
            ++ [(PARTITION_FORM_SPLIT_PDF_PAGE_KEY, FString "false");
                (PARTITION_FORM_FILES_KEY,
                 FFile (pageFileName (JSString.replace ".pdf" EmptyString name) i)
                   page)]) as Hform.
  { simpl. unfold prepareRequestBody, FormData_append, otherFields.
    by rewrite <- app_assoc. }
  split; [|by exists page].
  rewrite Hform. unfold otherFields at 1.
  rewrite !FormData_delete_app. fold (otherFields (otherFields (req_form request))).
  rewrite otherFields_idemp. by rewrite app_nil_r.
Qed.

(** The last page request of the four-page scenario keeps [strategy]. *)
Lemma page_request_keeps_other_fields_witness :
  otherFields
    (req_form
       (@pageRequest Sample.platform Scenario.fourPages
          (prepareRequestHeaders Scenario.fourPages) "doc" 3
          (Sample.pdfBlob "%PDFd")))
  = otherFields (req_form Scenario.fourPages).
Proof.
  refine (proj1 (proj2 (proj2
    (@page_request_keeps_other_fields Sample.platform Scenario.fourPages "doc.pdf"
       (Sample.pdfBlob <$> ["%PDFa"; "%PDFb"; "%PDFc"; "%PDFd"]) 3 _ _)))).
  reflexivity.
Defined.

(** ** Headers *)

Lemma Headers_getAll_delete_ne (name other : string) (h : Headers) :
  JSString.toLowerCase other ≠ JSString.toLowerCase name →
  Headers_getAll other (Headers_delete name h) = Headers_getAll other h.
Proof.
  intros Hne. unfold Headers_getAll, Headers_delete.
  induction h as [|[k v] h IH]; simpl; [done|].
  destruct (String.eqb_spec (JSString.toLowerCase k) (JSString.toLowerCase name))
    as [Ek|Ek]; simpl.
  - destruct (String.eqb_spec (JSString.toLowerCase k) (JSString.toLowerCase other))
      as [Eo|Eo]; [congruence|done].
  - destruct (String.eqb (JSString.toLowerCase k) (JSString.toLowerCase other));
      simpl; by rewrite IH.
Qed.

Lemma Headers_getAll_delete (name : string) (h : Headers) :
  Headers_getAll name (Headers_delete name h) = [].
Proof.
  unfold Headers_getAll, Headers_delete.
  induction h as [|[k v] h IH]; simpl; [done|].
  destruct (String.eqb (JSString.toLowerCase k) (JSString.toLowerCase name)) eqn:E;
    simpl; [done|]. by rewrite E.
Qed.

Lemma Headers_delete_absent (name : string) (h : Headers) :
  Headers_has name h = false → Headers_delete name h = h.
Proof.
  unfold Headers_has, Headers_delete.
  induction h as [|[k v] h IH]; simpl; [done|].
  destruct (String.eqb (JSString.toLowerCase k) (JSString.toLowerCase name));
    simpl; [done|]. intros Hh. by rewrite IH.
Qed.

(** X4. The two header helpers touch one header only.
    [#prepareResponseHeaders] removes every [content-length] header,
    however its name is capitalised, and [#prepareRequestHeaders] every
    [content-type] header; the values of every other header name are
    what they were, in the same order, and headers without the removed
    name come back unchanged. *)
Theorem prepared_headers_drop_one_name (response : Response) (request : Request) :
  Headers_getAll "content-length" (prepareResponseHeaders response) = []
  ∧ Headers_getAll "content-type" (prepareRequestHeaders request) = []
  ∧ (∀ other,
       JSString.toLowerCase other ≠ "content-length" →
       Headers_getAll other (prepareResponseHeaders response)
       = Headers_getAll other (res_headers response))
  ∧ (∀ other,
       JSString.toLowerCase other ≠ "content-type" →
       Headers_getAll other (prepareRequestHeaders request)
       = Headers_getAll other (req_headers request))
  ∧ (Headers_has "content-length" (res_headers response) = false →
     prepareResponseHeaders response = res_headers response)
  ∧ (Headers_has "content-type" (req_headers request) = false →
     prepareRequestHeaders request = req_headers request).
Proof.
  unfold prepareResponseHeaders, prepareRequestHeaders.
  split; [apply Headers_getAll_delete|]. split; [apply Headers_getAll_delete|].
  split; [intros other Hne; by apply Headers_getAll_delete_ne|].
  split; [intros other Hne; by apply Headers_getAll_delete_ne|].
  split; apply Headers_delete_absent.
Qed.

(** The sample request: its [Content-Type] goes, its API key stays. *)
Lemma prepared_headers_drop_one_name_witness :
  Headers_getAll "Unstructured-API-Key" (prepareRequestHeaders Scenario.fourPages)
  = ["key"].
Proof.
  refine (eq_trans
    (proj1 (proj2 (proj2 (proj2
       (prepared_headers_drop_one_name (Sample.okResponse "[]") Scenario.fourPages))))
       "Unstructured-API-Key" _) _).
  - vm_compute. discriminate.
  - reflexivity.
Defined.

(** ** Merging bodies *)

Lemma cmapM_app {A B} (f : A → Completion B) (xs ys : list A) :
  cmapM f (xs ++ ys)
  = cbind (cmapM f xs) (λ us, cbind (cmapM f ys) (λ vs, Normal (us ++ vs))).
Proof.
  induction xs as [|x xs IH]; simpl.
  - by destruct (cmapM f ys).
  - destruct (f x); simpl; [|done]. rewrite IH.
    destruct (cmapM f xs); simpl; [|done]. by destruct (cmapM f ys).
Qed.

(** X5. [#prepareResponseBody] reads the bodies in order and stops at the
    first one that is not JSON: the merge throws the error of that
    response, whatever comes after it, and no merged body is produced. *)
Theorem merge_fails_on_first_bad_body `{Platform}
  (before : list Response) (bad : Response) (after : list Response) (e : JSError) :
  (∀ r, r ∈ before → isNormal (Response_json r) = true) →
  Response_json bad = Throw e →
  prepareResponseBody (before ++ bad :: after) = Throw e.
Proof.
  intros Hbefore Hbad. unfold prepareResponseBody.
  by rewrite (cmapM_throw_at Response_json before bad after e).
Qed.

(** A CSV body after a JSON one. *)
Lemma merge_fails_on_first_bad_body_witness :
  @prepareResponseBody Sample.platform
    [Sample.okResponse "[1]"; Sample.okResponse "a,b"; Sample.okResponse "[3]"]
  = Throw (SyntaxError "Unexpected token").
Proof.
  refine (@merge_fails_on_first_bad_body Sample.platform
            [Sample.okResponse "[1]"] (Sample.okResponse "a,b")
            [Sample.okResponse "[3]"] (SyntaxError "Unexpected token") _ _).
  - intros r Hr. apply list_elem_of_singleton in Hr. subst r. reflexivity.
  - reflexivity.
Defined.

(** X6. Merging is concatenation: when the bodies of two lists of
    responses parse, the merged body of the two lists put end to end is
    the JSON text of the elements merged from the first list followed by
    those merged from the second; a response whose body is the empty
    array adds nothing to the merge, and a body that is not an array is
    kept as one element. *)
Theorem merge_is_concatenation `{Platform}
  (xs ys : list Response) (us vs : list JSON) :
  cmapM Response_json xs = Normal us →
  cmapM Response_json ys = Normal vs →
  prepareResponseBody (xs ++ ys)
  = Normal (JSON_stringify (JArray (Array_flat us ++ Array_flat vs)))
  ∧ (∀ r, Response_json r = Normal (JArray []) →
          prepareResponseBody (xs ++ r :: ys) = prepareResponseBody (xs ++ ys))
  ∧ (∀ r v, Response_json r = Normal v →
            (∀ elements, v ≠ JArray elements) →
            prepareResponseBody (xs ++ r :: ys)
            = Normal (JSON_stringify
                        (JArray (Array_flat us ++ v :: Array_flat vs)))).
Proof.
  intros Hxs Hys. unfold prepareResponseBody.
  split; [|split].
  - rewrite cmapM_app, Hxs, Hys. simpl. by rewrite Array_flat_app.
  - intros r Hr. rewrite !cmapM_app, Hxs, Hys. simpl. rewrite Hr, Hys. simpl.
    rewrite !Array_flat_app. done.
  - intros r v Hr Hv. rewrite cmapM_app, Hxs. simpl. rewrite Hr, Hys. simpl.
    rewrite Array_flat_app. do 3 f_equal.
    change (v :: vs) with ([v] ++ vs). rewrite Array_flat_app. f_equal.
    unfold Array_flat. simpl. destruct v; try done. by destruct (Hv elements).
Qed.

(** Two pages and then a third. *)
Lemma merge_is_concatenation_witness :
  @prepareResponseBody Sample.platform
    ([Sample.okResponse "[1,2]"; Sample.okResponse "[]"] ++ [Sample.okResponse "[3]"])
  = Normal "[1,2,3]".
Proof.
  refine (proj1 (@merge_is_concatenation Sample.platform
                   [Sample.okResponse "[1,2]"; Sample.okResponse "[]"]
                   [Sample.okResponse "[3]"]
                   [JArray [JNumber 1; JNumber 2]; JArray []]
                   [JArray [JNumber 3]] _ _)); reflexivity.
Defined.

(** ** Awaiting the background requests *)

(** X7. Awaiting the background requests of an operation a second time
    gives the same responses and changes nothing: the join handle has
    settled, no request is sent again and nothing more is logged. *)
Theorem awaitAllRequests_twice `{Platform}
  (operationID : string) (st : SplitPdfHook) (requests : Promise) :
  partitionRequests st !! operationID = Some requests →
  awaitAllRequests operationID (snd (awaitAllRequests operationID st))
  = awaitAllRequests operationID st.
Proof.
  intros Hp. destruct (Z.leb_spec (promise_limit requests) 0) as [Hlim|Hlim].
  - rewrite (awaitAllRequests_rejected operationID st requests) by done.
    cbn [snd]. by rewrite (awaitAllRequests_rejected operationID st requests).
  - rewrite (awaitAllRequests_present operationID st requests) by done.
    cbn [snd].
    destruct (joined_idle operationID requests st Hp Hlim)
      as (h' & Hp' & Hrun & Hlim').
    rewrite (awaitAllRequests_present _ _ h') by (done || lia).
    by rewrite (joined_again _ h').
Qed.

(** The four-page scenario, awaited twice. *)
Lemma awaitAllRequests_twice_witness :
  @awaitAllRequests Sample.platform Scenario.op
    (snd (@awaitAllRequests Sample.platform Scenario.op Scenario.split4))
  = @awaitAllRequests Sample.platform Scenario.op Scenario.split4.
Proof.
  refine (@awaitAllRequests_twice Sample.platform Scenario.op Scenario.split4
            (Scenario.handleOf Scenario.split4) _).
  vm_compute. reflexivity.
Defined.

(** X8. After a split with a bound of at least 1, made while no older
    request of the same operation id is in flight, and whichever of the
    requests have come back since: awaiting the background requests
    returns exactly the responses of the background requests that the
    transport answered with status 200, in page order, whatever the
    order in which the requests came back; each of them has status 200,
    and there are at most N-1 of them. *)
Theorem background_responses_in_page_order `{Platform}
  (operationID : string) (request : Request) (st : SplitPdfHook)
  (name : string) (content : Blob) (pages : list Blob) (c : HTTPClient)
  (steps : list Settlement) :
  splits request st name content pages →
  client st = Some c →
  (0 < parallelLimit st)%Z →
  quiet operationID st = true →
  let st0 := snd (beforeRequest operationID request st) in
  let st1 := snd (background steps st0) in
  let responses := omap (accepted c) (backgroundRequests request name pages) in
  fst (awaitAllRequests operationID st1) = Normal (Some responses)
  ∧ Forall (λ r, res_status r = 200%Z) responses
  ∧ length responses ≤ length pages - 1.
Proof.
  intros Hsplit Hc Hlim Hq st0 st1 responses.
  destruct (split_awaited operationID request st name content pages c steps
              Hsplit Hc Hlim Hq) as (h & Hp & Hpos & Hcol).
  fold st0 st1 in Hp, Hcol.
  rewrite (awaitAllRequests_present _ _ h Hp Hpos). cbn [fst]. rewrite Hcol.
  split; [done|]. split; [apply accepted_status|].
  unfold responses, backgroundRequests.
  etransitivity; [apply omap_length_le|].
  by rewrite Array_slice_init_length, derivedRequests_length.
Qed.

(** Pages [a], [b], [c] in the background, of which [b] has come back
    before the join: page [a] alone was accepted. *)
Lemma background_responses_in_page_order_witness :
  fst (@awaitAllRequests Sample.platform Scenario.op
         (snd (background [OfHandle Scenario.op 1]
                 Scenario.split4)))
  = Normal (Some [Sample.okResponse "[1,2]"]).
Proof.
  refine (proj1 (@background_responses_in_page_order Sample.platform Scenario.op
                   Scenario.fourPages Sample.ready "doc.pdf"
                   (Sample.pdfBlob "%PDFabcd")
                   (Sample.pdfBlob <$> ["%PDFa"; "%PDFb"; "%PDFc"; "%PDFd"])
                   Sample.transport [OfHandle Scenario.op 1] _ _ _ _)).
  - unfold splits. repeat split; try (vm_compute; reflexivity).
    exists Sample.transport. reflexivity.
  - reflexivity.
  - reflexivity.
  - reflexivity.
Defined.

(** ** A split from end to end *)



(** X10. A split whose pages all fail: after a split with a bound of at
    least 1, made while no older request of the same operation id is in
    flight, when no background request is answered with status 200 and
    the final page fails too, afterError hands back the response and the
    error of the final page as they are, and the operation is gone from
    the store, whichever of the requests had come back before. *)
Theorem split_then_total_failure `{Platform}
  (operationID : string) (request : Request) (st : SplitPdfHook)
  (name : string) (content : Blob) (pages : list Blob) (c : HTTPClient)
  (steps : list Settlement)
  (response : option Response) (error : option JSError) :
  splits request st name content pages →
  client st = Some c →
  (0 < parallelLimit st)%Z →
  quiet operationID st = true →
  (∀ req, req ∈ backgroundRequests request name pages → accepted c req = None) →
  let st0 := snd (beforeRequest operationID request st) in
  let st1 := snd (background steps st0) in
  fst (afterError operationID response error st1) = Normal (response, error)
  ∧ no_operation operationID (snd (afterError operationID response error st1)).
Proof.
  intros Hsplit Hc Hlim Hq Hnone st0 st1.
  destruct (split_awaited operationID request st name content pages c steps
              Hsplit Hc Hlim Hq) as (h & Hp & Hpos & Hcol).
  fold st0 st1 in Hp, Hcol.
  rewrite (afterError_present _ _ _ _ _ Hp Hpos), Hcol.
  assert (omap (accepted c) (backgroundRequests request name pages) = []) as ->.
  { revert Hnone. generalize (backgroundRequests request name pages). intros l Hl.
    induction l as [|x l IH]; csimpl; [done|].
    rewrite (Hl x) by (by left). apply IH. intros req Hreq. apply Hl. by right. }
  split; [done|]. apply cleared_lookup.
Qed.

(** Pages [b] and [c] in the background, both lost. *)
Lemma split_then_total_failure_witness :
  fst (@afterError Sample.platform Scenario.op (Some Sample.errorResponse)
         (Some (LibraryError "status 500")) Scenario.split3)
  = Normal (Some Sample.errorResponse, Some (LibraryError "status 500")).
Proof.
  refine (proj1 (@split_then_total_failure Sample.platform Scenario.op
                   Scenario.failingPages Sample.ready "doc.pdf"
                   (Sample.pdfBlob "%PDFbcd")
                   (Sample.pdfBlob <$> ["%PDFb"; "%PDFc"; "%PDFd"])
                   Sample.transport [] (Some Sample.errorResponse)
                   (Some (LibraryError "status 500")) _ _ _ _ _)).
  - unfold splits. repeat split; try (vm_compute; reflexivity).
    exists Sample.transport. reflexivity.
  - reflexivity.
  - reflexivity.
  - reflexivity.
  - intros req Hreq. vm_compute in Hreq.
    repeat (apply elem_of_cons in Hreq as [->|Hreq]; [reflexivity|]).
    by apply elem_of_nil in Hreq.
Defined.



(** ** The store across operations *)

(** X12. Without an Operation for the id, the two response hooks are
    the identity: afterSuccess returns the response it was given and
    afterError the response and the error it was given, and neither
    changes the hook's state nor logs anything. *)
Theorem response_hooks_pass_through `{Platform}
  (operationID : string) (st : SplitPdfHook)
  (response : Response) (failed : option Response) (error : option JSError) :
  no_operation operationID st →
  afterSuccess operationID response st = (Normal response, st)
  ∧ afterError operationID failed error st = (Normal (failed, error), st).
Proof.
  intros Hno. pose proof Hno as [_ Hp]. split.
  - by apply afterSuccess_absent.
  - rewrite afterError_absent by done. by rewrite cleared_absent.
Qed.

(** A hook that never split anything. *)
Lemma response_hooks_pass_through_witness :
  @afterSuccess Sample.platform Scenario.op (Sample.okResponse "a,b") Sample.ready
  = (Normal (Sample.okResponse "a,b"), Sample.ready).
Proof.
  refine (proj1 (@response_hooks_pass_through Sample.platform Scenario.op
                   Sample.ready (Sample.okResponse "a,b") None None _)).
  split; reflexivity.
Defined.

(** X13. The operations do not interfere: beforeRequest, afterSuccess
    and afterError for one operation id, whether they return or throw,
    leave the response slots and the join handle of every other id, the
    client and the configured bound as they were. *)
Theorem other_operations_untouched `{Platform}
  (operationID other : string) (st : SplitPdfHook)
  (request : Request) (response : Response)
  (failed : option Response) (error : option JSError) :
  other ≠ operationID →
  ∀ st',
    st' = snd (beforeRequest operationID request st)
    ∨ st' = snd (afterSuccess operationID response st)
    ∨ st' = snd (afterError operationID failed error st) →
    partitionResponses st' !! other = partitionResponses st !! other
    ∧ partitionRequests st' !! other = partitionRequests st !! other
    ∧ client st' = client st
    ∧ parallelLimit st' = parallelLimit st.
Proof.
  intros Hne st' Hst'.
  assert (frame operationID st st') as (Hframe & Hc & Hl).
  { destruct Hst' as [->|[->| ->]].
    - apply frame_beforeRequest.
    - apply frame_afterSuccess.
    - apply frame_afterError. }
  destruct (Hframe other Hne) as [? ?]. done.
Qed.

(** A second operation is split and merged while the four-page one is in
    flight. *)
Lemma other_operations_untouched_witness :
  partitionRequests
    (snd (@afterSuccess Sample.platform "other" (Sample.okResponse "[9]")
            (snd (@beforeRequest Sample.platform "other" Scenario.onePage
                    Scenario.split4)))) !! Scenario.op
  = partitionRequests Scenario.split4 !! Scenario.op.
Proof.
  refine (eq_trans
    (proj1 (proj2 (@other_operations_untouched Sample.platform "other" Scenario.op
       (snd (@beforeRequest Sample.platform "other" Scenario.onePage Scenario.split4))
       Scenario.onePage (Sample.okResponse "[9]") None None _ _
       (or_intror (or_introl eq_refl)))))
    (proj1 (proj2 (@other_operations_untouched Sample.platform "other" Scenario.op
       Scenario.split4 Scenario.onePage (Sample.okResponse "[9]") None None _ _
       (or_introl eq_refl))))); discriminate.
Defined.

(** X14. A whole cycle gives the store back: when no Operation exists
    for the id, a split followed by afterSuccess or afterError that
    returns normally leaves both maps, the client and the bound exactly
    as they were before beforeRequest. *)
Theorem cycle_restores_store `{Platform}
  (operationID : string) (request : Request) (st : SplitPdfHook)
  (name : string) (content : Blob) (pages : list Blob)
  (response : Response) (failed : option Response) (error : option JSError) :
  splits request st name content pages →
  no_operation operationID st →
  let st0 := snd (beforeRequest operationID request st) in
  ∀ st',
    (∃ r, afterSuccess operationID response st0 = (Normal r, st'))
    ∨ (∃ r, afterError operationID failed error st0 = (Normal r, st')) →
    partitionResponses st' = partitionResponses st
    ∧ partitionRequests st' = partitionRequests st
    ∧ client st' = client st
    ∧ parallelLimit st' = parallelLimit st.
Proof.
  intros Hsplit [Hnr Hnp] st0 st' Hst'.
  assert (no_operation operationID st' ∧ frame operationID st st')
    as [[Hr Hp] (Hframe & Hc & Hl)].
  { assert (frame operationID st st0) as Hf0 by apply frame_beforeRequest.
    destruct Hst' as [[r E]|[r E]].
    - split.
      + destruct (partitionRequests st0 !! operationID) as [p|] eqn:Hp0.
        * destruct (Z.leb_spec (promise_limit p) 0) as [Hlim|Hlim].
          { by rewrite (afterSuccess_rejected _ _ _ p) in E. }
          rewrite (afterSuccess_present _ _ _ p) in E by done.
          destruct (prepareResponseBody _); [|done].
          injection E as _ <-. apply cleared_lookup.
        * exfalso. subst st0. pose proof Hsplit as (_ & _ & [c Hc] & _).
          rewrite (beforeRequest_split _ _ _ name content pages c) in Hp0 by done.
          destruct (registered_lookup operationID c
                      (derivedRequests request name pages) st) as (_ & Hp' & _).
          cbn [snd] in Hp0. by rewrite Hp' in Hp0.
      + eapply frame_trans; [exact Hf0|].
        replace st' with (snd (afterSuccess operationID response st0))
          by (by rewrite E).
        apply frame_afterSuccess.
    - split.
      + destruct (partitionRequests st0 !! operationID) as [p|] eqn:Hp0.
        * destruct (Z.leb_spec (promise_limit p) 0) as [Hlim|Hlim].
          { by rewrite (afterError_rejected _ _ _ _ p) in E. }
          rewrite (afterError_present _ _ _ _ p) in E by done.
          destruct (collected _ _) as [|okResponse ?].
          -- injection E as _ <-. apply cleared_lookup.
          -- destruct (prepareResponseBody _); [|done].
             destruct (merged okResponse _); [|done].
             injection E as _ <-. apply cleared_lookup.
        * rewrite afterError_absent in E by done. injection E as _ <-.
          apply cleared_lookup.
      + eapply frame_trans; [exact Hf0|].
        replace st' with (snd (afterError operationID failed error st0))
          by (by rewrite E).
        apply frame_afterError. }
  split; [|split; [|done]].
  - apply map_eq. intros id. destruct (decide (id = operationID)) as [->|Hne].
    + by rewrite Hr, Hnr.
    + by destruct (Hframe id Hne).
  - apply map_eq. intros id. destruct (decide (id = operationID)) as [->|Hne].
    + by rewrite Hp, Hnp.
    + by destruct (Hframe id Hne).
Qed.

(** The four-page scenario, split and merged from the fresh hook. *)
Lemma cycle_restores_store_witness :
  partitionResponses
    (snd (@afterSuccess Sample.platform Scenario.op (Sample.okResponse "[7]")
            Scenario.split4))
  = partitionResponses Sample.ready.
Proof.
  refine (proj1 (@cycle_restores_store Sample.platform Scenario.op
                   Scenario.fourPages Sample.ready "doc.pdf"
                   (Sample.pdfBlob "%PDFabcd")
                   (Sample.pdfBlob <$> ["%PDFa"; "%PDFb"; "%PDFc"; "%PDFd"])
                   (Sample.okResponse "[7]") None None _ _ _
                   (or_introl (ex_intro _
                      {| res_status := 200; res_statusText := "OK";
                         res_headers := [("content-type", "application/json")];
                         res_body := "[1,2,7]" |} _)))).
  - unfold splits. repeat split; try (vm_compute; reflexivity).
    exists Sample.transport. reflexivity.
  - split; reflexivity.
  - vm_compute. reflexivity.
Defined.

(** ** The schema of the request *)

Module PartitionRequest_schema_facts.
Import PartitionRequest_schema.

Lemma spreadDefined_lookup (key k : string) (x : JSValue) :
  spreadDefined key x !! k
  = if decide (key = k) then match x with VUndefined => None | _ => Some x end
    else None.
Proof.
  unfold spreadDefined.
  destruct x; simpl;
    [rewrite lookup_empty; by destruct (decide (key = k))|..];
    (destruct (decide (key = k)) as [->|Hne];
     [by rewrite lookup_singleton_eq|by rewrite lookup_singleton_ne]).
Qed.

(** X15. The two callbacks of the request schema undo each other: a
    validated wire object that goes through the inbound callback has the
    SDK shape and comes back from the outbound callback as it was, and
    the other way round for a validated SDK object.  A [null] API key
    stays a [null] under the renamed key; a key that is missing or
    [undefined] gives no key at all on the other side, never a key bound
    to [undefined]. *)
Theorem request_transforms_round_trip (v : gmap string JSValue) :
  (wireShaped v →
   sdkShaped (inboundTransform v) ∧ outboundTransform (inboundTransform v) = v)
  ∧ (sdkShaped v →
     wireShaped (outboundTransform v) ∧ inboundTransform (outboundTransform v) = v)
  ∧ inboundTransform v !! "unstructuredApiKey" ≠ Some VUndefined
  ∧ (prop "unstructured-api-key" v = VNull →
     inboundTransform v !! "unstructuredApiKey" = Some (VNull))
  ∧ (prop "unstructured-api-key" v = VUndefined →
     inboundTransform v !! "unstructuredApiKey" = None).
Proof.
  assert (∀ (a b a' b' : string) (w : gmap string JSValue),
            a ≠ b → a' ≠ b' →
            (∃ parameters, w !! a = Some (VObject parameters)) →
            (∀ x, w !! b = Some x → x = VNull ∨ ∃ key, x = VString key) →
            (∀ k, k ≠ a → k ≠ b → w !! k = None) →
            let w' := <[a' := prop a w]> (spreadDefined b' (prop b w)) in
            ((∃ parameters, w' !! a' = Some (VObject parameters))
             ∧ (∀ x, w' !! b' = Some x →
                     x = VNull ∨ ∃ key, x = VString key)
             ∧ ∀ k, k ≠ a' → k ≠ b' → w' !! k = None)
            ∧ <[a := prop a' w']> (spreadDefined b (prop b' w')) = w) as Hgen.
  { intros a b a' b' w Hab Hab' [parameters Hpar] Hkey Hother w'.
    assert (prop a w = VObject parameters) as Hpa by (unfold prop; by rewrite Hpar).
    assert (w' !! a' = Some (VObject parameters)) as Ha'.
    { unfold w'. by rewrite lookup_insert_eq, Hpa. }
    assert (w' !! b' = w !! b) as Hb'.
    { unfold w'. rewrite lookup_insert_ne by done.
      rewrite spreadDefined_lookup. rewrite decide_True by done.
      unfold prop. destruct (w !! b) as [x|] eqn:E; simpl; [|done].
      destruct (Hkey x eq_refl) as [->|[key ->]]; done. }
    split.
    - split; [by exists parameters|]. split.
      + intros x Hx. rewrite Hb' in Hx. by apply Hkey.
      + intros k Hka Hkb. unfold w'. rewrite lookup_insert_ne by done.
        rewrite spreadDefined_lookup. by rewrite decide_False.
    - apply map_eq. intros k.
      destruct (decide (k = a)) as [->|Hka].
      + rewrite lookup_insert_eq. unfold prop. by rewrite Ha', Hpar.
      + rewrite lookup_insert_ne by done. rewrite spreadDefined_lookup.
        destruct (decide (b = k)) as [<-|Hkb].
        * unfold prop. rewrite Hb'.
          destruct (w !! b) as [x|] eqn:E; simpl; [|done].
          destruct (Hkey x eq_refl) as [->|[key ->]]; done.
        * symmetry. by apply Hother. }
  split; [|split; [|split; [|split]]].
  - intros (Hpar & Hkey & Hother).
    by apply (Hgen "partition_parameters" "unstructured-api-key"
                "partitionParameters" "unstructuredApiKey").
  - intros (Hpar & Hkey & Hother).
    by apply (Hgen "partitionParameters" "unstructuredApiKey"
                "partition_parameters" "unstructured-api-key").
  - unfold inboundTransform. rewrite lookup_insert_ne by done.
    rewrite spreadDefined_lookup. rewrite decide_True by done.
    by destruct (prop "unstructured-api-key" v).
  - intros Hnull. unfold inboundTransform. rewrite lookup_insert_ne by done.
    rewrite spreadDefined_lookup. rewrite decide_True by done. by rewrite Hnull.
  - intros Hundef. unfold inboundTransform. rewrite lookup_insert_ne by done.
    rewrite spreadDefined_lookup. rewrite decide_True by done. by rewrite Hundef.
Qed.

(** A wire object with a [null] key goes there and back. *)
Lemma request_transforms_round_trip_witness :
  outboundTransform (inboundTransform nullKey) = nullKey.
Proof.
  refine (proj2 (proj1 (request_transforms_round_trip nullKey) _)).
  split; [|split].
  - eexists. vm_compute. reflexivity.
  - intros x Hx. left. vm_compute in Hx. by injection Hx as <-.
  - intros k Hk1 Hk2. unfold nullKey.
    rewrite lookup_insert_ne by done. by rewrite lookup_singleton_ne.
Defined.

End PartitionRequest_schema_facts.
